(** * acdb: the crypto envelope, the key bundle, the manifest stream and the
    backup orchestrator, as functions over byte lists.

    Sources embedded here: [shared/shared.go], [metadata/metadata.go],
    [acdbackup/acdbackup.go].  The record codec is written out from its
    description; the other libraries those files import (secretbox, scrypt,
    sha256, gzip and pgzip, goutil, the os and the network client) are
    interfaces: type classes whose laws appear as hypotheses of the theorems
    that need them.  Effects are explicit: random bytes and the scheduling of
    the key-zeroing goroutine are answers of the world, calls on the world
    are recorded in a trace. *)

From Stdlib Require Import ZArith List Lia Bool String Ascii.
From Stdlib Require Import Strings.Byte.
Import ListNotations.
Local Open Scope Z_scope.

Set Implicit Arguments.

Abbreviation length := List.length.

(** ** Go values *)

Definition bytes := list byte.

Definition Z_of_byte (b : byte) : Z := Z.of_N (Byte.to_N b).

Definition byte_of_Z (z : Z) : byte :=
  match Byte.of_N (Z.to_N (z mod 256)) with
  | Some b => b
  | None => x00
  end.

(** [bytes.Equal] *)
Fixpoint bytes_Equal (a b : bytes) : bool :=
  match a, b with
  | [], [] => true
  | x :: a', y :: b' => Byte.eqb x y && bytes_Equal a' b'
  | _, _ => false
  end.

(** A zeroed array [[n]byte{}]. *)
Definition zeroes (n : nat) : bytes := repeat x00 n.

(** [copy(dst[:], src)] into a fresh zeroed array of [n] bytes. *)
Definition copy_into (n : nat) (src : bytes) : bytes :=
  firstn n src ++ zeroes (n - length src).

(** The errors of [io]. *)
Inductive ioerr : Type :=
| EOF
| ErrUnexpectedEOF
| ErrIOOther (msg : string).

(** The error codes of the record codec's [UnmarshalError] that the decoder
    can raise on the types used here, with the wrapped [Err]. *)
Inductive xdr_error : Type :=
| XdrErrIO (e : ioerr)
| XdrErrOverflow
| XdrErrPadding
| XdrErrParseTime.

(** Run-time panics. *)
Inductive panic : Type :=
| SliceBoundsOutOfRange
| NilPointerDereference.

(** Every error value the embedded functions return. *)
Inductive error : Type :=
| ErrXdr (e : xdr_error)                (* *xdr.UnmarshalError *)
| ErrIo (e : ioerr)                     (* io.EOF and friends *)
| ErrCouldNotDecryptBody                (* "could not decrypt body" *)
| ErrCouldNotDecrypt                    (* "could not decrypt" *)
| ErrCouldNotUnmarshal                  (* "could not unmarshal" *)
| ErrInvalidCompression (c : bytes)     (* "invalid compression: %v" *)
| ErrVersion                            (* metadata.ErrVersion *)
| ErrCompression                        (* metadata.ErrCompression *)
| ErrType                               (* metadata.ErrType *)
| ErrTypeDir
| ErrTypeSymlink
| ErrTypeFile
| ErrRemoteObjectNotFound               (* "remote object not found" *)
| ErrSecretsNotIdentical                (* "remote secrets not identical to local secrets" *)
| ErrSecretsAppeared                    (* "secrets appeared unexpectedly" *)
| ErrNotFound                           (* acd.ErrNotFound *)
| ErrNotExist                           (* an error with os.IsNotExist *)
| CombinedError (StatusCode : Z)        (* acd.CombinedError *)
| ErrOther (msg : string).              (* any other library error *)

Inductive outcome (A : Type) : Type :=
| Ok (a : A)
| Err (e : error)
| Panic (p : panic).

Arguments Ok {A} a.
Arguments Err {A} e.
Arguments Panic {A} p.

Definition obind {A B} (m : outcome A) (f : A -> outcome B) : outcome B :=
  match m with
  | Ok a => f a
  | Err e => Err e
  | Panic p => Panic p
  end.

Declare Scope go_scope.
Delimit Scope go_scope with go.
Notation "x <- m ;; k" := (obind m (fun x => k))
  (at level 61, m at next level, right associativity) : go_scope.
Notation "' p <- m ;; k" := (obind m (fun p => k))
  (at level 61, p pattern, m at next level, right associativity) : go_scope.
Local Open Scope go_scope.

(** *** Slices

    A [[]byte] is a window on a backing array: [elems] are the [len(s)]
    visible bytes, [spare] the bytes of the array between [len(s)] and
    [cap(s)]. *)
Record slice : Type := mkSlice { elems : bytes; spare : bytes }.

Definition slice_of (l : bytes) : slice := mkSlice l [].
Definition slice_len (s : slice) : nat := length (elems s).
Definition slice_cap (s : slice) : nat := length (elems s) + length (spare s).

(** [s[lo:hi]]: in range when [lo <= hi <= cap(s)]. *)
Definition slice_range (s : slice) (lo hi : nat) : outcome bytes :=
  if (lo <=? hi)%nat && (hi <=? slice_cap s)%nat
  then Ok (firstn (hi - lo) (skipn lo (elems s ++ spare s)))
  else Panic SliceBoundsOutOfRange.

(** [s[lo:]]: the upper bound defaults to [len(s)]. *)
Definition slice_from (s : slice) (lo : nat) : outcome bytes :=
  if (lo <=? slice_len s)%nat
  then Ok (skipn lo (elems s))
  else Panic SliceBoundsOutOfRange.

(** [encoding/hex.EncodeToString]: two lowercase digits per byte. *)
Definition hex_digit (n : N) : ascii :=
  match n with
  | 0%N => "0" | 1%N => "1" | 2%N => "2" | 3%N => "3"
  | 4%N => "4" | 5%N => "5" | 6%N => "6" | 7%N => "7"
  | 8%N => "8" | 9%N => "9" | 10%N => "a" | 11%N => "b"
  | 12%N => "c" | 13%N => "d" | 14%N => "e" | _ => "f"
  end%char.

Fixpoint hex_EncodeToString (l : bytes) : string :=
  match l with
  | [] => EmptyString
  | b :: l' =>
      String (hex_digit (Byte.to_N b / 16))
        (String (hex_digit (Byte.to_N b mod 16)) (hex_EncodeToString l'))
  end.

(** *** Readers

    An [io.Reader] that delivers [rd_data] and then reports [rd_end] on every
    further [Read]. *)
Record reader : Type := mkReader { rd_data : bytes; rd_end : ioerr }.

(** [bytes.NewReader] and an [*os.File] read from its start. *)
Definition bytes_NewReader (l : bytes) : reader := mkReader l EOF.

Definition rd_prepend (l : bytes) (r : reader) : reader :=
  mkReader (l ++ rd_data r) (rd_end r).

(** [io.ReadFull(r, buf)] with [len(buf) = n]. *)
Definition io_ReadFull (n : nat) (r : reader) : (bytes + ioerr) * reader :=
  if (n <=? length (rd_data r))%nat
  then (inl (firstn n (rd_data r)), mkReader (skipn n (rd_data r)) (rd_end r))
  else
    (inr match rd_data r, rd_end r with
         | [], e => e
         | _ :: _, EOF => ErrUnexpectedEOF
         | _ :: _, e => e
         end,
     mkReader [] (rd_end r)).

(** [io.Copy(dst, r)] on the reading side: everything up to [io.EOF]. *)
Definition io_ReadAll (r : reader) : outcome bytes :=
  match rd_end r with
  | EOF => Ok (rd_data r)
  | e => Err (ErrIo e)
  end.

(** ** The XDR codec (package [xdr], imported from go-xdr)

    Modelled from the spec: the big-endian record codec of the specification:
    fixed-width signed and unsigned 32- and 64-bit integers, fixed-length
    byte arrays and length-prefixed strings padded with zeros to a four-byte
    boundary, structs as the concatenation of their fields in declaration
    order.  The decoder is strict: a read past the end of the input fails
    with an IO error, padding that is not zero is refused.  The encoder
    issues one [Write] per item, so an encoding is a list of chunks. *)
Module XDR.

Definition MaxInt32 : Z := 2147483647.

  (** [n] bytes, most significant first, of [v] modulo [2^(8n)]. *)
Fixpoint be_bytes (n : nat) (v : Z) : bytes :=
    match n with
    | O => []
    | S n' => be_bytes n' (v / 256) ++ [byte_of_Z v]
    end.

Definition be_value (l : bytes) : Z :=
    fold_left (fun acc b => acc * 256 + Z_of_byte b) l 0.

  (** Reinterpretation of an unsigned [bits]-bit pattern as two's complement. *)
Definition to_signed (bits : Z) (v : Z) : Z :=
    if v <? 2 ^ (bits - 1) then v else v - 2 ^ bits.

Definition pad_len (l : nat) : nat := ((4 - (l mod 4)) mod 4)%nat.

  (** *** Encoder *)
Definition EncodeInt (v : Z) : list bytes := [be_bytes 4 v].
Definition EncodeUint (v : Z) : list bytes := [be_bytes 4 v].
Definition EncodeHyper (v : Z) : list bytes := [be_bytes 8 v].
Definition EncodeUhyper (v : Z) : list bytes := [be_bytes 8 v].

Definition EncodeFixedOpaque (v : bytes) : list bytes :=
    v :: (if (0 <? pad_len (length v))%nat then [zeroes (pad_len (length v))] else []).

Definition EncodeString (s : string) : list bytes :=
    EncodeUint (Z.of_nat (String.length s))
      ++ EncodeFixedOpaque (list_byte_of_string s).

  (** *** Decoder: a reader transformer *)
Definition dec (A : Type) : Type := reader -> (A + xdr_error) * reader.

Definition dret {A} (a : A) : dec A := fun r => (inl a, r).
Definition dfail {A} (e : xdr_error) : dec A := fun r => (inr e, r).
Definition dbind {A B} (m : dec A) (f : A -> dec B) : dec B :=
    fun r => match m r with
             | (inl a, r') => f a r'
             | (inr e, r') => (inr e, r')
             end.

Definition read_full (n : nat) : dec bytes :=
    fun r => match io_ReadFull n r with
             | (inl b, r') => (inl b, r')
             | (inr e, r') => (inr (XdrErrIO e), r')
             end.

Definition DecodeUint : dec Z :=
    dbind (read_full 4) (fun b => dret (be_value b)).
Definition DecodeInt : dec Z :=
    dbind (read_full 4) (fun b => dret (to_signed 32 (be_value b))).
Definition DecodeUhyper : dec Z :=
    dbind (read_full 8) (fun b => dret (be_value b)).
Definition DecodeHyper : dec Z :=
    dbind (read_full 8) (fun b => dret (to_signed 64 (be_value b))).

  (** [DecodeFixedOpaque(size)]: nothing is read for [size = 0]; the padding
      is read with the data and must be zero. *)
Definition DecodeFixedOpaque (size : nat) : dec bytes :=
    if (size =? 0)%nat then dret []
    else if MaxInt32 <? Z.of_nat (size + pad_len size) then dfail XdrErrOverflow
    else dbind (read_full (size + pad_len size))
               (fun b => if forallb (Byte.eqb x00) (skipn size b)
                         then dret (firstn size b)
                         else dfail XdrErrPadding).

Definition DecodeString : dec string :=
    dbind DecodeUint (fun dataLen =>
      if MaxInt32 <? dataLen then dfail XdrErrOverflow
      else dbind (DecodeFixedOpaque (Z.to_nat dataLen))
                 (fun b => dret (string_of_list_byte b))).

(** *** Values that survive the wire *)

(** A decoder that consumes exactly [l] and then yields [a]. *)
Definition decodes {A} (m : dec A) (l : bytes) (a : A) : Prop :=
  forall r, m (rd_prepend l r) = (inl a, r).

Definition fits_uint32 (v : Z) : Prop := 0 <= v < 2 ^ 32.
Definition fits_int32 (v : Z) : Prop := - 2 ^ 31 <= v < 2 ^ 31.
Definition fits_uint64 (v : Z) : Prop := 0 <= v < 2 ^ 64.
Definition fits_int64 (v : Z) : Prop := - 2 ^ 63 <= v < 2 ^ 63.

(** A byte count the decoder accepts: its padded size is an [int32]. *)
Definition xdr_len_ok (n : nat) : Prop := Z.of_nat (n + pad_len n) <= MaxInt32.

End XDR.

Declare Scope xdr_scope.
Delimit Scope xdr_scope with xdr.
Notation "x <~ m ;; k" := (XDR.dbind m (fun x => k))
  (at level 61, m at next level, right associativity) : xdr_scope.

(** ** Library interfaces *)

(** [crypto/sha256], [crypto/hmac], [nacl/secretbox] and [scrypt].
    [secretbox_Seal message nonce key] is [secretbox.Seal(nil, message, nonce,
    key)]; [secretbox_Open box nonce key] is [None] when the authenticator
    rejects. *)
Class Crypto : Type := {
  sha256_Sum : bytes -> bytes;
  hmac_sha256 : bytes -> bytes -> bytes;
  secretbox_Seal : bytes -> bytes -> bytes -> bytes;
  secretbox_Open : bytes -> bytes -> bytes -> option bytes;
  scrypt_Key : bytes -> bytes -> Z -> Z -> Z -> nat -> outcome bytes
}.

(** [compress/gzip] and [klauspost/pgzip]: a writer is a state machine whose
    every call hands some bytes to the underlying writer; [pgzip_NewReader]
    reads the gzip header from its source and returns the reader of the
    decompressed stream. *)
Class Flate : Type := {
  gzip_Writer : Type;
  gzip_NewWriter : gzip_Writer;
  gzip_Write : gzip_Writer -> bytes -> gzip_Writer * bytes;
  gzip_Flush : gzip_Writer -> gzip_Writer * bytes;
  gzip_Close : gzip_Writer -> gzip_Writer * bytes;
  pgzip_Writer : Type;
  pgzip_NewWriter : pgzip_Writer;
  pgzip_Write : pgzip_Writer -> bytes -> pgzip_Writer * bytes;
  pgzip_Flush : pgzip_Writer -> pgzip_Writer * bytes;
  pgzip_Close : pgzip_Writer -> pgzip_Writer * bytes;
  pgzip_NewReader : reader -> outcome reader
}.

(** An open [*os.File]: what [Stat().Size()] and reading it to the end give. *)
Record os_File : Type := mkFile { f_Stat_Size : outcome Z; f_contents : outcome bytes }.

(** [goutil] and [os] on the local tree.  Each call is its own oracle, so
    that any one of them can fail on a file the others could read. *)
Class Files : Type := {
  goutil_FileSHA256 : string -> outcome bytes;
  goutil_FileHMACSHA256 : string -> bytes -> outcome bytes;
  goutil_FileCompressible : string -> outcome (string * bool);
  os_Open : string -> outcome os_File
}.

(** ** [bufio.Writer] *)
Module bufio.

Definition defaultBufSize : nat := 4096.

  (** The state is the buffered, not yet written, bytes.  [Write] returns
      the new buffer and what went to the underlying writer. *)
Definition Write (buffered p : bytes) : bytes * bytes :=
    if (length p <=? defaultBufSize - length buffered)%nat then (buffered ++ p, [])
    else
      match buffered with
      | [] => ([], p)
      | _ =>
          let n := (defaultBufSize - length buffered)%nat in
          let p' := skipn n p in
          if (length p' <=? defaultBufSize)%nat
          then (p', buffered ++ firstn n p)
          else ([], (buffered ++ firstn n p) ++ p')
      end.

Definition Flush (buffered : bytes) : bytes * bytes := ([], buffered).

End bufio.

(** ** The [io.Writer] values the program builds *)
Section Writers.
Context {FL : Flate}.

Inductive io_Writer : Type :=
  | BufioWriter (buffered : bytes)
  | GzipWriter (z : gzip_Writer)
  | PgzipWriter (z : pgzip_Writer).

Definition writer_Write (w : io_Writer) (p : bytes) : io_Writer * bytes :=
    match w with
    | BufioWriter b => let '(b', out) := bufio.Write b p in (BufioWriter b', out)
    | GzipWriter z => let '(z', out) := gzip_Write z p in (GzipWriter z', out)
    | PgzipWriter z => let '(z', out) := pgzip_Write z p in (PgzipWriter z', out)
    end.

  (** [Flush()] of each of the three. *)
Definition writer_Flush (w : io_Writer) : io_Writer * bytes :=
    match w with
    | BufioWriter b => let '(b', out) := bufio.Flush b in (BufioWriter b', out)
    | GzipWriter z => let '(z', out) := gzip_Flush z in (GzipWriter z', out)
    | PgzipWriter z => let '(z', out) := pgzip_Flush z in (PgzipWriter z', out)
    end.

  (** The assertion [w.(io.WriteCloser)] and its [Close()]: [bufio.Writer]
      has no [Close]. *)
Definition writer_Close (w : io_Writer) : option (io_Writer * bytes) :=
    match w with
    | BufioWriter _ => None
    | GzipWriter z => let '(z', out) := gzip_Close z in Some (GzipWriter z', out)
    | PgzipWriter z => let '(z', out) := pgzip_Close z in Some (PgzipWriter z', out)
    end.

  (** A run of [Write] calls; the second component accumulates what reached
      the underlying writer. *)
Fixpoint writer_Writes (w : io_Writer) (chunks : list bytes) : io_Writer * bytes :=
    match chunks with
    | [] => (w, [])
    | p :: rest =>
        let '(w1, out1) := writer_Write w p in
        let '(w2, out2) := writer_Writes w1 rest in
        (w2, out1 ++ out2)
    end.

  (** [io.Copy(w, f)] on the writing side: the content arrives in reads of
      32 KiB. *)
Definition copyBufSize : nat := Z.to_nat (32 * 1024).

Fixpoint io_Copy_chunks (fuel : nat) (content : bytes) : list bytes :=
    match fuel, content with
    | S fuel', _ :: _ =>
        firstn copyBufSize content :: io_Copy_chunks fuel' (skipn copyBufSize content)
    | _, _ => []
    end.

Definition io_Copy (w : io_Writer) (content : bytes) : io_Writer * bytes :=
    writer_Writes w (io_Copy_chunks (length content) content).

End Writers.

(** ** Package [shared] *)
Module shared.
Section Shared.
Context {CR : Crypto} {FL : Flate} {FS : Files}.

Definition Version : Z := 1.
Definition KeySize : nat := 32.
Definition NonceSize : nat := 24.

Definition CompNone : bytes := ["n"; "o"; "n"; "e"]%byte.
Definition CompGZIP : bytes := ["g"; "z"; "i"; "p"]%byte.

Record Keys : Type := mkKeys {
    MD : bytes;      (* [KeySize]byte, uploaded metadata key *)
    Data : bytes;    (* [KeySize]byte, uploaded data key *)
    Dedup : bytes    (* [KeySize]byte, hmac key for dedup collisions *)
  }.

Record Header : Type := mkHeader {
    hVersion : Z;         (* int *)
    Compression : bytes;  (* [4]byte *)
    Size : Z;             (* uint64 *)
    Digest : bytes;       (* [sha256.Size]byte *)
    MimeType : string
  }.

  (** [xdr.Marshal] and [xdr.Unmarshal] at the two struct types. *)
Definition Marshal_Keys (k : Keys) : list bytes :=
    XDR.EncodeFixedOpaque (MD k) ++ XDR.EncodeFixedOpaque (Data k)
      ++ XDR.EncodeFixedOpaque (Dedup k).

Definition Unmarshal_Keys : XDR.dec Keys :=
    (md <~ XDR.DecodeFixedOpaque KeySize ;;
     data <~ XDR.DecodeFixedOpaque KeySize ;;
     dedup <~ XDR.DecodeFixedOpaque KeySize ;;
     XDR.dret (mkKeys md data dedup))%xdr.

Definition Marshal_Header (h : Header) : list bytes :=
    XDR.EncodeInt (hVersion h) ++ XDR.EncodeFixedOpaque (Compression h)
      ++ XDR.EncodeUhyper (Size h) ++ XDR.EncodeFixedOpaque (Digest h)
      ++ XDR.EncodeString (MimeType h).

Definition Unmarshal_Header : XDR.dec Header :=
    (v <~ XDR.DecodeInt ;;
     c <~ XDR.DecodeFixedOpaque 4 ;;
     sz <~ XDR.DecodeUhyper ;;
     d <~ XDR.DecodeFixedOpaque 32 ;;
     m <~ XDR.DecodeString ;;
     XDR.dret (mkHeader v c sz d m))%xdr.

  (** What [secretbox] reads from [key] while the goroutine started by
      [go func() { goutil.Zero(key[:]) }()] may already be clearing it:
      [cleared] marks the bytes that goroutine has overwritten by the time
      they are read.  No mark means the goroutine runs after the key's use. *)
Fixpoint observed_key (cleared : list bool) (key : bytes) : bytes :=
    match key, cleared with
    | k :: key', c :: cleared' => (if c then x00 else k) :: observed_key cleared' key'
    | _, [] => key
    | [], _ => []
    end.

  (** [Keys.Encrypt].  [salt] and [nonce] are the bytes [rand.Reader]
      delivers; the blob is [salt][nonce][encrypted keys]. *)
Definition Encrypt (k : Keys) (password : bytes) (N r p : Z)
             (salt nonce : bytes) (cleared : list bool) : outcome bytes :=
    let keysXDR := List.concat (Marshal_Keys k) in
    dk <- scrypt_Key password salt N r p KeySize ;;
    let key := copy_into KeySize dk in
    let ksEncrypted := secretbox_Seal keysXDR nonce (observed_key cleared key) in
    let '(w1, o1) := bufio.Write [] salt in
    let '(w2, o2) := bufio.Write w1 nonce in
    let '(w3, o3) := bufio.Write w2 ksEncrypted in
    let '(_, o4) := bufio.Flush w3 in
    Ok (o1 ++ o2 ++ o3 ++ o4).

  (** [KeysDecrypt] *)
Definition KeysDecrypt (password : bytes) (N r p : Z) (blob : slice)
             (cleared : list bool) : outcome Keys :=
    s <- slice_range blob 0 KeySize ;;
    let salt := copy_into KeySize s in
    n <- slice_range blob KeySize (KeySize + NonceSize) ;;
    let nonce := copy_into NonceSize n in
    dk <- scrypt_Key password salt N r p KeySize ;;
    let key := copy_into KeySize dk in
    box <- slice_from blob (KeySize + NonceSize) ;;
    match secretbox_Open box nonce (observed_key cleared key) with
    | None => Err ErrCouldNotDecrypt
    | Some ksXDR =>
        match Unmarshal_Keys (bytes_NewReader ksXDR) with
        | (inl k, _) => Ok k
        | (inr _, _) => Err ErrCouldNotUnmarshal
        end
    end.

  (** [FileNaClEncrypt].  [nonce] is what [NaClNonce] returns. *)
Definition FileNaClEncrypt (filename : string) (compress : bool)
             (key nonce : bytes) : outcome bytes :=
    fd <- goutil_FileSHA256 filename ;;
    '(mime, comp0) <- goutil_FileCompressible filename ;;
    let compression := if compress && comp0 then CompGZIP else CompNone in
    let comp := if compress then comp0 else false in
    f <- os_Open filename ;;
    size <- f_Stat_Size f ;;
    let payloadHeader := mkHeader Version compression (size mod 2 ^ 64) fd mime in
    let '(pw1, p1) := bufio.Write [] nonce in
    let b0 := List.concat (Marshal_Header payloadHeader) in
    let w := if comp
             then if 1024 * 1024 <? size
                  then PgzipWriter pgzip_NewWriter
                  else GzipWriter gzip_NewWriter
             else BufioWriter [] in
    content <- f_contents f ;;
    let '(w1, out1) := io_Copy w content in
    let out2 := match writer_Close w1 with
                | Some (_, out) => out
                | None => snd (writer_Flush w1)
                end in
    let b := b0 ++ out1 ++ out2 in
    let encryptedPayload := secretbox_Seal b nonce key in
    let '(pw2, p2) := bufio.Write pw1 encryptedPayload in
    let '(_, p3) := bufio.Flush pw2 in
    Ok (p1 ++ p2 ++ p3).

  (** [NaClDecrypt] *)
Definition NaClDecrypt (body : slice) (key : bytes) : outcome (Header * bytes) :=
    n <- slice_range body 0 NonceSize ;;
    let nonce := copy_into NonceSize n in
    box <- slice_from body NonceSize ;;
    match secretbox_Open box nonce key with
    | None => Err ErrCouldNotDecryptBody
    | Some payload =>
        match Unmarshal_Header (bytes_NewReader payload) with
        | (inr e, _) => Err (ErrXdr e)
        | (inl mh, r) =>
            rd <- (if bytes_Equal (Compression mh) CompNone then Ok r
                   else if bytes_Equal (Compression mh) CompGZIP then pgzip_NewReader r
                   else Err (ErrInvalidCompression (Compression mh))) ;;
            cleartext <- io_ReadAll rd ;;
            Ok (mh, cleartext)
        end
    end.

End Shared.
End shared.

(** ** Package [metadata] *)

(** The wire form of [time.Time] is the codec library's business: an encoder
    and a decoder. *)
Class TimeCodec : Type := {
  Time : Type;
  Encode_Time : Time -> list bytes;
  Decode_Time : XDR.dec Time
}.

(** [filepath] on the local tree. *)
Class Filepath : Type := {
  filepath_IsAbs : string -> bool;
  filepath_EvalSymlinks : string -> outcome string;
  filepath_Rel : string -> string -> outcome string
}.

(** [os.FileInfo]: [fi_Sys] is [Some] when [fi.Sys()] is a [*syscall.Stat_t]. *)
Record Stat_t : Type := mkStat { Uid : Z; Gid : Z }.   (* uint32 *)

Record os_FileInfo {TC : TimeCodec} : Type := mkFileInfo {
  fi_Mode : Z;        (* os.FileMode, uint32 *)
  fi_Size : Z;        (* int64 *)
  fi_ModTime : Time;
  fi_Sys : option Stat_t
}.

Arguments mkFileInfo {TC} fi_Mode fi_Size fi_ModTime fi_Sys.

Module metadata.
Section Metadata.
Context {FL : Flate} {TC : TimeCodec} {FP : Filepath}.

Definition Version : Z := 1.

Definition CompNone : bytes := ["n"; "o"; "n"; "e"]%byte.
Definition CompGZIP : bytes := ["g"; "z"; "i"; "p"]%byte.

Definition TypeDir : bytes := ["d"; "i"; "r"; x00]%byte.
Definition TypeSymlink : bytes := ["s"; "y"; "m"; "l"]%byte.
Definition TypeFile : bytes := ["f"; "i"; "l"; "e"]%byte.

Record Header : Type := mkHeader {
    hVersion : Z;          (* int *)
    Compression : bytes    (* [4]byte *)
  }.

Record File : Type := mkFile {
    fName : string;
    fMode : Z;             (* os.FileMode *)
    fOwner : Z;            (* int *)
    fGroup : Z;            (* int *)
    fSize : Z;             (* int64 *)
    fModified : Time;
    fMimeType : string;
    fDigest : bytes        (* [sha256.Size]byte *)
  }.

Record Symlink : Type := mkSymlink {
    sName : string;
    sLink : string
  }.

Record Dir : Type := mkDir {
    dName : string;
    dMode : Z;
    dOwner : Z;
    dGroup : Z;
    dModified : Time
  }.

  (** What [Next] returns in its [interface{}]. *)
Inductive entry : Type :=
  | EDir (d : Dir)
  | ESymlink (s : Symlink)
  | EFile (f : File).

  (** [Encode] at each struct type: the fields in declaration order. *)
Definition Marshal_Header (h : Header) : list bytes :=
    XDR.EncodeInt (hVersion h) ++ XDR.EncodeFixedOpaque (Compression h).

Definition Marshal_Dir (d : Dir) : list bytes :=
    XDR.EncodeString (dName d) ++ XDR.EncodeUint (dMode d)
      ++ XDR.EncodeInt (dOwner d) ++ XDR.EncodeInt (dGroup d)
      ++ Encode_Time (dModified d).

Definition Marshal_Symlink (s : Symlink) : list bytes :=
    XDR.EncodeString (sName s) ++ XDR.EncodeString (sLink s).

Definition Marshal_File (f : File) : list bytes :=
    XDR.EncodeString (fName f) ++ XDR.EncodeUint (fMode f)
      ++ XDR.EncodeInt (fOwner f) ++ XDR.EncodeInt (fGroup f)
      ++ XDR.EncodeHyper (fSize f) ++ Encode_Time (fModified f)
      ++ XDR.EncodeString (fMimeType f) ++ XDR.EncodeFixedOpaque (fDigest f).

Definition Unmarshal_Header : XDR.dec Header :=
    (v <~ XDR.DecodeInt ;;
     c <~ XDR.DecodeFixedOpaque 4 ;;
     XDR.dret (mkHeader v c))%xdr.

Definition Unmarshal_Dir : XDR.dec Dir :=
    (n <~ XDR.DecodeString ;;
     m <~ XDR.DecodeUint ;;
     o <~ XDR.DecodeInt ;;
     g <~ XDR.DecodeInt ;;
     t <~ Decode_Time ;;
     XDR.dret (mkDir n m o g t))%xdr.

Definition Unmarshal_Symlink : XDR.dec Symlink :=
    (n <~ XDR.DecodeString ;;
     l <~ XDR.DecodeString ;;
     XDR.dret (mkSymlink n l))%xdr.

Definition Unmarshal_File : XDR.dec File :=
    (n <~ XDR.DecodeString ;;
     m <~ XDR.DecodeUint ;;
     o <~ XDR.DecodeInt ;;
     g <~ XDR.DecodeInt ;;
     sz <~ XDR.DecodeHyper ;;
     t <~ Decode_Time ;;
     mt <~ XDR.DecodeString ;;
     d <~ XDR.DecodeFixedOpaque 32 ;;
     XDR.dret (mkFile n m o g sz t mt d))%xdr.

  (** *** Decoder *)
Record MetadataDecoder : Type := mkDecoder { d : reader }.

Definition NewDecoder (r : reader) : outcome MetadataDecoder :=
    match Unmarshal_Header r with
    | (inr e, _) => Err (ErrXdr e)
    | (inl h, r') =>
        if negb (hVersion h =? Version) then Err ErrVersion
        else if bytes_Equal (Compression h) CompNone then Ok (mkDecoder r')
        else if bytes_Equal (Compression h) CompGZIP then
          br <- pgzip_NewReader r' ;;
          Ok (mkDecoder br)
        else Err ErrCompression
    end.

Definition IsEOF (e : xdr_error) : bool :=
    match e with
    | XdrErrIO EOF | XdrErrIO ErrUnexpectedEOF => true
    | _ => false
    end.

  (** [Next]: [io.EOF] is [Err (ErrIo EOF)]. *)
Definition Next (m : MetadataDecoder) : outcome entry * MetadataDecoder :=
    match XDR.DecodeFixedOpaque 4 (d m) with
    | (inr e, r) => (Err (if IsEOF e then ErrIo EOF else ErrType), mkDecoder r)
    | (inl t, r) =>
        if bytes_Equal t TypeDir then
          match Unmarshal_Dir r with
          | (inl dir, r') => (Ok (EDir dir), mkDecoder r')
          | (inr _, r') => (Err ErrTypeDir, mkDecoder r')
          end
        else if bytes_Equal t TypeSymlink then
          match Unmarshal_Symlink r with
          | (inl symlink, r') => (Ok (ESymlink symlink), mkDecoder r')
          | (inr _, r') => (Err ErrTypeSymlink, mkDecoder r')
          end
        else if bytes_Equal t TypeFile then
          match Unmarshal_File r with
          | (inl file, r') => (Ok (EFile file), mkDecoder r')
          | (inr _, r') => (Err ErrTypeFile, mkDecoder r')
          end
        else (Err ErrType, mkDecoder r)
    end.

  (** *** Encoder

      [w] is what has reached the underlying writer (the manifest file);
      [bw] is the writer the record encoder [e] writes into.  Writes into the
      file do not fail here. *)
Record MetadataEncoder : Type := mkEncoder { w : bytes; bw : io_Writer }.

  (** [m.e.Encode(v)], given the encoding of [v]. *)
Definition e_Encode (m : MetadataEncoder) (chunks : list bytes) : MetadataEncoder :=
    let '(bw', out) := writer_Writes (bw m) chunks in
    mkEncoder (w m ++ out) bw'.

Definition NewEncoder (w0 : bytes) (compress : bool) : MetadataEncoder :=
    let h := mkHeader Version (if compress then CompGZIP else CompNone) in
    mkEncoder (w0 ++ List.concat (Marshal_Header h))
              (if compress then GzipWriter gzip_NewWriter else BufioWriter []).

Definition stat_of (fi : os_FileInfo) : Stat_t :=
    match fi_Sys fi with
    | Some st => st
    | None => mkStat 4294967295 4294967295    (* 0xffffffff *)
    end.

Definition Dir_of (path : string) (fi : os_FileInfo) : Dir :=
    mkDir path (fi_Mode fi) (Uid (stat_of fi)) (Gid (stat_of fi)) (fi_ModTime fi).

  (** [MetadataEncoder.Dir] *)
Definition EncDir (m : MetadataEncoder) (path : string) (fi : os_FileInfo)
    : MetadataEncoder * outcome unit :=
    let m1 := e_Encode m (XDR.EncodeFixedOpaque TypeDir) in
    (e_Encode m1 (Marshal_Dir (Dir_of path fi)), Ok tt).

  (** [MetadataEncoder.Symlink]: the tag is written before the link is
      resolved. *)
Definition EncSymlink (m : MetadataEncoder) (path : string) (fi : os_FileInfo)
    : MetadataEncoder * outcome unit :=
    let m1 := e_Encode m (XDR.EncodeFixedOpaque TypeSymlink) in
    let link :=
      if filepath_IsAbs path then filepath_EvalSymlinks path
      else (l <- filepath_EvalSymlinks path ;; filepath_Rel path l) in
    match link with
    | Ok l => (e_Encode m1 (Marshal_Symlink (mkSymlink path l)), Ok tt)
    | Err e => (m1, Err e)
    | Panic p => (m1, Panic p)
    end.

Definition File_of (path : string) (fi : os_FileInfo) (mime : string)
             (digest : option bytes) : File :=
    mkFile path (fi_Mode fi) (Uid (stat_of fi)) (Gid (stat_of fi)) (fi_Size fi)
           (fi_ModTime fi) mime
           (match digest with Some dg => dg | None => zeroes 32 end).

  (** [MetadataEncoder.File] *)
Definition EncFile (m : MetadataEncoder) (path : string) (fi : os_FileInfo)
             (mime : string) (digest : option bytes)
    : MetadataEncoder * outcome unit :=
    let m1 := e_Encode m (XDR.EncodeFixedOpaque TypeFile) in
    (e_Encode m1 (Marshal_File (File_of path fi mime digest)), Ok tt).

  (** [Flush]: every writer [NewEncoder] can install has a [Flush() error]. *)
Definition Flush (m : MetadataEncoder) : MetadataEncoder :=
    let '(bw', out) := writer_Flush (bw m) in
    mkEncoder (w m ++ out) bw'.

End Metadata.
End metadata.


(** ** Package [main] (acdbackup) *)

(** [path.Join] of two elements and [path.Dir]. *)
Class PathLib : Type := {
  path_Join : string -> string -> string;
  path_Dir : string -> string
}.

(** [acd.Asset], the two fields the program reads. *)
Record Asset : Type := mkAsset { ID : string; aName : string }.

(** What [fmt.Printf] is asked to print. *)
Inductive message : Type :=
| MsgSkippingError (path : string) (e : error)     (* "skipping %v error: %v\n" *)
| MsgSkipping (path : string) (e : error)          (* "skipping %v: %v\n" *)
| MsgUnsupported (path : string)                   (* "skipping %v: unsuported file type\n" *)
| MsgShouldNotHappen (e : error)                   (* "should not happen %T: %v\n" *)
| MsgVerbose (mode size : Z) (path ds : string)    (* "%v %15v %v%v\n" *)
| MsgNoSecrets                                     (* "Cloud Drive does not have a copy ..." *)
| MsgNoPasswordFile                                (* "There is no local password file. ..." *)
| MsgInvalidPassword (e : error).                  (* "invalid password: %v\n" *)

Section Events.
Context {TC : TimeCodec}.

(** The calls the program makes on the world outside it, in order. *)
Inductive event : Type :=
| EvPrintf (m : message)
| EvGetMetadataFS (filepath : string)
| EvDownloadJSON (id : string)
| EvUploadJSON (parent filename : string) (payload : bytes)
| EvMkdirAll (path : string) (perm : Z)
| EvCreate (name : string)
| EvTempFile (dir prefix : string)
| EvWrite (name : string) (b : bytes)
| EvRename (oldpath newpath : string)
| EvChmod (name : string) (mode : Z)
| EvChtimes (name : string) (atime mtime : Time)
| EvChown (name : string) (uid gid : Z)
| EvReadPassword
| EvPromptPassword (save : bool)
| EvWritePassword (password : bytes).

(** The world's answers, each a function of the calls made so far. *)
Class World : Type := {
  acd_GetMetadataFS : list event -> string -> outcome Asset;
  acd_DownloadJSON : list event -> string -> outcome slice;
  acd_UploadJSON : list event -> string -> string -> bytes -> outcome Asset;
  os_MkdirAll : list event -> string -> Z -> outcome unit;
  os_Create : list event -> string -> outcome unit;
  ioutil_TempFile : list event -> string -> string -> outcome string;
  file_Write : list event -> string -> bytes -> outcome unit;
  os_Rename : list event -> string -> string -> outcome unit;
  os_Chmod : list event -> string -> Z -> outcome unit;
  os_Chtimes : list event -> string -> Time -> Time -> outcome unit;
  os_Chown : list event -> string -> Z -> Z -> outcome unit;
  shared_ReadPassword : list event -> outcome bytes;
  shared_PromptPassword : list event -> bool -> outcome bytes;
  shared_WritePassword : list event -> bytes -> outcome unit;
  (* the bytes rand.Reader delivers to a read of the given length *)
  rand_Read : list event -> nat -> bytes;
  (* how far the key-zeroing goroutine has got when secretbox reads the key *)
  go_Zero_cleared : list event -> list bool
}.

(** The program's effects: a function of the trace so far that returns a
    result and the extended trace. *)
Definition IO (A : Type) : Type := list event -> outcome A * list event.

Definition ioret {A} (a : A) : IO A := fun tr => (Ok a, tr).

Definition iobind {A B} (m : IO A) (f : A -> IO B) : IO B :=
  fun tr =>
    match m tr with
    | (Ok a, tr') => f a tr'
    | (Err e, tr') => (Err e, tr')
    | (Panic p, tr') => (Panic p, tr')
    end.

(** A pure step. *)
Definition lift {A} (o : outcome A) : IO A := fun tr => (o, tr).

(** A call on the world. *)
Definition call {A} (ev : event) (answer : list event -> outcome A) : IO A :=
  fun tr => (answer tr, tr ++ [ev]).

(** [v, err := f()] followed by a test of [err]: errors become values,
    panics still unwind. *)
Definition try {A} (m : IO A) : IO (A + error) :=
  fun tr =>
    match m tr with
    | (Ok a, tr') => (Ok (inl a), tr')
    | (Err e, tr') => (Ok (inr e), tr')
    | (Panic p, tr') => (Panic p, tr')
    end.

Definition Printf (m : message) : IO unit :=
  call (EvPrintf m) (fun _ => Ok tt).

(** The calls that reach the remote store. *)
Definition is_remote_call (ev : event) : bool :=
  match ev with
  | EvGetMetadataFS _ | EvDownloadJSON _ | EvUploadJSON _ _ _ => true
  | _ => false
  end.

Definition is_print (ev : event) : bool :=
  match ev with
  | EvPrintf _ => true
  | _ => false
  end.

(** A computation only ever adds calls to the trace. *)
Definition extends {A} (m : IO A) : Prop :=
  forall tr, exists ext, snd (m tr) = tr ++ ext.

(** A computation that makes no call on the remote store. *)
Definition quiet {A} (m : IO A) : Prop :=
  forall tr, exists ext,
    snd (m tr) = tr ++ ext
    /\ forallb (fun ev => negb (is_remote_call ev)) ext = true.

(** A computation whose first call on the world is [ev]. *)
Definition starts_with {A} (ev : event) (m : IO A) : Prop :=
  forall tr, exists ext, snd (m tr) = tr ++ ev :: ext.

End Events.

Declare Scope io_scope.
Delimit Scope io_scope with io.
Notation "x <- m ;; k" := (iobind m (fun x => k))
  (at level 61, m at next level, right associativity) : io_scope.
Notation "' p <- m ;; k" := (iobind m (fun p => k))
  (at level 61, p pattern, m at next level, right associativity) : io_scope.

Module acdbackup.
Section Main.
Context {CR : Crypto} {FL : Flate} {FS : Files} {TC : TimeCodec}
        {FP : Filepath} {PL : PathLib} {W : World}.

Local Open Scope io_scope.

Definition dataName : string := "data".
Definition metadataName : string := "metadata".
Definition secretsName : string := "secrets".

(** The three modes continue the [iota] of the const block they sit in. *)
Definition modeCreate : Z := 4.
Definition modeExtract : Z := 5.
Definition modeList : Z := 6.

Definition StatusConflict : Z := 409.

(** [os.FileMode] bits. *)
Definition os_ModeDir : Z := 2 ^ 31.
Definition os_ModeSymlink : Z := 2 ^ 27.
Definition os_ModeDevice : Z := 2 ^ 26.
Definition os_ModeNamedPipe : Z := 2 ^ 25.
Definition os_ModeSocket : Z := 2 ^ 24.
Definition os_ModeType : Z :=
  Z.lor os_ModeDir (Z.lor os_ModeSymlink
    (Z.lor os_ModeNamedPipe (Z.lor os_ModeSocket os_ModeDevice))).

Definition IsRegular (m : Z) : bool := Z.land m os_ModeType =? 0.

(** The fields of [acdb] the embedded functions use. *)
Record acdb : Type := mkAcdb {
  me : metadata.MetadataEncoder;
  keys : shared.Keys;
  dataID : string;
  metadataID : string;
  verbose : bool;
  compress : bool;
  perms : bool;
  mode : Z;
  root : string
}.

Definition set_me (a : acdb) (m : metadata.MetadataEncoder) : acdb :=
  mkAcdb m (keys a) (dataID a) (metadataID a) (verbose a) (compress a)
         (perms a) (mode a) (root a).

(** [walk] after its [switch]: [err] is the function-level [err], [digest]
    and [payload] the function-level variables of those names. *)
Definition walk_upload (a : acdb) (path : string) (info : os_FileInfo)
           (err : option error) (digest : option bytes) (payload : bytes)
  : IO acdb :=
  match err with
  | Some e => _ <- Printf (MsgSkipping path e) ;; ioret a
  | None =>
      let d := match digest with
               | Some dg => hex_EncodeToString dg
               | None => EmptyString
               end in
      let report (ds : string) : IO acdb :=
        if verbose a
        then _ <- Printf (MsgVerbose (fi_Mode info) (fi_Size info) path
                            (match digest with
                             | Some _ => (ds ++ "=> " ++ d)%string
                             | None => ds
                             end)) ;;
             ioret a
        else ioret a in
      match digest with
      | None => report EmptyString
      | Some _ =>
          r <- try (call (EvUploadJSON (dataID a) d payload)
                         (fun tr => acd_UploadJSON tr (dataID a) d payload)) ;;
          match r with
          | inl _ => report " new "%string
          | inr (CombinedError sc) =>
              if negb (sc =? StatusConflict)
              then _ <- Printf (MsgSkipping path (CombinedError sc)) ;; ioret a
              else report " deduped "%string
          | inr e => _ <- Printf (MsgShouldNotHappen e) ;; ioret a
          end
      end
  end.

(** [walk].  In the regular-file case [mime, _, err := ...] declares a new
    [err] local to the case clause, which the call of [a.me.File] then
    assigns; the [err] tested after the [switch] is the function-level one. *)
Definition walk (a : acdb) (path : string) (info : os_FileInfo)
           (errIn : option error) : IO acdb :=
  match errIn with
  | Some e => _ <- Printf (MsgSkippingError path e) ;; ioret a
  | None =>
      if Z.land (fi_Mode info) os_ModeDir =? os_ModeDir then
        let '(m, r) := metadata.EncDir (me a) path info in
        e <- try (lift r) ;;
        walk_upload (set_me a m) path info
                    (match e with inl _ => None | inr e => Some e end) None []
      else if Z.land (fi_Mode info) os_ModeSymlink =? os_ModeSymlink then
        let '(m, r) := metadata.EncSymlink (me a) path info in
        e <- try (lift r) ;;
        walk_upload (set_me a m) path info
                    (match e with inl _ => None | inr e => Some e end) None []
      else if IsRegular (fi_Mode info) && (fi_Size info =? 0) then
        let '(m, r) := metadata.EncFile (me a) path info EmptyString None in
        e <- try (lift r) ;;
        walk_upload (set_me a m) path info
                    (match e with inl _ => None | inr e => Some e end) None []
      else if IsRegular (fi_Mode info) then
        dg <- try (lift (goutil_FileHMACSHA256 path (shared.Dedup (keys a)))) ;;
        match dg with
        | inr e => walk_upload a path info (Some e) None []
        | inl digest =>
            p <- try (fun tr =>
                        (shared.FileNaClEncrypt path (compress a)
                           (shared.Data (keys a)) (rand_Read tr shared.NonceSize),
                         tr)) ;;
            match p with
            | inr e => walk_upload a path info (Some e) (Some digest) []
            | inl payload =>
                mm <- try (lift (goutil_FileCompressible path)) ;;
                match mm with
                | inr _ => walk_upload a path info None (Some digest) payload
                | inl (mime, _) =>
                    let '(m, r) := metadata.EncFile (me a) path info mime (Some digest) in
                    _ <- try (lift r) ;;
                    walk_upload (set_me a m) path info None (Some digest) payload
                end
            end
        end
      else
        _ <- Printf (MsgUnsupported path) ;; ioret a
  end.

(** [downloadPayload].  The error of [ioutil.TempFile] is overwritten by the
    one of [out.Write], which fails on the nil file. *)
Definition downloadPayload (a : acdb) (fullpath : string) (id : bytes) : IO unit :=
  let ids := hex_EncodeToString id in
  r <- try (call (EvGetMetadataFS ("/data/" ++ ids)%string)
                 (fun tr => acd_GetMetadataFS tr ("/data/" ++ ids)%string)) ;;
  match r with
  | inr _ => lift (Err ErrRemoteObjectNotFound)
  | inl asset =>
      body <- call (EvDownloadJSON (ID asset))
                   (fun tr => acd_DownloadJSON tr (ID asset)) ;;
      '(_, payload) <- lift (shared.NaClDecrypt body (shared.Data (keys a))) ;;
      out <- try (call (EvTempFile (root a) "acdb")
                       (fun tr => ioutil_TempFile tr (root a) "acdb")) ;;
      match out with
      | inr _ => lift (Err (ErrOther "invalid argument"))
      | inl name =>
          _ <- call (EvWrite name payload) (fun tr => file_Write tr name payload) ;;
          call (EvRename name (path_Join (root a) fullpath))
               (fun tr => os_Rename tr name (path_Join (root a) fullpath))
      end
  end.

(** [extract]: the result is the pair [(fatal, err)]. *)
Definition extract (a : acdb) (e : metadata.File) : IO (bool * option error) :=
  let dir := path_Join (root a) (path_Dir (metadata.fName e)) in
  r <- try (call (EvMkdirAll dir 493) (fun tr => os_MkdirAll tr dir 493)) ;;
  match r with
  | inr err => ioret (true, Some err)
  | inl _ =>
      let evalpath := path_Join (root a) (metadata.fName e) in
      let restore : IO (bool * option error) :=
        if perms a then
          r1 <- try (call (EvChmod evalpath (metadata.fMode e))
                          (fun tr => os_Chmod tr evalpath (metadata.fMode e))) ;;
          match r1 with
          | inr err => ioret (true, Some err)
          | inl _ =>
              r2 <- try (call (EvChtimes evalpath (metadata.fModified e) (metadata.fModified e))
                              (fun tr => os_Chtimes tr evalpath (metadata.fModified e)
                                                    (metadata.fModified e))) ;;
              match r2 with
              | inr err => ioret (true, Some err)
              | inl _ =>
                  r3 <- try (call (EvChown evalpath (metadata.fOwner e) (metadata.fGroup e))
                                  (fun tr => os_Chown tr evalpath (metadata.fOwner e)
                                                      (metadata.fGroup e))) ;;
                  match r3 with
                  | inr err => ioret (true, Some err)
                  | inl _ => ioret (false, None)
                  end
              end
          end
        else ioret (false, None) in
      if (mode a =? modeExtract) && (metadata.fSize e =? 0) then
        c <- try (call (EvCreate evalpath) (fun tr => os_Create tr evalpath)) ;;
        match c with
        | inr err => ioret (true, Some err)
        | inl _ => restore
        end
      else
        dl <- try (downloadPayload a (metadata.fName e) (metadata.fDigest e)) ;;
        match dl with
        | inr err => ioret (false, Some err)
        | inl _ => restore
        end
  end.

(** [verifySecrets] *)
Definition verifySecrets (a : acdb) (p : bytes) (blob : slice) : IO unit :=
  kk <- (fun tr => (shared.KeysDecrypt p 32768 16 2 blob (go_Zero_cleared tr), tr)) ;;
  if bytes_Equal (shared.MD (keys a)) (shared.MD kk)
     && bytes_Equal (shared.Data (keys a)) (shared.Data kk)
     && bytes_Equal (shared.Dedup (keys a)) (shared.Dedup kk)
  then ioret tt
  else lift (Err ErrSecretsNotIdentical).

(** [uploadSecrets].  After a failed upload that is a conflict, or not a
    [CombinedError] at all, [asset] is nil when [asset.ID] is read. *)
Definition uploadSecrets (a : acdb) : IO unit :=
  _ <- Printf MsgNoSecrets ;;
  p <- call (EvPromptPassword true) (fun tr => shared_PromptPassword tr true) ;;
  blob <- (fun tr => (shared.Encrypt (keys a) p 32768 16 2
                        (rand_Read tr shared.KeySize) (rand_Read tr shared.NonceSize)
                        (go_Zero_cleared tr), tr)) ;;
  r <- try (call (EvUploadJSON (metadataID a) secretsName blob)
                 (fun tr => acd_UploadJSON tr (metadataID a) secretsName blob)) ;;
  match r with
  | inl _ => ioret tt
  | inr (CombinedError sc) =>
      if negb (sc =? StatusConflict) then lift (Err ErrSecretsAppeared)
      else lift (Panic NilPointerDereference)
  | inr _ => lift (Panic NilPointerDereference)
  end.

(** The [for] loop of [downloadSecrets] together with the [return] that
    follows it.  [None] says the loop is still running after [fuel]
    iterations. *)
Fixpoint downloadSecrets_loop (fuel : nat) (a : acdb) (blob : slice) : IO (option unit) :=
  match fuel with
  | O => ioret None
  | S fuel' =>
      rp <- try (call EvReadPassword shared_ReadPassword) ;;
      match rp with
      | inl p => _ <- verifySecrets a p blob ;; ioret (Some tt)
      | inr ErrNotExist =>
          _ <- Printf MsgNoPasswordFile ;;
          p <- call (EvPromptPassword false) (fun tr => shared_PromptPassword tr false) ;;
          v <- try (verifySecrets a p blob) ;;
          match v with
          | inr e => _ <- Printf (MsgInvalidPassword e) ;; downloadSecrets_loop fuel' a blob
          | inl _ =>
              _ <- call (EvWritePassword p) (fun tr => shared_WritePassword tr p) ;;
              ioret (Some tt)
          end
      | inr e => lift (Err e)
      end
  end.

(** [downloadSecrets] *)
Definition downloadSecrets (fuel : nat) (a : acdb) : IO (option unit) :=
  let name := (metadataName ++ "/" ++ secretsName)%string in
  r <- try (call (EvGetMetadataFS name) (fun tr => acd_GetMetadataFS tr name)) ;;
  match r with
  | inr ErrNotFound => _ <- uploadSecrets a ;; ioret (Some tt)
  | inr _ => lift (Err ErrRemoteObjectNotFound)
  | inl asset =>
      blob <- call (EvDownloadJSON (ID asset))
                   (fun tr => acd_DownloadJSON tr (ID asset)) ;;
      downloadSecrets_loop fuel a blob
  end.

(** The [for] loop of [list] in list mode, keeping the entries in the order
    [Next] returns them; [io.EOF] ends it.  [None] when [fuel] calls of
    [Next] did not reach the end. *)
Fixpoint list_entries (fuel : nat) (md : metadata.MetadataDecoder)
  : option (outcome (list metadata.entry)) :=
  match fuel with
  | O => None
  | S fuel' =>
      match metadata.Next md with
      | (Ok t, md') =>
          match list_entries fuel' md' with
          | Some (Ok ts) => Some (Ok (t :: ts))
          | r => r
          end
      | (Err (ErrIo EOF), _) => Some (Ok [])
      | (Err e, _) => Some (Err e)
      | (Panic p, _) => Some (Panic p)
      end
  end.

End Main.
End acdbackup.

(** ** The laws of the libraries

    Each is a property of a library the program imports; a theorem lists the
    ones it relies on among its hypotheses. *)
Section Laws.
Context {CR : Crypto} {FL : Flate} {TC : TimeCodec}.

(** [secretbox.Open] inverts [secretbox.Seal] under the same nonce and key. *)
Definition secretbox_opens : Prop :=
  forall m n k, length n = 24%nat -> length k = 32%nat ->
    secretbox_Open (secretbox_Seal m n k) n k = Some m.

(** The authenticator rejects a box under any other key. *)
Definition secretbox_rejects : Prop :=
  forall m n k k', length n = 24%nat -> length k = 32%nat -> length k' = 32%nat ->
    k <> k' -> secretbox_Open (secretbox_Seal m n k) n k' = None.

Definition sha256_size : Prop := forall b, length (sha256_Sum b) = 32%nat.
Definition hmac_sha256_size : Prop := forall k b, length (hmac_sha256 k b) = 32%nat.

(** What a writer [w0] has emitted after the writes [chunks] and [Close]. *)
Definition closed_stream (w0 : io_Writer) (chunks : list bytes) : option bytes :=
  let '(w1, out1) := writer_Writes w0 chunks in
  match writer_Close w1 with
  | Some (_, out2) => Some (out1 ++ out2)
  | None => None
  end.

(** What it has emitted after the writes [chunks] and one [Flush]. *)
Definition flushed_stream (w0 : io_Writer) (chunks : list bytes) : bytes :=
  let '(w1, out1) := writer_Writes w0 chunks in
  out1 ++ snd (writer_Flush w1).

(** A closed gzip member decompresses to what was written and ends in
    [io.EOF]. *)
Definition gzip_closed_reads : Prop :=
  forall chunks s, closed_stream (GzipWriter gzip_NewWriter) chunks = Some s ->
    pgzip_NewReader (mkReader s EOF) = Ok (mkReader (List.concat chunks) EOF).

Definition pgzip_closed_reads : Prop :=
  forall chunks s, closed_stream (PgzipWriter pgzip_NewWriter) chunks = Some s ->
    pgzip_NewReader (mkReader s EOF) = Ok (mkReader (List.concat chunks) EOF).

(** A gzip member that was flushed but never closed has no final block and
    no footer: the reader delivers what was written and then reports
    [io.ErrUnexpectedEOF]. *)
Definition gzip_flushed_reads : Prop :=
  forall chunks,
    pgzip_NewReader (mkReader (flushed_stream (GzipWriter gzip_NewWriter) chunks) EOF)
    = Ok (mkReader (List.concat chunks) ErrUnexpectedEOF).

(** The decoder of [time.Time] reads back what its encoder wrote. *)
Definition time_codec_ok : Prop :=
  forall t r, Decode_Time (rd_prepend (List.concat (Encode_Time t)) r) = (inl t, r).

End Laws.

(** The goroutine that zeroes the derived key runs after the key's use. *)
Definition runs_after (cleared : list bool) : Prop :=
  Forall (fun c => c = false) cleared.

(** What [FileNaClEncrypt] seals after the header: the file content through
    the writer it picked, closed when it can be closed, flushed otherwise. *)
Definition envelope_body {FL : Flate} (w0 : io_Writer) (content : bytes) : bytes :=
  let chunks := io_Copy_chunks (length content) content in
  match closed_stream w0 chunks with
  | Some s => s
  | None => flushed_stream w0 chunks
  end.

(** The writer [FileNaClEncrypt] picks and the header it seals. *)
Definition envelope_writer {FL : Flate} (compress comp0 : bool) (size : Z) : io_Writer :=
  if (if compress then comp0 else false)
  then if 1024 * 1024 <? size
       then PgzipWriter pgzip_NewWriter
       else GzipWriter gzip_NewWriter
  else BufioWriter [].

Definition envelope_header (compress comp0 : bool) (size : Z) (fd : bytes)
           (mime : string) : shared.Header :=
  shared.mkHeader shared.Version
    (if compress && comp0 then shared.CompGZIP else shared.CompNone)
    (size mod 2 ^ 64) fd mime.

(** ** Manifests as sequences of entries *)
Section Manifest.
Context {FL : Flate} {TC : TimeCodec}.

Definition entry_tag (t : metadata.entry) : bytes :=
  match t with
  | metadata.EDir _ => metadata.TypeDir
  | metadata.ESymlink _ => metadata.TypeSymlink
  | metadata.EFile _ => metadata.TypeFile
  end.

Definition entry_body (t : metadata.entry) : list bytes :=
  match t with
  | metadata.EDir d => metadata.Marshal_Dir d
  | metadata.ESymlink l => metadata.Marshal_Symlink l
  | metadata.EFile f => metadata.Marshal_File f
  end.

(** What the encoder's methods do with the struct they build: the tag, then
    the struct. *)
Definition write_entry (m : metadata.MetadataEncoder) (t : metadata.entry)
  : metadata.MetadataEncoder :=
  metadata.e_Encode (metadata.e_Encode m (XDR.EncodeFixedOpaque (entry_tag t)))
                    (entry_body t).

Definition write_entries (m : metadata.MetadataEncoder) (ts : list metadata.entry)
  : metadata.MetadataEncoder :=
  fold_left write_entry ts m.

(** The chunks the record encoder hands to [bw] for a list of entries. *)
Definition entries_chunks (ts : list metadata.entry) : list bytes :=
  flat_map (fun t => XDR.EncodeFixedOpaque (entry_tag t) ++ entry_body t) ts.

(** An entry whose fields fit the widths they are encoded in. *)
Definition legal_entry (t : metadata.entry) : Prop :=
  match t with
  | metadata.EDir d =>
      XDR.xdr_len_ok (String.length (metadata.dName d))
      /\ XDR.fits_uint32 (metadata.dMode d)
      /\ XDR.fits_int32 (metadata.dOwner d)
      /\ XDR.fits_int32 (metadata.dGroup d)
  | metadata.ESymlink l =>
      XDR.xdr_len_ok (String.length (metadata.sName l))
      /\ XDR.xdr_len_ok (String.length (metadata.sLink l))
  | metadata.EFile f =>
      XDR.xdr_len_ok (String.length (metadata.fName f))
      /\ XDR.fits_uint32 (metadata.fMode f)
      /\ XDR.fits_int32 (metadata.fOwner f)
      /\ XDR.fits_int32 (metadata.fGroup f)
      /\ XDR.fits_int64 (metadata.fSize f)
      /\ XDR.xdr_len_ok (String.length (metadata.fMimeType f))
      /\ length (metadata.fDigest f) = 32%nat
  end.

(** The manifest file after [NewEncoder], the entries and one [Flush]. *)
Definition manifest (compress : bool) (ts : list metadata.entry) : bytes :=
  metadata.w (metadata.Flush (write_entries (metadata.NewEncoder [] compress) ts)).

End Manifest.

(** ** A small instance of the library interfaces

    It shows that the laws the theorems assume can be met together, and
    gives the concrete runs below something to compute with. *)
Module Mock.

(** A box is the key and the nonce in front of the message. *)
Definition Seal (m n k : bytes) : bytes := k ++ n ++ m.

Definition Open (box n k : bytes) : option bytes :=
  if bytes_Equal (firstn (length k + length n) box) (k ++ n)
  then Some (skipn (length k + length n) box)
  else None.

#[export] Instance crypto : Crypto := {|
  sha256_Sum := fun b => copy_into 32 b;
  hmac_sha256 := fun k b => copy_into 32 (b ++ k);
  secretbox_Seal := Seal;
  secretbox_Open := Open;
  scrypt_Key := fun password salt _ _ _ keyLen => Ok (copy_into keyLen (password ++ salt))
|}.

(** Compression that frames every byte after a [x01]; [x00] is a flush
    marker and [x02] the footer. *)
Definition frame (p : bytes) : bytes := flat_map (fun b => [x01; b]) p.

Fixpoint inflate (l : bytes) : bytes * ioerr :=
  match l with
  | [] => ([], ErrUnexpectedEOF)
  | x00 :: l' => inflate l'
  | x01 :: b :: l' => let '(out, e) := inflate l' in (b :: out, e)
  | x02 :: _ => ([], EOF)
  | _ => ([], ErrIOOther "corrupt input")
  end.

#[export] Instance flate : Flate := {|
  gzip_Writer := unit;
  gzip_NewWriter := tt;
  gzip_Write := fun z p => (z, frame p);
  gzip_Flush := fun z => (z, [x00]);
  gzip_Close := fun z => (z, [x02]);
  pgzip_Writer := unit;
  pgzip_NewWriter := tt;
  pgzip_Write := fun z p => (z, frame p);
  pgzip_Flush := fun z => (z, [x00]);
  pgzip_Close := fun z => (z, [x02]);
  pgzip_NewReader := fun r => let '(out, e) := inflate (rd_data r) in Ok (mkReader out e)
|}.

(** One readable file, [hello.txt], holding ["hello\n"]. *)
Definition hello : bytes := ["h"; "e"; "l"; "l"; "o"; x0a]%byte.

Definition content_of (filename : string) : outcome bytes :=
  if String.eqb filename "hello.txt" then Ok hello else Err ErrNotExist.

#[export] Instance files : Files := {|
  goutil_FileSHA256 := fun f => obind (content_of f) (fun b => Ok (copy_into 32 b));
  goutil_FileHMACSHA256 := fun f k => obind (content_of f) (fun b => Ok (copy_into 32 (b ++ k)));
  goutil_FileCompressible := fun f => obind (content_of f) (fun _ => Ok ("text/plain"%string, true));
  os_Open := fun f => obind (content_of f)
                        (fun b => Ok (mkFile (Ok (Z.of_nat (length b))) (Ok b)))
|}.

(** A time stamp of one byte. *)
#[export] Instance time_codec : TimeCodec := {|
  Time := byte;
  Encode_Time := fun t => XDR.EncodeFixedOpaque [t];
  Decode_Time := XDR.dbind (XDR.DecodeFixedOpaque 1) (fun b => XDR.dret (hd x00 b))
|}.

#[export] Instance filepath : Filepath := {|
  filepath_IsAbs := fun _ => false;
  filepath_EvalSymlinks := fun p => Ok p;
  filepath_Rel := fun _ l => Ok l
|}.

#[export] Instance pathlib : PathLib := {|
  path_Join := fun a b => (a ++ "/" ++ b)%string;
  path_Dir := fun _ => "."%string
|}.

Definition key_a : bytes := repeat "a"%byte 32.
Definition key_b : bytes := repeat "b"%byte 32.
Definition key_c : bytes := repeat "c"%byte 32.
Definition nonce0 : bytes := repeat "n"%byte 24.
Definition salt0 : bytes := repeat "s"%byte 32.

Definition bundle : shared.Keys := shared.mkKeys key_a key_b key_c.
Definition hunter2 : bytes := ["h"; "u"; "n"; "t"; "e"; "r"; "2"]%byte.
Definition Hunter2 : bytes := ["H"; "u"; "n"; "t"; "e"; "r"; "2"]%byte.

(** A world whose answers do not depend on the calls made before: the
    remote store, the upload result and the password sources are given, every
    local file operation succeeds. *)
Record script : Type := mkScript {
  on_find : string -> outcome Asset;
  on_download : string -> outcome slice;
  on_upload : string -> string -> bytes -> outcome Asset;
  on_read_password : outcome bytes;
  on_prompt : outcome bytes
}.

Definition world (s : script) : World := {|
  acd_GetMetadataFS := fun _ p => on_find s p;
  acd_DownloadJSON := fun _ id => on_download s id;
  acd_UploadJSON := fun _ parent name payload => on_upload s parent name payload;
  os_MkdirAll := fun _ _ _ => Ok tt;
  os_Create := fun _ _ => Ok tt;
  ioutil_TempFile := fun _ _ _ => Ok "acdb001"%string;
  file_Write := fun _ _ _ => Ok tt;
  os_Rename := fun _ _ _ => Ok tt;
  os_Chmod := fun _ _ _ => Ok tt;
  os_Chtimes := fun _ _ _ _ => Ok tt;
  os_Chown := fun _ _ _ _ => Ok tt;
  shared_ReadPassword := fun _ => on_read_password s;
  shared_PromptPassword := fun _ _ => on_prompt s;
  shared_WritePassword := fun _ _ => Ok tt;
  rand_Read := fun _ n => repeat "n"%byte n;
  go_Zero_cleared := fun _ => []
|}.

(** The fingerprint of [hello] under the dedup key of [bundle], and its
    remote name. *)
Definition hello_id : bytes := copy_into 32 (hello ++ key_c).
Definition hello_name : string := hex_EncodeToString hello_id.

(** An envelope sealed under the data key of [bundle] whose header
    announces 999 bytes with an all-zero digest, in front of [hello]. *)
Definition forged_header : shared.Header :=
  shared.mkHeader 1 shared.CompNone 999 (zeroes 32) "text/plain".

Definition forged : bytes :=
  nonce0 ++ Seal (List.concat (shared.Marshal_Header forged_header) ++ hello) nonce0 key_b.

(** A store that holds [forged] under [data/<hello_name>] and accepts every
    upload. *)
Definition store : script := {|
  on_find := fun p =>
    if String.eqb p ("/data/" ++ hello_name) then Ok (mkAsset "obj1" hello_name)
    else Err ErrNotFound;
  on_download := fun id =>
    if String.eqb id "obj1" then Ok (mkSlice forged (zeroes 100))
    else Err (CombinedError 404);
  on_upload := fun _ name _ => Ok (mkAsset "obj2" name);
  on_read_password := Err ErrNotExist;
  on_prompt := Ok hunter2
|}.

(** Two File entries: size 0 with the fingerprint of [hello] as digest, and
    size 6 with the all-zero digest. *)
Definition empty_with_digest : metadata.File :=
  metadata.mkFile "empty.txt" 420 1000 1000 0 "t"%byte "text/plain" hello_id.

Definition sized_without_digest : metadata.File :=
  metadata.mkFile "six.txt" 420 1000 1000 6 "t"%byte "text/plain" (zeroes 32).

(** What [Lstat] says of [hello.txt]: a regular file of six bytes. *)
Definition hello_info : os_FileInfo :=
  mkFileInfo 420 6 "t"%byte (Some (mkStat 1000 1000)).

(** The envelope of [hello.txt] as [walk] seals it. *)
Definition hello_envelope : bytes :=
  match shared.FileNaClEncrypt "hello.txt" true key_b nonce0 with
  | Ok payload => payload
  | _ => []
  end.

(** A store that answers every upload with a conflict, and one that
    answers with an internal server error. *)
Definition conflicting : script := {|
  on_find := fun _ => Err ErrNotFound;
  on_download := fun _ => Err (CombinedError 404);
  on_upload := fun _ _ _ => Err (CombinedError 409);
  on_read_password := Err ErrNotExist;
  on_prompt := Ok hunter2
|}.

Definition failing : script := {|
  on_find := fun _ => Err ErrNotFound;
  on_download := fun _ => Err (CombinedError 404);
  on_upload := fun _ _ _ => Err (CombinedError 500);
  on_read_password := Err ErrNotExist;
  on_prompt := Ok hunter2
|}.

(** Another user's bundle, wrapped under the password [hunter2] as
    [Keys.Encrypt] wraps it. *)
Definition other_bundle : shared.Keys := shared.mkKeys key_c key_b key_a.

Definition remote_blob : bytes :=
  match shared.Encrypt other_bundle hunter2 32768 16 2 salt0 nonce0 [] with
  | Ok blob => blob
  | _ => []
  end.

(** A store whose [metadata/secrets] is [remote_blob]: without a local
    password file, the user typing [hunter2] at every prompt; and with a
    password file that holds [hunter2]. *)
Definition mixed_vaults : script := {|
  on_find := fun p =>
    if String.eqb p "metadata/secrets" then Ok (mkAsset "sec" "secrets")
    else Err ErrNotFound;
  on_download := fun _ => Ok (mkSlice remote_blob (zeroes 344));
  on_upload := fun _ name _ => Ok (mkAsset "obj2" name);
  on_read_password := Err ErrNotExist;
  on_prompt := Ok hunter2
|}.

Definition mixed_vaults_with_file : script := {|
  on_find := on_find mixed_vaults;
  on_download := on_download mixed_vaults;
  on_upload := on_upload mixed_vaults;
  on_read_password := Ok hunter2;
  on_prompt := on_prompt mixed_vaults
|}.

(** A small tree: a directory, a symlink in it and [hello.txt]. *)
Definition tree : list metadata.entry :=
  [metadata.EDir (metadata.mkDir "d" 2147484141 1000 1000 "t"%byte);
   metadata.ESymlink (metadata.mkSymlink "d/b" "a");
   metadata.EFile (metadata.File_of "hello.txt" hello_info "text/plain" (Some hello_id))].

(** The state of an [acdb] that archives, verbosely and with compression,
    into an uncompressed manifest. *)
Definition archiving : acdbackup.acdb :=
  acdbackup.mkAcdb (metadata.NewEncoder [] false) bundle "dataid" "mdid"
                   true true false acdbackup.modeCreate "".

(** The state of an [acdb] that extracts into [/restore]. *)
Definition extracting : acdbackup.acdb :=
  acdbackup.mkAcdb (metadata.NewEncoder [] false) bundle "dataid" "mdid"
                   false true false acdbackup.modeExtract "/restore".

End Mock.

(** ** More fixtures for the concrete runs *)
Module Fixtures.
Import Mock.

(** What [Lstat] says of an empty regular file and of a named pipe. *)
Definition empty_info : os_FileInfo :=
  mkFileInfo 420 0 "t"%byte (Some (mkStat 1000 1000)).

Definition pipe_info : os_FileInfo :=
  mkFileInfo (acdbackup.os_ModeNamedPipe + 420) 0 "t"%byte (Some (mkStat 1000 1000)).

(** The local bundle wrapped under [hunter2], and stores that hold it as
    [metadata/secrets]: without and with a local password file. *)
Definition own_blob : bytes :=
  match shared.Encrypt bundle hunter2 32768 16 2 salt0 nonce0 [] with
  | Ok blob => blob
  | _ => []
  end.

Definition own_vault : script := {|
  on_find := on_find mixed_vaults;
  on_download := fun _ => Ok (mkSlice own_blob (zeroes 344));
  on_upload := on_upload mixed_vaults;
  on_read_password := Err ErrNotExist;
  on_prompt := Ok hunter2
|}.

Definition own_vault_with_file : script := {|
  on_find := on_find mixed_vaults;
  on_download := fun _ => Ok (mkSlice own_blob (zeroes 344));
  on_upload := on_upload mixed_vaults;
  on_read_password := Ok hunter2;
  on_prompt := Err (ErrIo EOF)
|}.

(** A store without secrets that answers the upload of them with the given
    result. *)
Definition fresh_vault (r : outcome Asset) : script := {|
  on_find := fun _ => Err ErrNotFound;
  on_download := fun _ => Err (CombinedError 404);
  on_upload := fun _ _ _ => r;
  on_read_password := Err ErrNotExist;
  on_prompt := Ok hunter2
|}.

End Fixtures.

(** The calls of [extract] itself on the local file system. *)
Definition is_local_setup {TC : TimeCodec} (ev : event) : bool :=
  match ev with
  | EvMkdirAll _ _ | EvCreate _ | EvChmod _ _ | EvChtimes _ _ _ | EvChown _ _ _ => true
  | _ => false
  end.

(** ** [shared.PromptPassword] *)
Module prompt.

(** What [PromptPassword] prints. *)
Inductive line : Type :=
| AskPassword      (* "Password: " *)
| AskAgain         (* "\nAgain   : " *)
| Newline          (* "\n" *)
| NoMatch.         (* "Passwords do not match or are empty.\n" *)

(** The [for] loop of [PromptPassword] on a terminal that answers the
    successive calls of [terminal.ReadPassword] with [reads]: the password
    or the error it ends with, the answers left and the lines printed.
    [None] when the answers run out inside the loop. *)
Fixpoint PromptPassword_loop (reads : list (bytes + error)) (out : list line)
  : option ((bytes + error) * list (bytes + error) * list line) :=
  match reads with
  | [] => None
  | inr err :: rest => Some (inr err, rest, out ++ [AskPassword])
  | inl p1 :: reads1 =>
      match reads1 with
      | [] => None
      | inr err :: rest => Some (inr err, rest, out ++ [AskPassword; AskAgain])
      | inl p2 :: rest =>
          if bytes_Equal p1 p2 && negb (length p1 =? 0)%nat
          then Some (inl p1, rest, out ++ [AskPassword; AskAgain; Newline])
          else PromptPassword_loop rest
                 (out ++ [AskPassword; AskAgain; Newline; NoMatch])
      end
  end.

(** [PromptPassword]; [WritePassword] is the function of that name. *)
Definition PromptPassword (WritePassword : bytes -> outcome unit) (save : bool)
           (reads : list (bytes + error))
  : option (outcome bytes * list (bytes + error) * list line) :=
  match PromptPassword_loop reads [] with
  | None => None
  | Some (inr err, rest, out) => Some (Err err, rest, out)
  | Some (inl p1, rest, out) =>
      if save
      then Some (obind (WritePassword p1) (fun _ => Ok p1), rest, out)
      else Some (Ok p1, rest, out)
  end.

(** The answers of a terminal on which each of [attempts] was typed. *)
Definition typed (attempts : list (bytes * bytes)) : list (bytes + error) :=
  flat_map (fun ab => [inl (fst ab); inl (snd ab)]) attempts.

End prompt.

(** ** Package [acd]: [GetMetadataFS] *)
Module acd.

(** [acd.Asset], the fields [GetMetadataFS] reads, and [acd.Assets]. *)
Record AssetInfo : Type := mkAssetInfo {
  iID : string;
  iName : string;
  iParents : list string
}.

Record Assets : Type := mkAssets { aCount : Z; aData : list AssetInfo }.

(** How a lookup ends. *)
Inductive lookup : Type :=
| Found (a : AssetInfo)
| Failed (e : error)
| Crashed (p : panic)
| IndexOutOfRange.          (* assets.Data[0] on an empty Data *)

(** [path.Base] and [strings.Split(s, "/")]. *)
Class Strings : Type := {
  path_Base : string -> string;
  strings_Split : string -> list string
}.

Section Client.
Context {SL : Strings}.

(** [GetChildrenJSON(id, filter)], answered from the queries made so far. *)
Variable GetChildrenJSON : list (string * string) -> string -> string -> outcome Assets.

(** The [range] loop of [GetMetadataFS] with the [return] that follows it. *)
Fixpoint GetMetadataFS_loop (file : string) (elements : list string) (parent : string)
         (qs : list (string * string)) : lookup * list (string * string) :=
  match elements with
  | [] => (Failed ErrNotFound, qs)
  | v :: rest =>
      if (v =? "")%string then GetMetadataFS_loop file rest parent qs
      else
        let filter := ("?filters=name:" ++ v)%string in
        let qs' := qs ++ [(parent, filter)] in
        match GetChildrenJSON qs parent filter with
        | Err e => (Failed e, qs')
        | Panic p => (Crashed p, qs')
        | Ok assets =>
            if negb (aCount assets =? 1) then (Failed ErrNotFound, qs')
            else
              match aData assets with
              | [] => (IndexOutOfRange, qs')
              | a0 :: _ =>
                  if negb (iName a0 =? v)%string
                  then (Failed (ErrOther "returned invalid name"), qs')
                  else if existsb (fun vv => (vv =? parent)%string) (iParents a0)
                       then if (v =? file)%string then (Found a0, qs')
                            else GetMetadataFS_loop file rest (iID a0) qs'
                       else (Failed (ErrOther ("parent not found " ++ parent)), qs')
              end
        end
  end.

(** [GetMetadataFS]; [root] is [c.root]. *)
Definition GetMetadataFS (root filepath : string) (qs : list (string * string))
  : lookup * list (string * string) :=
  GetMetadataFS_loop (path_Base filepath) (strings_Split filepath) root qs.

End Client.
End acd.

(** ** Program [sfe] *)
Module sfe.
Section Sfe.
Context {CR : Crypto} {FL : Flate} {FS : Files}.

(** The error of [os.Stat], [None] for [nil]; the one of
    [os.OpenFile(name, os.O_CREATE|os.O_RDWR, 0600)]; the one of
    [out.Write(payload)] on the file opened under [name]. *)
Variable os_Stat : string -> option error.
Variable os_OpenFile : string -> option error.
Variable out_Write : string -> bytes -> option error.

(** The [for] loop of [encrypt] that looks for a name [os.Stat] fails on.
    [None] when [fuel] names were all found. *)
Fixpoint outFilename (fuel : nat) (name : string) : option string :=
  match fuel with
  | O => None
  | S fuel' =>
      match os_Stat name with
      | Some _ => Some name
      | None => outFilename fuel' ("1" ++ name)%string
      end
  end.

(** [encrypt]: its error and the calls of [out.Write] it made on an open
    file, each with the file name and the bytes handed over.  A failed
    [OpenFile] leaves [out] nil, on which [Write] returns [os.ErrInvalid]. *)
Definition encrypt (fuel : nat) (compress : bool) (key nonce : bytes)
           (filename : string) : option (outcome unit * list (string * bytes)) :=
  match shared.FileNaClEncrypt filename compress key nonce with
  | Err e => Some (Err e, [])
  | Panic p => Some (Panic p, [])
  | Ok payload =>
      match outFilename fuel (filename ++ ".sfe")%string with
      | None => None
      | Some name =>
          match os_OpenFile name with
          | Some _ => Some (Err (ErrOther "invalid argument"), [])
          | None =>
              match out_Write name payload with
              | Some e => Some (Err e, [(name, payload)])
              | None => Some (Ok tt, [(name, payload)])
              end
          end
      end
  end.

(** [k] times the character [1]. *)
Fixpoint ones (k : nat) : string :=
  match k with
  | O => EmptyString
  | S k' => String "1" (ones k')
  end.

End Sfe.
End sfe.

(** ** The rest of package [main]: [makeDirectories], [online], [list],
    [archive] and [_main]

    These functions call the ones embedded above and make calls of their
    own.  Their trace records both: a call of the first kind as [Sub], made
    in the world the host presents after the history so far. *)
Module program.
Import acdbackup.

Section Program.
Context {CR : Crypto} {FL : Flate} {FS : Files} {TC : TimeCodec}
        {FP : Filepath} {PL : PathLib}.

(** [*acd.Client]: the root id it caches. *)
Record Client : Type := mkClient { c_root : string }.

(** One call of the [WalkFunc] by [filepath.Walk]. *)
Record visit : Type := mkVisit {
  v_path : string;
  v_info : os_FileInfo;
  v_err : option error
}.

(** The errors these functions make themselves, and the ones they pass on. *)
Inductive failure : Type :=
| Plain (e : error)                         (* err as it was returned *)
| FilenameError (filename : string) (e : error)   (* "%v: %v" *)
| CouldNotCreateDirectories (e : error)     (* "could not create required directories: %v" *)
| RemoteMetadataNotFound (name : string)    (* "remote metadata %v: not found" *)
| CouldNotDecryptMetadata                   (* "could not decrypt metadata" *)
| MustProvideArchive                        (* "must provide archive metadata file" *)
| MustSpecifyOnlyOne                        (* "must specify only -c, -x or -t" *)
| InvalidDebugLevel (level : Z).            (* "invalid debug level %v" *)

Inductive result (A : Type) : Type :=
| Done (a : A)
| Fail (f : failure)
| Crash (p : panic).

Arguments Done {A} a.
Arguments Fail {A} f.
Arguments Crash {A} p.

(** The calls, in order. *)
Inductive op : Type :=
| Sub (e : event)
| OpOpen (name : string)                         (* os.Open *)
| OpSymlink (oldname newname : string)           (* os.Symlink *)
| OpSeek (name : string)                         (* f.Seek(0, os.SEEK_SET) *)
| OpStat (name : string)                         (* f.Stat() *)
| OpRead (name : string)                         (* f.Read(md) *)
| OpDefaultKeysFilename                          (* shared.DefaultKeysFilename *)
| OpNewClient (filename : string)                (* acd.NewClient *)
| OpLoadKeys (filename : string)                 (* shared.LoadKeys *)
| OpGetChildrenJSON (id filter : string)
| OpMkdirJSON (parent name : string)
| OpWalk (root : string)                         (* filepath.Walk *)
| OpNow                                          (* time.Now().Format(...) *)
| OpPrintEntry (mode size : Z) (path : string)   (* "%v %15v %v\n" *)
| OpPrintCouldNotExtract (path : string) (e : error)  (* "could not extract %v: %v\n" *)
| OpPrintBackupComplete (name : string)          (* "backup complete: %v\n" *)
| OpPrintUsage.                                  (* usage and flag defaults *)

(** The host's answers, each a function of the calls made so far.
    [host_world] is the world the embedded functions run in after that
    history.  [filepath_Walk] gives the calls [filepath.Walk] makes of a
    [WalkFunc] that always returns nil. *)
Class Host : Type := {
  host_world : list op -> World;
  os_Open_manifest : list op -> string -> outcome reader;
  os_Symlink : list op -> string -> string -> outcome unit;
  file_Seek : list op -> string -> outcome unit;
  file_Stat : list op -> string -> outcome unit;
  file_Read : list op -> string -> outcome unit;
  shared_DefaultKeysFilename : list op -> outcome string;
  acd_NewClient : list op -> string -> outcome Client;
  shared_LoadKeys : list op -> string -> outcome shared.Keys;
  acd_GetChildrenJSON : list op -> string -> string -> outcome (list Asset);
  acd_MkdirJSON : list op -> string -> string -> outcome Asset;
  filepath_Walk : list op -> string -> list visit;
  time_Now_Format : list op -> string
}.

Context {H : Host}.

Definition Act (A : Type) : Type := list op -> result A * list op.

Definition ret {A} (a : A) : Act A := fun tr => (Done a, tr).
Definition fail {A} (f : failure) : Act A := fun tr => (Fail f, tr).
Definition crash {A} (p : panic) : Act A := fun tr => (Crash p, tr).

Definition bind {A B} (m : Act A) (f : A -> Act B) : Act B :=
  fun tr =>
    match m tr with
    | (Done a, tr') => f a tr'
    | (Fail e, tr') => (Fail e, tr')
    | (Crash p, tr') => (Crash p, tr')
    end.

Definition of_outcome {A} (o : outcome A) : result A :=
  match o with
  | Ok a => Done a
  | Err e => Fail (Plain e)
  | Panic p => Crash p
  end.

(** A pure step of the embedded code. *)
Definition pure {A} (o : outcome A) : Act A := fun tr => (of_outcome o, tr).

(** A call on the host. *)
Definition ask {A} (o : op) (answer : list op -> outcome A) : Act A :=
  fun tr => (of_outcome (answer tr), tr ++ [o]).

(** The same where the code tests [err] itself. *)
Definition ask_try {A} (o : op) (answer : list op -> outcome A) : Act (A + error) :=
  fun tr =>
    (match answer tr with
     | Ok a => Done (inl a)
     | Err e => Done (inr e)
     | Panic p => Crash p
     end, tr ++ [o]).

Definition print (o : op) : Act unit := fun tr => (Done tt, tr ++ [o]).

(** A run of embedded code: it starts in the world the host presents now,
    and its calls are added to the trace. *)
Definition sub {A} (m : World -> IO A) : Act A :=
  fun tr =>
    let '(o, evs) := m (host_world tr) [] in
    (of_outcome o, tr ++ map Sub evs).

Definition sub_try {A} (m : World -> IO A) : Act (A + error) :=
  sub (fun W => try (m W)).

(** [m] with its error made a value, as in [v, err := f()]. *)
Definition attempt {A} (m : Act A) : Act (A + failure) :=
  fun tr =>
    match m tr with
    | (Done a, tr') => (Done (inl a), tr')
    | (Fail f, tr') => (Done (inr f), tr')
    | (Crash p, tr') => (Crash p, tr')
    end.

Declare Scope act_scope.
Delimit Scope act_scope with act.
Local Notation "x <- m ;; k" := (bind m (fun x => k))
  (at level 61, m at next level, right associativity) : act_scope.
Local Notation "' p <- m ;; k" := (bind m (fun p => k))
  (at level 61, p pattern, m at next level, right associativity) : act_scope.
Local Open Scope act_scope.

(** The calls of the first kind these functions make themselves. *)
Definition MkdirAll (path : string) (perm : Z) : Act unit :=
  sub (fun W => call (EvMkdirAll path perm) (fun tr => os_MkdirAll tr path perm)).
Definition Create (name : string) : Act unit :=
  sub (fun W => call (EvCreate name) (fun tr => os_Create tr name)).
Definition TempFile (dir prefix : string) : Act string :=
  sub (fun W => call (EvTempFile dir prefix) (fun tr => ioutil_TempFile tr dir prefix)).
Definition Write (name : string) (b : bytes) : Act unit :=
  sub (fun W => call (EvWrite name b) (fun tr => file_Write tr name b)).
Definition Chmod (name : string) (m : Z) : Act unit :=
  sub (fun W => call (EvChmod name m) (fun tr => os_Chmod tr name m)).
Definition Chtimes (name : string) (atime mtime : Time) : Act unit :=
  sub (fun W => call (EvChtimes name atime mtime) (fun tr => os_Chtimes tr name atime mtime)).
Definition Chown (name : string) (uid gid : Z) : Act unit :=
  sub (fun W => call (EvChown name uid gid) (fun tr => os_Chown tr name uid gid)).
Definition UploadJSON (parent filename : string) (payload : bytes) : Act Asset :=
  sub (fun W => call (EvUploadJSON parent filename payload)
                     (fun tr => acd_UploadJSON tr parent filename payload)).

(** [acdb]: the fields of the record above, the client [c], the target and
    the list of directories whose permissions are still to be set. *)
Record state : Type := mkState {
  ac : acdb;
  c : option Client;
  target : string;
  permList : list metadata.Dir
}.

Definition set_ac (s : state) (a : acdb) : state :=
  mkState a (c s) (target s) (permList s).

Definition set_ids (a : acdb) (dataID' metadataID' : string) : acdb :=
  mkAcdb (me a) (keys a) dataID' metadataID' (verbose a) (compress a)
         (perms a) (mode a) (root a).

Definition set_keys (a : acdb) (k : shared.Keys) : acdb :=
  mkAcdb (me a) k (dataID a) (metadataID a) (verbose a) (compress a)
         (perms a) (mode a) (root a).

Definition set_mode (a : acdb) (m : Z) : acdb :=
  mkAcdb (me a) (keys a) (dataID a) (metadataID a) (verbose a) (compress a)
         (perms a) m (root a).

(** One [MkdirJSON] of [makeDirectories]: a conflict is not an error and
    leaves the id as it is. *)
Definition mkdir_or_conflict (cl : Client) (name : string) : Act (option string) :=
  r <- ask_try (OpMkdirJSON (c_root cl) name)
               (fun tr => acd_MkdirJSON tr (c_root cl) name) ;;
  match r with
  | inl asset => ret (Some (ID asset))
  | inr (CombinedError sc) =>
      if negb (sc =? StatusConflict) then fail (Plain (CombinedError sc))
      else ret None
  | inr e => fail (Plain e)
  end.

(** [makeDirectories] *)
Definition makeDirectories (cl : Client) (a : acdb) : Act acdb :=
  d <- mkdir_or_conflict cl dataName ;;
  let a1 := match d with
            | Some id => set_ids a id (metadataID a)
            | None => a
            end in
  m <- mkdir_or_conflict cl metadataName ;;
  ret match m with
      | Some id => set_ids a1 (dataID a1) id
      | None => a1
      end.

(** The loop of [online] over the folders under the root: the two ids and
    [count]. *)
Fixpoint scan (children : list Asset) (dataID' metadataID' : string) (count : nat)
  : string * string * nat :=
  match children with
  | [] => (dataID', metadataID', count)
  | v :: rest =>
      if (aName v =? dataName)%string
      then if (S count =? 2)%nat then (ID v, metadataID', S count)
           else scan rest (ID v) metadataID' (S count)
      else if (aName v =? metadataName)%string
      then if (S count =? 2)%nat then (dataID', ID v, S count)
           else scan rest dataID' (ID v) (S count)
      else scan rest dataID' metadataID' count
  end.

Definition TokenFilename : string := "acd-token.json".

(** [online].  [None] when the password loop of [downloadSecrets] is still
    running after [fuel] rounds. *)
Definition online (fuel : nat) (s : state) : Act (option state) :=
  keysFilename <- ask OpDefaultKeysFilename shared_DefaultKeysFilename ;;
  let rootDir := path_Dir keysFilename in
  _ <- MkdirAll rootDir 448 ;;
  let filename := path_Join rootDir TokenFilename in
  r <- ask_try (OpNewClient filename) (fun tr => acd_NewClient tr filename) ;;
  match r with
  | inr e => fail (FilenameError filename e)
  | inl cl =>
      k <- ask (OpLoadKeys keysFilename) (fun tr => shared_LoadKeys tr keysFilename) ;;
      children <- ask (OpGetChildrenJSON "" "?filters=kind:FOLDER")
                      (fun tr => acd_GetChildrenJSON tr "" "?filters=kind:FOLDER") ;;
      let a0 := set_keys (ac s) k in
      let '(d, m, count) := scan children (dataID a0) (metadataID a0) 0 in
      let a1 := set_ids a0 d m in
      a2 <- (if negb (count =? 2)%nat
             then r <- attempt (makeDirectories cl a1) ;;
                  match r with
                  | inl a => ret a
                  | inr (Plain e) => fail (CouldNotCreateDirectories e)
                  | inr f => fail f
                  end
             else ret a1) ;;
      r <- sub (fun W => downloadSecrets fuel a2) ;;
      match r with
      | None => ret None
      | Some _ => ret (Some (mkState a2 (Some cl) (target s) (permList s)))
      end
  end.

(** [downloadMD].  Without a client the first thing [GetMetadataFS] does,
    [c.Log], reads through the nil pointer. *)
Definition downloadMD (s : state) (name : string) : Act slice :=
  match c s with
  | None => crash NilPointerDereference
  | Some _ =>
      let p := (metadataName ++ "/" ++ name)%string in
      r <- sub_try (fun W => call (EvGetMetadataFS p) (fun tr => acd_GetMetadataFS tr p)) ;;
      match r with
      | inr _ => fail (RemoteMetadataNotFound name)
      | inl asset =>
          sub (fun W => call (EvDownloadJSON (ID asset))
                             (fun tr => acd_DownloadJSON tr (ID asset)))
      end
  end.

(** [list], where it determines where the manifest resides: the reader it
    hands to [NewDecoder].  A temporary file that was written and rewound
    reads back what was written. *)
Definition list_open (s : state) : Act reader :=
  r <- ask_try (OpOpen (target s)) (fun tr => os_Open_manifest tr (target s)) ;;
  match r with
  | inl f => ret f
  | inr _ =>
      md <- downloadMD s (target s) ;;
      n <- pure (slice_range md 0 shared.NonceSize) ;;
      let nonce := copy_into shared.NonceSize n in
      box <- pure (slice_from md shared.NonceSize) ;;
      match secretbox_Open box nonce (shared.MD (keys (ac s))) with
      | None => fail CouldNotDecryptMetadata
      | Some mdd =>
          name <- TempFile "" "acdb" ;;
          _ <- Write name mdd ;;
          _ <- ask (OpSeek name) (fun tr => file_Seek tr name) ;;
          ret (bytes_NewReader mdd)
      end
  end.

(** The [for] loop of [list].  [None] when [fuel] calls of [Next] did not
    reach the end. *)
Fixpoint list_loop (fuel : nat) (s : state) (md : metadata.MetadataDecoder)
  : Act (option state) :=
  match fuel with
  | O => ret None
  | S fuel' =>
      let extracting := mode (ac s) =? modeExtract in
      match metadata.Next md with
      | (Err (ErrIo EOF), _) => ret (Some s)
      | (Err e, _) => fail (Plain e)
      | (Panic p, _) => crash p
      | (Ok (metadata.EDir e), md') =>
          s1 <- (if extracting
                 then _ <- MkdirAll (path_Join (root (ac s)) (metadata.dName e)) 493 ;;
                      ret (if perms (ac s)
                           then mkState (ac s) (c s) (target s) (e :: permList s)
                           else s)
                 else ret s) ;;
          _ <- print (OpPrintEntry (metadata.dMode e) 0 (metadata.dName e)) ;;
          list_loop fuel' s1 md'
      | (Ok (metadata.ESymlink e), md') =>
          _ <- (if extracting
                then ask (OpSymlink (path_Join (root (ac s)) (metadata.sLink e))
                                    (path_Join (root (ac s)) (metadata.sName e)))
                         (fun tr => os_Symlink tr (path_Join (root (ac s)) (metadata.sLink e))
                                               (path_Join (root (ac s)) (metadata.sName e)))
                else ret tt) ;;
          _ <- print (OpPrintEntry (Z.lor os_ModeSymlink 493) 0 (metadata.sName e)) ;;
          list_loop fuel' s md'
      | (Ok (metadata.EFile e), md') =>
          let line := OpPrintEntry (metadata.fMode e) (metadata.fSize e) (metadata.fName e) in
          if extracting
          then r <- sub (fun W => extract (ac s) e) ;;
               match r with
               | (true, Some err) => fail (Plain err)
               | (_, Some err) =>
                   _ <- print (OpPrintCouldNotExtract (metadata.fName e) err) ;;
                   list_loop fuel' s md'
               | (_, None) => _ <- print line ;; list_loop fuel' s md'
               end
          else _ <- print line ;; list_loop fuel' s md'
      end
  end.

(** The loop of [list] over [permList]. *)
Fixpoint apply_perms (root' : string) (l : list metadata.Dir) : Act unit :=
  match l with
  | [] => ret tt
  | ee :: rest =>
      let evalpath := path_Join root' (metadata.dName ee) in
      _ <- Chmod evalpath (metadata.dMode ee) ;;
      _ <- Chtimes evalpath (metadata.dModified ee) (metadata.dModified ee) ;;
      _ <- Chown evalpath (metadata.dOwner ee) (metadata.dGroup ee) ;;
      apply_perms root' rest
  end.

(** [list] from [NewDecoder] on. *)
Definition list_body (fuel : nat) (s : state) (f : reader) : Act (option unit) :=
  md <- pure (metadata.NewDecoder f) ;;
  r <- list_loop fuel s md ;;
  match r with
  | None => ret None
  | Some s' => _ <- apply_perms (root (ac s')) (permList s') ;; ret (Some tt)
  end.

(** [list] *)
Definition list_ (fuel : nat) (s : state) : Act (option unit) :=
  r <- (if mode (ac s) =? modeExtract then online fuel s else ret (Some s)) ;;
  match r with
  | None => ret None
  | Some s1 =>
      f <- list_open s1 ;;
      list_body fuel s1 f
  end.

(** The calls of [a.walk] that [filepath.Walk] makes for one argument. *)
Fixpoint walk_visits (a : acdb) (vs : list visit) : Act acdb :=
  match vs with
  | [] => ret a
  | v :: rest =>
      a' <- sub (fun W => walk a (v_path v) (v_info v) (v_err v)) ;;
      walk_visits a' rest
  end.

Fixpoint walk_args (a : acdb) (args : list string) : Act acdb :=
  match args with
  | [] => ret a
  | v :: rest =>
      a' <- (fun tr => walk_visits a (filepath_Walk tr v) (tr ++ [OpWalk v])) ;;
      walk_args a' rest
  end.

(** What [archive] does with the manifest when the target is Cloud Drive.
    The temporary file reads back what the encoder has let through. *)
Definition upload_manifest (a : acdb) (f : string) : Act acdb :=
  let a1 := set_me a (metadata.Flush (me a)) in
  _ <- ask (OpSeek f) (fun tr => file_Seek tr f) ;;
  _ <- ask (OpStat f) (fun tr => file_Stat tr f) ;;
  let md := metadata.w (me a1) in
  _ <- ask (OpRead f) (fun tr => file_Read tr f) ;;
  nonce <- (fun tr => (Done (rand_Read (World := host_world tr) [] shared.NonceSize), tr)) ;;
  let mde := nonce ++ secretbox_Seal md nonce (shared.MD (keys a1)) in
  name <- (fun tr => (Done (time_Now_Format tr), tr ++ [OpNow])) ;;
  _ <- UploadJSON (metadataID a1) name mde ;;
  _ <- print (OpPrintBackupComplete name) ;;
  ret a1.

(** [archive].  The result carries the [acdb] as the deferred [Flush]
    leaves it. *)
Definition archive (fuel : nat) (s : state) (args : list string)
  : Act (option state) :=
  f <- (if (target s =? "-")%string then TempFile "" "acdb"
        else _ <- Create (target s) ;; ret (target s)) ;;
  let s0 := set_ac s (set_me (ac s) (metadata.NewEncoder [] (compress (ac s)))) in
  r <- online fuel s0 ;;
  match r with
  | None => ret None
  | Some s1 =>
      a2 <- walk_args (ac s1) args ;;
      a3 <- (if (target s =? "-")%string then upload_manifest a2 f else ret a2) ;;
      ret (Some (set_ac s1 (set_me a3 (metadata.Flush (me a3)))))
  end.

(** The command line. *)
Record flags : Type := mkFlags {
  f_create : bool;        (* -c *)
  f_extract : bool;       (* -x *)
  f_lst : bool;           (* -t *)
  f_verbose : bool;       (* -v *)
  f_compress : bool;      (* -z *)
  f_perms : bool;         (* -p *)
  f_target : string;      (* -f, "-" by default *)
  f_root : string;        (* -C *)
  f_debugLevel : Z;       (* -d *)
  f_args : list string
}.

(** The [acdb] that [_main] starts from: no encoder, no client, zero keys,
    empty ids.  The encoder here stands for the nil [a.me], which nothing
    reads before [archive] has set it. *)
Definition initial (fl : flags) (m : Z) : state :=
  mkState (mkAcdb (metadata.mkEncoder [] (BufioWriter []))
                  (shared.mkKeys (zeroes 32) (zeroes 32) (zeroes 32))
                  EmptyString EmptyString
                  (f_verbose fl) (f_compress fl) (f_perms fl) m (f_root fl))
          None (f_target fl) [].

(** [_main] *)
Definition _main (fuel : nat) (fl : flags) : Act (option unit) :=
  if negb ((f_debugLevel fl =? 0) || (f_debugLevel fl =? 1) || (f_debugLevel fl =? 2))
  then fail (InvalidDebugLevel (f_debugLevel fl))
  else
    let create := if negb (f_create fl) && negb (f_extract fl) && negb (f_lst fl)
                  then true else f_create fl in
    if create && negb (f_extract fl || f_lst fl) then
      match f_args fl with
      | [] => _ <- print OpPrintUsage ;; ret (Some tt)
      | _ =>
          r <- archive fuel (initial fl modeCreate) (f_args fl) ;;
          ret match r with Some _ => Some tt | None => None end
      end
    else if f_extract fl && negb (create || f_lst fl) then
      if (f_target fl =? "-")%string then fail MustProvideArchive
      else list_ fuel (initial fl modeExtract)
    else if f_lst fl && negb (create || f_extract fl) then
      if (f_target fl =? "-")%string then fail MustProvideArchive
      else list_ fuel (initial fl modeList)
    else fail MustSpecifyOnlyOne.


(** The directories among the entries, and the three calls that restore
    the attributes of one. *)
Definition dirs_of (ts : list metadata.entry) : list metadata.Dir :=
  flat_map (fun t => match t with metadata.EDir e => [e] | _ => [] end) ts.

Definition perm_ops (root' : string) (ee : metadata.Dir) : list op :=
  let evalpath := path_Join root' (metadata.dName ee) in
  [Sub (EvChmod evalpath (metadata.dMode ee));
   Sub (EvChtimes evalpath (metadata.dModified ee) (metadata.dModified ee));
   Sub (EvChown evalpath (metadata.dOwner ee) (metadata.dGroup ee))].

End Program.

Arguments Done {A} a.
Arguments Fail {A} f.
Arguments Crash {A} p.

End program.

(** ** Instances for the runs of these functions *)
Module Samples.
Import Mock Fixtures.

(** [strings.Split(s, "/")]: [cur] is the element being read, reversed. *)
Fixpoint split_slash (s : string) (cur : string) : list string :=
  match s with
  | EmptyString => [cur]
  | String c s' =>
      if Ascii.eqb c "/" then cur :: split_slash s' EmptyString
      else split_slash s' (cur ++ String c EmptyString)
  end.

(** [path.Base] through the last non-empty element. *)
Definition base_of (s : string) : string :=
  match s with
  | EmptyString => "."%string
  | _ =>
      match filter (fun e => negb (e =? "")%string) (split_slash s EmptyString) with
      | [] => "/"%string
      | e :: es => last es e
      end
  end.

#[export] Instance strings : acd.Strings := {|
  acd.path_Base := base_of;
  acd.strings_Split := fun s => split_slash s EmptyString
|}.

(** A drive with a folder [a] under the root [r0] and, inside it, a folder
    [b] that holds another [a]. *)
Definition drive (qs : list (string * string)) (id filter : string)
  : outcome acd.Assets :=
  if ((id =? "r0") && (filter =? "?filters=name:a"))%string
  then Ok (acd.mkAssets 1 [acd.mkAssetInfo "id-a" "a" ["r0"%string]])
  else if ((id =? "id-a") && (filter =? "?filters=name:b"))%string
  then Ok (acd.mkAssets 1 [acd.mkAssetInfo "id-b" "b" ["id-a"%string]])
  else if ((id =? "id-b") && (filter =? "?filters=name:a"))%string
  then Ok (acd.mkAssets 1 [acd.mkAssetInfo "id-a2" "a" ["id-b"%string]])
  else Ok (acd.mkAssets 0 []).

(** A directory in which [hello.txt.sfe] and [1hello.txt.sfe] exist. *)
Definition taken : list string := ["hello.txt.sfe"; "1hello.txt.sfe"]%string.

Definition stat_taken (name : string) : option error :=
  if existsb (String.eqb name) taken then None else Some ErrNotExist.

(** A store that cannot be reached. *)
Definition unreachable : script := {|
  on_find := fun _ => Err (CombinedError 503);
  on_download := fun _ => Err (CombinedError 503);
  on_upload := fun _ _ _ => Err (CombinedError 503);
  on_read_password := Err ErrNotExist;
  on_prompt := Ok hunter2
|}.

(** A file system on which no link resolves. *)
Definition broken_links : Filepath := {|
  filepath_IsAbs := fun _ => false;
  filepath_EvalSymlinks := fun _ => Err ErrNotExist;
  filepath_Rel := fun _ l => Ok l
|}.

Definition symlink_info : os_FileInfo :=
  mkFileInfo (acdbackup.os_ModeSymlink + 511) 1 "t"%byte (Some (mkStat 1000 1000)).

Definition dir_entry : metadata.entry :=
  metadata.EDir (metadata.mkDir "d" 2147484141 1000 1000 "t"%byte).

Definition file_entry : metadata.entry :=
  metadata.EFile (metadata.File_of "hello.txt" hello_info "text/plain" (Some hello_id)).

(** An [acdb] that has written [dir_entry] into an uncompressed manifest. *)
Definition archiving_in_d : acdbackup.acdb :=
  acdbackup.mkAcdb (write_entries (metadata.NewEncoder [] false) [dir_entry])
                   bundle "dataid" "mdid" true true false acdbackup.modeCreate "".

(** The envelope of [hello.txt] sealed without compression. *)
Definition hello_sealed : bytes :=
  match shared.FileNaClEncrypt "hello.txt" false key_b nonce0 with
  | Ok payload => payload
  | _ => []
  end.

(** A header that announces version 7, 999 bytes and an all-zero digest. *)
Definition odd_header : shared.Header :=
  shared.mkHeader 7 shared.CompNone 999 (zeroes 32) "text/plain".

Definition zstd_header : shared.Header :=
  shared.mkHeader 1 ["z"; "s"; "t"; "d"]%byte 6 (zeroes 32) "text/plain".

(** A host: the world of a script, a given answer to [os.Open], to the
    listing of the root's folders and to [MkdirJSON]; every other call
    succeeds. *)
Record hscript : Type := mkHscript {
  hs_script : script;
  hs_open : string -> outcome reader;
  hs_children : list Asset;
  hs_mkdir : outcome Asset;
  hs_visits : string -> list program.visit
}.

Definition host (h : hscript) : program.Host := {|
  program.host_world := fun _ => world (hs_script h);
  program.os_Open_manifest := fun _ name => hs_open h name;
  program.os_Symlink := fun _ _ _ => Ok tt;
  program.file_Seek := fun _ _ => Ok tt;
  program.file_Stat := fun _ _ => Ok tt;
  program.file_Read := fun _ _ => Ok tt;
  program.shared_DefaultKeysFilename := fun _ => Ok "/home/u/.acdbackup/keys.json"%string;
  program.acd_NewClient := fun _ _ => Ok (program.mkClient "r0");
  program.shared_LoadKeys := fun _ _ => Ok bundle;
  program.acd_GetChildrenJSON := fun _ _ _ => Ok (hs_children h);
  program.acd_MkdirJSON := fun _ _ _ => hs_mkdir h;
  program.filepath_Walk := fun _ root => hs_visits h root;
  program.time_Now_Format := fun _ => "20150601.120000"%string
|}.

(** A machine on which [backup.md] holds the uncompressed manifest of
    [tree] and no other file can be opened. *)
Definition with_local_manifest : hscript := {|
  hs_script := store;
  hs_open := fun name =>
    if String.eqb name "backup.md" then Ok (bytes_NewReader (manifest false tree))
    else Err ErrNotExist;
  hs_children := [];
  hs_mkdir := Err (CombinedError 409);
  hs_visits := fun _ => []
|}.

Definition list_flags (target : string) : program.flags :=
  program.mkFlags false false true false false false target "" 0 [].

(** Two nested directories, and an [acdb] that restores with [-p]. *)
Definition two_dirs : list metadata.entry :=
  [metadata.EDir (metadata.mkDir "d" 2147484141 1000 1000 "t"%byte);
   metadata.EDir (metadata.mkDir "d/e" 2147484096 1000 1000 "u"%byte)].

Definition restoring : program.state :=
  program.mkState
    (acdbackup.mkAcdb (metadata.NewEncoder [] false) bundle "dataid" "mdid"
                      false true true acdbackup.modeExtract "/restore")
    (Some (program.mkClient "r0")) "backup.md" [].

(** An [acdb] that has written [tree] into a compressed manifest, the blob
    [archive] makes of it, and a drive that holds the blob under
    [metadata/20150601.120000]. *)
Definition sealing : acdbackup.acdb :=
  acdbackup.mkAcdb (write_entries (metadata.NewEncoder [] true) tree)
                   bundle "dataid" "mdid" true true false acdbackup.modeCreate "".

Definition sealed_manifest : bytes :=
  repeat "n"%byte 24 ++ Seal (manifest true tree) (repeat "n"%byte 24) key_a.

Definition drive_with_manifest : hscript := {|
  hs_script := {|
    on_find := fun p =>
      if String.eqb p "metadata/20150601.120000" then Ok (mkAsset "md1" "20150601.120000")
      else Err ErrNotFound;
    on_download := fun _ => Ok (mkSlice sealed_manifest []);
    on_upload := fun _ name _ => Ok (mkAsset "md1" name);
    on_read_password := Ok hunter2;
    on_prompt := Ok hunter2
  |};
  hs_open := fun _ => Err ErrNotExist;
  hs_children := [];
  hs_mkdir := Err (CombinedError 409);
  hs_visits := fun _ => []
|}.

Definition fetching : program.state :=
  program.mkState
    (acdbackup.mkAcdb (metadata.NewEncoder [] false) bundle "dataid" "mdid"
                      false false false acdbackup.modeExtract "/restore")
    (Some (program.mkClient "r0")) "20150601.120000" [].

(** A first run against a drive whose listing of the root names no folder
    while both folders exist. *)
Definition first_run : program.state :=
  program.initial (program.mkFlags true false false false false false "-" "" 0
                                   ["hello.txt"%string])
                  acdbackup.modeCreate.

Definition hidden_folders : hscript := {|
  hs_script := own_vault_with_file;
  hs_open := fun _ => Err ErrNotExist;
  hs_children := [mkAsset "x1" "photos"];
  hs_mkdir := Err (CombinedError 409);
  hs_visits := fun _ => []
|}.

End Samples.

(** * Properties *)

(** ** Lists and bytes *)

Lemma Z_of_byte_of_Z (v : Z) : Z_of_byte (byte_of_Z v) = v mod 256.
Proof.
  unfold Z_of_byte, byte_of_Z.
  assert (Hr : 0 <= v mod 256 < 256) by (apply Z.mod_pos_bound; lia).
  destruct (Byte.of_N (Z.to_N (v mod 256))) as [b|] eqn:E.
  - apply Byte.to_of_N in E. rewrite E. lia.
  - apply Byte.of_N_None_iff in E. lia.
Qed.

Lemma bytes_Equal_eq (a b : bytes) : bytes_Equal a b = true <-> a = b.
Proof.
  revert b. induction a as [|x a IH]; intros [|y b]; simpl; split;
    try congruence; try reflexivity.
  - intros H. apply andb_true_iff in H as [H1 H2].
    apply Byte.byte_dec_bl in H1. apply IH in H2. congruence.
  - intros H. inversion H; subst. apply andb_true_iff. split.
    + apply Byte.byte_dec_lb. reflexivity.
    + apply IH. reflexivity.
Qed.

Lemma bytes_Equal_refl (a : bytes) : bytes_Equal a a = true.
Proof. apply bytes_Equal_eq. reflexivity. Qed.

Lemma bytes_Equal_neq (a b : bytes) : a <> b -> bytes_Equal a b = false.
Proof.
  intros H. destruct (bytes_Equal a b) eqn:E; [|reflexivity].
  apply bytes_Equal_eq in E. contradiction.
Qed.

Lemma copy_into_exact (n : nat) (l : bytes) : length l = n -> copy_into n l = l.
Proof.
  intros H. unfold copy_into. rewrite <- H, firstn_all, Nat.sub_diag.
  simpl. apply app_nil_r.
Qed.

Lemma slice_range_prefix (a b sp : bytes) (n : nat) :
  length a = n -> slice_range (mkSlice (a ++ b) sp) 0 n = Ok a.
Proof.
  intros <-. unfold slice_range, slice_cap. cbn [elems spare].
  rewrite !length_app.
  replace ((0 <=? length a)%nat && (length a <=? length a + length b + length sp)%nat)
    with true by (symmetry; apply andb_true_iff; split; apply Nat.leb_le; lia).
  rewrite skipn_O, Nat.sub_0_r, <- app_assoc, firstn_app, firstn_all, Nat.sub_diag,
    firstn_O, app_nil_r.
  reflexivity.
Qed.

Lemma slice_range_mid (a b c sp : bytes) (n m : nat) :
  length a = n -> length b = m ->
  slice_range (mkSlice (a ++ b ++ c) sp) n (n + m) = Ok b.
Proof.
  intros <- <-. unfold slice_range, slice_cap. cbn [elems spare].
  rewrite !length_app.
  replace ((length a <=? length a + length b)%nat
           && (length a + length b <=? length a + (length b + length c) + length sp)%nat)
    with true by (symmetry; apply andb_true_iff; split; apply Nat.leb_le; lia).
  rewrite <- app_assoc, skipn_app, skipn_all, Nat.sub_diag, skipn_O. cbn [app].
  replace (length a + length b - length a)%nat with (length b) by lia.
  rewrite <- app_assoc, firstn_app, firstn_all, Nat.sub_diag, firstn_O, app_nil_r.
  reflexivity.
Qed.

Lemma slice_from_app (a b sp : bytes) (n : nat) :
  length a = n -> slice_from (mkSlice (a ++ b) sp) n = Ok b.
Proof.
  intros <-. unfold slice_from, slice_len. cbn [elems].
  rewrite length_app.
  replace ((length a <=? length a + length b)%nat) with true
    by (symmetry; apply Nat.leb_le; lia).
  rewrite skipn_app, skipn_all, Nat.sub_diag, skipn_O. reflexivity.
Qed.

(** A slice shorter than [lo] cannot be cut from [lo] on. *)
Lemma slice_from_short (s : slice) (lo : nat) :
  (slice_len s < lo)%nat -> slice_from s lo = Panic SliceBoundsOutOfRange.
Proof.
  intros H. unfold slice_from.
  destruct (Nat.leb_spec lo (slice_len s)); [lia | reflexivity].
Qed.

Lemma slice_range_cases (s : slice) (lo hi : nat) :
  slice_range s lo hi = Panic SliceBoundsOutOfRange
  \/ exists b, slice_range s lo hi = Ok b.
Proof.
  unfold slice_range.
  destruct ((lo <=? hi)%nat && (hi <=? slice_cap s)%nat); [right; eauto | left; reflexivity].
Qed.

Lemma length_list_byte_of_string (s : string) :
  length (list_byte_of_string s) = String.length s.
Proof.
  unfold list_byte_of_string. rewrite length_map.
  induction s as [|c s IH]; simpl; congruence.
Qed.

(** ** The codec round trips *)
Module XDRFacts.
Import XDR.

Lemma be_bytes_length (n : nat) (v : Z) : length (be_bytes n v) = n.
Proof.
  revert v. induction n as [|n IH]; intros v; simpl; [reflexivity|].
  rewrite length_app, IH. simpl. lia.
Qed.

Lemma be_value_snoc (l : bytes) (b : byte) :
  be_value (l ++ [b]) = be_value l * 256 + Z_of_byte b.
Proof. unfold be_value. rewrite fold_left_app. reflexivity. Qed.

Lemma be_value_be_bytes (n : nat) (v : Z) :
  be_value (be_bytes n v) = v mod 2 ^ (8 * Z.of_nat n).
Proof.
  revert v. induction n as [|n IH]; intros v.
  - simpl. rewrite Z.mod_1_r. reflexivity.
  - cbn [be_bytes]. rewrite be_value_snoc, IH, Z_of_byte_of_Z.
    replace (8 * Z.of_nat (S n)) with (8 + 8 * Z.of_nat n) by lia.
    rewrite Z.pow_add_r by lia.
    change (2 ^ 8) with 256.
    rewrite (Z.rem_mul_r v 256 (2 ^ (8 * Z.of_nat n))) by lia.
    lia.
Qed.

Lemma to_signed_mod (bits v : Z) :
  0 < bits -> - 2 ^ (bits - 1) <= v < 2 ^ (bits - 1) ->
  to_signed bits (v mod 2 ^ bits) = v.
Proof.
  intros Hb Hv. unfold to_signed.
  assert (Hp : 2 ^ bits = 2 * 2 ^ (bits - 1)).
  { replace bits with (1 + (bits - 1)) at 1 by lia.
    rewrite Z.pow_add_r by lia. reflexivity. }
  assert (Hpos : 0 < 2 ^ (bits - 1)) by (apply Z.pow_pos_nonneg; lia).
  destruct (Z_lt_le_dec v 0) as [Hneg|Hnn].
  - replace (v mod 2 ^ bits) with (v + 2 ^ bits).
    + destruct (Z.ltb_spec (v + 2 ^ bits) (2 ^ (bits - 1))); lia.
    + symmetry. rewrite <- (Z.mod_add v 1 (2 ^ bits)) by lia.
      rewrite Z.mul_1_l. apply Z.mod_small. lia.
  - rewrite Z.mod_small by lia.
    destruct (Z.ltb_spec v (2 ^ (bits - 1))); lia.
Qed.

Lemma rd_prepend_app (l1 l2 : bytes) (r : reader) :
  rd_prepend (l1 ++ l2) r = rd_prepend l1 (rd_prepend l2 r).
Proof. unfold rd_prepend. simpl. rewrite app_assoc. reflexivity. Qed.

Lemma rd_prepend_nil (r : reader) : rd_prepend [] r = r.
Proof. destruct r. reflexivity. Qed.

Lemma read_full_prepend (n : nat) (l : bytes) (r : reader) :
  length l = n -> read_full n (rd_prepend l r) = (inl l, r).
Proof.
  intros H. unfold read_full, io_ReadFull, rd_prepend. simpl.
  rewrite length_app.
  destruct (Nat.leb_spec n (length l + length (rd_data r))); [|lia].
  subst n. rewrite firstn_app, firstn_all, Nat.sub_diag, firstn_O, app_nil_r.
  rewrite skipn_app, skipn_all, Nat.sub_diag. simpl. destruct r. reflexivity.
Qed.

Lemma decodes_bind {A B} (m : dec A) (f : A -> dec B) l1 l2 a b :
  decodes m l1 a -> decodes (f a) l2 b -> decodes (dbind m f) (l1 ++ l2) b.
Proof.
  intros H1 H2 r. unfold dbind. rewrite rd_prepend_app, H1. apply H2.
Qed.

Lemma decodes_ret {A} (a : A) : decodes (dret a) [] a.
Proof. intros r. rewrite rd_prepend_nil. reflexivity. Qed.

Lemma decodes_bind_ret {A B} (m : dec A) (g : A -> B) l a :
  decodes m l a -> decodes (dbind m (fun x => dret (g x))) l (g a).
Proof.
  intros H. rewrite <- (app_nil_r l).
  eapply decodes_bind; [exact H | apply decodes_ret].
Qed.

Lemma DecodeUint_Encode (v : Z) :
  fits_uint32 v -> decodes DecodeUint (List.concat (EncodeUint v)) v.
Proof.
  intros Hv r. change (List.concat (EncodeUint v)) with (be_bytes 4 v ++ []).
  rewrite app_nil_r. unfold DecodeUint, dbind.
  rewrite read_full_prepend by apply be_bytes_length.
  unfold dret. rewrite be_value_be_bytes. change (8 * Z.of_nat 4) with 32.
  rewrite Z.mod_small by exact Hv. reflexivity.
Qed.

Lemma DecodeInt_Encode (v : Z) :
  fits_int32 v -> decodes DecodeInt (List.concat (EncodeInt v)) v.
Proof.
  intros Hv r. change (List.concat (EncodeInt v)) with (be_bytes 4 v ++ []).
  rewrite app_nil_r. unfold DecodeInt, dbind.
  rewrite read_full_prepend by apply be_bytes_length.
  unfold dret. rewrite be_value_be_bytes. change (8 * Z.of_nat 4) with 32.
  rewrite to_signed_mod; [reflexivity | lia | exact Hv].
Qed.

Lemma DecodeUhyper_Encode (v : Z) :
  fits_uint64 v -> decodes DecodeUhyper (List.concat (EncodeUhyper v)) v.
Proof.
  intros Hv r. change (List.concat (EncodeUhyper v)) with (be_bytes 8 v ++ []).
  rewrite app_nil_r. unfold DecodeUhyper, dbind.
  rewrite read_full_prepend by apply be_bytes_length.
  unfold dret. rewrite be_value_be_bytes. change (8 * Z.of_nat 8) with 64.
  rewrite Z.mod_small by exact Hv. reflexivity.
Qed.

Lemma DecodeHyper_Encode (v : Z) :
  fits_int64 v -> decodes DecodeHyper (List.concat (EncodeHyper v)) v.
Proof.
  intros Hv r. change (List.concat (EncodeHyper v)) with (be_bytes 8 v ++ []).
  rewrite app_nil_r. unfold DecodeHyper, dbind.
  rewrite read_full_prepend by apply be_bytes_length.
  unfold dret. rewrite be_value_be_bytes. change (8 * Z.of_nat 8) with 64.
  rewrite to_signed_mod; [reflexivity | lia | exact Hv].
Qed.

Lemma forallb_zeroes (n : nat) : forallb (Byte.eqb x00) (zeroes n) = true.
Proof. induction n as [|n IH]; [reflexivity | exact IH]. Qed.

Lemma concat_EncodeFixedOpaque (v : bytes) :
  List.concat (EncodeFixedOpaque v) = v ++ zeroes (pad_len (length v)).
Proof.
  unfold EncodeFixedOpaque.
  destruct (Nat.ltb_spec 0 (pad_len (length v))) as [H|H]; simpl.
  - rewrite app_nil_r. reflexivity.
  - replace (pad_len (length v)) with 0%nat by lia. reflexivity.
Qed.

Lemma DecodeFixedOpaque_Encode (v : bytes) :
  xdr_len_ok (length v) ->
  decodes (DecodeFixedOpaque (length v)) (List.concat (EncodeFixedOpaque v)) v.
Proof.
  intros Hlen r. rewrite concat_EncodeFixedOpaque. unfold DecodeFixedOpaque.
  destruct (Nat.eqb_spec (length v) 0) as [H0|H0].
  - destruct v; [|discriminate]. simpl. rewrite rd_prepend_nil. reflexivity.
  - unfold xdr_len_ok in Hlen.
    destruct (Z.ltb_spec MaxInt32 (Z.of_nat (length v + pad_len (length v)))); [lia|].
    unfold dbind. rewrite read_full_prepend.
    + rewrite skipn_app, skipn_all, Nat.sub_diag, skipn_O. cbn [app].
      rewrite forallb_zeroes.
      unfold dret. rewrite firstn_app, firstn_all, Nat.sub_diag, firstn_O, app_nil_r.
      reflexivity.
    + rewrite length_app. unfold zeroes. rewrite repeat_length. reflexivity.
Qed.

Lemma DecodeString_Encode (s : string) :
  xdr_len_ok (String.length s) ->
  decodes DecodeString (List.concat (EncodeString s)) s.
Proof.
  intros Hlen. unfold EncodeString. rewrite concat_app.
  assert (Hb : Z.of_nat (String.length s) <= MaxInt32)
    by (unfold xdr_len_ok in Hlen; lia).
  eapply decodes_bind.
  - apply DecodeUint_Encode. unfold fits_uint32, MaxInt32 in *. lia.
  - cbv beta.
    destruct (Z.ltb_spec MaxInt32 (Z.of_nat (String.length s))); [lia|].
    rewrite Nat2Z.id, <- length_list_byte_of_string.
    rewrite <- (string_of_list_byte_of_string s) at 3.
    apply decodes_bind_ret. apply DecodeFixedOpaque_Encode.
    rewrite length_list_byte_of_string. exact Hlen.
Qed.

End XDRFacts.

(** ** Writers *)
Section WriterFacts.
Context {FL : Flate}.

Lemma bufio_Write_spec (b p b' out : bytes) :
  bufio.Write b p = (b', out) -> out ++ b' = b ++ p.
Proof.
  unfold bufio.Write.
  generalize bufio.defaultBufSize as N. intros N.
  destruct (length p <=? N - length b)%nat.
  - intros H. injection H as <- <-. reflexivity.
  - destruct b as [|x b].
    + intros H. injection H as <- <-. apply app_nil_r.
    + destruct (length (skipn (N - length (x :: b)) p) <=? N)%nat;
        intros H; injection H as <- <-.
      * simpl. rewrite <- app_assoc, firstn_skipn. reflexivity.
      * simpl. rewrite app_nil_r, <- app_assoc, firstn_skipn. reflexivity.
Qed.

Lemma writer_Writes_app (w0 : io_Writer) (c1 c2 : list bytes) :
  writer_Writes w0 (c1 ++ c2) =
  let '(w1, o1) := writer_Writes w0 c1 in
  let '(w2, o2) := writer_Writes w1 c2 in
  (w2, o1 ++ o2).
Proof.
  revert w0. induction c1 as [|p c1 IH]; intros w0; simpl.
  - destruct (writer_Writes w0 c2). reflexivity.
  - destruct (writer_Write w0 p) as [w1 o1]. rewrite IH.
    destruct (writer_Writes w1 c1) as [w2 o2].
    destruct (writer_Writes w2 c2) as [w3 o3].
    rewrite app_assoc. reflexivity.
Qed.

(** A [bufio.Writer] passes on, in order, exactly what it was given. *)
Lemma bufio_Writes_spec (chunks : list bytes) (b : bytes) :
  exists b' out, writer_Writes (BufioWriter b) chunks = (BufioWriter b', out)
                 /\ out ++ b' = b ++ List.concat chunks.
Proof.
  revert b. induction chunks as [|p chunks IH]; intros b; simpl.
  - exists b, []. rewrite app_nil_r. split; reflexivity.
  - destruct (bufio.Write b p) as [b1 o1] eqn:E1.
    apply bufio_Write_spec in E1.
    destruct (IH b1) as (b2 & o2 & E2 & H2). rewrite E2.
    exists b2, (o1 ++ o2). split; [reflexivity|].
    rewrite <- app_assoc, H2, app_assoc, E1, <- app_assoc. reflexivity.
Qed.

Lemma bufio_flushed_stream (chunks : list bytes) :
  flushed_stream (BufioWriter []) chunks = List.concat chunks.
Proof.
  unfold flushed_stream.
  destruct (bufio_Writes_spec chunks []) as (b' & out & E & H).
  rewrite E. simpl. exact H.
Qed.

Lemma bufio_closed_stream (chunks : list bytes) :
  closed_stream (BufioWriter []) chunks = None.
Proof.
  unfold closed_stream.
  destruct (bufio_Writes_spec chunks []) as (b' & out & E & _).
  rewrite E. reflexivity.
Qed.

Lemma copyBufSize_pos : (1 <= copyBufSize)%nat.
Proof.
  unfold copyBufSize. change 1%nat with (Z.to_nat 1).
  apply Z2Nat.inj_le; lia.
Qed.

Lemma concat_io_Copy_chunks (fuel : nat) (content : bytes) :
  (length content <= fuel)%nat ->
  List.concat (io_Copy_chunks fuel content) = content.
Proof.
  revert content. induction fuel as [|fuel IH]; intros content H.
  - destruct content; [reflexivity | simpl in H; lia].
  - destruct content as [|x content]; [reflexivity|].
    cbn [io_Copy_chunks List.concat]. rewrite IH.
    + apply firstn_skipn.
    + rewrite length_skipn. pose proof copyBufSize_pos.
      change (length (x :: content)) with (S (length content)) in *. lia.
Qed.

Lemma envelope_body_bufio (content : bytes) :
  envelope_body (BufioWriter []) content = content.
Proof.
  unfold envelope_body. rewrite bufio_closed_stream, bufio_flushed_stream.
  apply concat_io_Copy_chunks. lia.
Qed.

End WriterFacts.

(** ** Package [shared]: envelope and key bundle *)
Module SharedFacts.
Import XDR XDRFacts shared.
Section Facts.
Context {CR : Crypto} {FL : Flate} {FS : Files}.

Lemma observed_key_runs_after (cleared : list bool) (key : bytes) :
  runs_after cleared -> observed_key cleared key = key.
Proof.
  intros H. revert key. induction H as [|c cleared Hc _ IH]; intros key.
  - destruct key; reflexivity.
  - destruct key as [|k key]; [reflexivity|]. simpl. rewrite Hc, IH. reflexivity.
Qed.

Lemma xdr_len_ok_4 : xdr_len_ok 4.
Proof. unfold xdr_len_ok, MaxInt32. simpl. lia. Qed.

Lemma xdr_len_ok_32 : xdr_len_ok 32.
Proof. unfold xdr_len_ok, MaxInt32. simpl. lia. Qed.

(** The three keys as they come off the wire. *)
Lemma Unmarshal_Keys_Marshal (k : Keys) :
  length (MD k) = 32%nat -> length (Data k) = 32%nat -> length (Dedup k) = 32%nat ->
  decodes Unmarshal_Keys (List.concat (Marshal_Keys k)) k.
Proof.
  intros H1 H2 H3. unfold Marshal_Keys, Unmarshal_Keys, KeySize.
  rewrite !concat_app.
  eapply decodes_bind.
  { rewrite <- H1. apply DecodeFixedOpaque_Encode. rewrite H1. apply xdr_len_ok_32. }
  eapply decodes_bind.
  { rewrite <- H2. apply DecodeFixedOpaque_Encode. rewrite H2. apply xdr_len_ok_32. }
  cbv beta. rewrite <- (app_nil_r (List.concat (EncodeFixedOpaque (Dedup k)))).
  eapply decodes_bind.
  { rewrite <- H3. apply DecodeFixedOpaque_Encode. rewrite H3. apply xdr_len_ok_32. }
  destruct k. apply decodes_ret.
Qed.

Lemma Unmarshal_Header_Marshal (h : Header) :
  fits_int32 (hVersion h) -> length (Compression h) = 4%nat ->
  fits_uint64 (Size h) -> length (Digest h) = 32%nat ->
  xdr_len_ok (String.length (MimeType h)) ->
  decodes Unmarshal_Header (List.concat (Marshal_Header h)) h.
Proof.
  intros Hv Hc Hs Hd Hm. unfold Marshal_Header, Unmarshal_Header.
  rewrite !concat_app.
  eapply decodes_bind; [apply DecodeInt_Encode; exact Hv|].
  eapply decodes_bind.
  { rewrite <- Hc. apply DecodeFixedOpaque_Encode. rewrite Hc. apply xdr_len_ok_4. }
  eapply decodes_bind; [apply DecodeUhyper_Encode; exact Hs|].
  eapply decodes_bind.
  { rewrite <- Hd. apply DecodeFixedOpaque_Encode. rewrite Hd. apply xdr_len_ok_32. }
  cbv beta. rewrite <- (app_nil_r (List.concat (EncodeString (MimeType h)))).
  eapply decodes_bind; [apply DecodeString_Encode; exact Hm|].
  destruct h. apply decodes_ret.
Qed.

Lemma bufio_two_writes (a b : bytes) w1 o1 w2 o2 w3 o3 :
  bufio.Write [] a = (w1, o1) -> bufio.Write w1 b = (w2, o2) ->
  bufio.Flush w2 = (w3, o3) -> o1 ++ o2 ++ o3 = a ++ b.
Proof.
  intros E1 E2 E3. apply bufio_Write_spec in E1, E2.
  unfold bufio.Flush in E3. injection E3 as <- <-.
  rewrite E2, app_assoc, E1. reflexivity.
Qed.

(** The blob [Keys.Encrypt] returns. *)
Lemma Encrypt_blob (k : Keys) password N r p salt nonce cleared dk :
  scrypt_Key password salt N r p KeySize = Ok dk ->
  Encrypt k password N r p salt nonce cleared
  = Ok (salt ++ nonce
          ++ secretbox_Seal (List.concat (Marshal_Keys k)) nonce
               (observed_key cleared (copy_into KeySize dk))).
Proof.
  intros Hs. unfold Encrypt. rewrite Hs. cbn [obind].
  destruct (bufio.Write [] salt) as [w1 o1] eqn:E1.
  destruct (bufio.Write w1 nonce) as [w2 o2] eqn:E2.
  destruct (bufio.Write w2 _) as [w3 o3] eqn:E3.
  destruct (bufio.Flush w3) as [w4 o4] eqn:E4.
  apply bufio_Write_spec in E1, E2, E3.
  unfold bufio.Flush in E4. injection E4 as <- <-.
  f_equal. rewrite E3. rewrite (app_assoc o2), E2.
  rewrite <- app_assoc, (app_assoc o1), E1. reflexivity.
Qed.

(** What [KeysDecrypt] does on a blob long enough to hold salt and nonce. *)
Lemma KeysDecrypt_blob password N r p salt nonce box sp cleared dk :
  length salt = 32%nat -> length nonce = 24%nat ->
  scrypt_Key password salt N r p KeySize = Ok dk ->
  KeysDecrypt password N r p (mkSlice (salt ++ nonce ++ box) sp) cleared
  = match secretbox_Open box nonce (observed_key cleared (copy_into KeySize dk)) with
    | None => Err ErrCouldNotDecrypt
    | Some ksXDR =>
        match Unmarshal_Keys (bytes_NewReader ksXDR) with
        | (inl k, _) => Ok k
        | (inr _, _) => Err ErrCouldNotUnmarshal
        end
    end.
Proof.
  intros Hsalt Hnonce Hs. unfold KeysDecrypt, KeySize, NonceSize in *.
  rewrite (slice_range_prefix salt (nonce ++ box) sp Hsalt). cbn [obind].
  rewrite (slice_range_mid salt nonce box sp Hsalt Hnonce). cbn [obind].
  rewrite (copy_into_exact salt Hsalt), (copy_into_exact nonce Hnonce), Hs.
  cbn [obind].
  assert (Hsn : length (salt ++ nonce) = (32 + 24)%nat)
    by (rewrite length_app, Hsalt, Hnonce; reflexivity).
  rewrite app_assoc, (slice_from_app (salt ++ nonce) box sp Hsn).
  reflexivity.
Qed.

End Facts.
End SharedFacts.

Module EnvelopeFacts.
Import XDR XDRFacts shared SharedFacts.
Section Facts.
Context {CR : Crypto} {FL : Flate} {FS : Files}.

Lemma io_Copy_envelope_body (w0 : io_Writer) (content : bytes) w1 out1 :
  io_Copy w0 content = (w1, out1) ->
  out1 ++ match writer_Close w1 with
          | Some (_, out) => out
          | None => snd (writer_Flush w1)
          end
  = envelope_body w0 content.
Proof.
  unfold io_Copy, envelope_body, closed_stream, flushed_stream. intros E.
  rewrite E. destruct (writer_Close w1) as [[w2 out2]|]; reflexivity.
Qed.

(** The envelope of a file that every step could read. *)
Lemma FileNaClEncrypt_ok filename compress key nonce fd mime comp0 size content :
  goutil_FileSHA256 filename = Ok fd ->
  goutil_FileCompressible filename = Ok (mime, comp0) ->
  os_Open filename = Ok (mkFile (Ok size) (Ok content)) ->
  FileNaClEncrypt filename compress key nonce
  = Ok (nonce ++ secretbox_Seal
          (List.concat (Marshal_Header (envelope_header compress comp0 size fd mime))
             ++ envelope_body (envelope_writer compress comp0 size) content)
          nonce key).
Proof.
  intros Hd Hc Ho. unfold FileNaClEncrypt. rewrite Hd, Hc, Ho.
  cbn [obind f_Stat_Size f_contents]. cbv zeta.
  destruct (bufio.Write [] nonce) as [pw1 p1] eqn:E1.
  fold (envelope_writer compress comp0 size).
  destruct (io_Copy (envelope_writer compress comp0 size) content) as [w1 out1] eqn:Ec.
  match goal with
  | |- context [secretbox_Seal (_ ++ ?b) nonce key] =>
      replace b with (envelope_body (envelope_writer compress comp0 size) content)
        by (symmetry; apply io_Copy_envelope_body; exact Ec)
  end.
  destruct (bufio.Write pw1 _) as [pw2 p2] eqn:E2.
  destruct (bufio.Flush pw2) as [pw3 p3] eqn:E3.
  rewrite (bufio_two_writes _ _ E1 E2 E3).
  reflexivity.
Qed.

(** Whatever the file, a returned envelope is the nonce followed by a box
    sealed under that nonce and the key. *)
Lemma FileNaClEncrypt_shape filename compress key nonce payload :
  FileNaClEncrypt filename compress key nonce = Ok payload ->
  exists b, payload = nonce ++ secretbox_Seal b nonce key.
Proof.
  unfold FileNaClEncrypt.
  destruct (goutil_FileSHA256 filename) as [fd| |]; cbn [obind]; try discriminate.
  destruct (goutil_FileCompressible filename) as [[mime comp0]| |]; cbn [obind];
    try discriminate.
  destruct (os_Open filename) as [f| |]; cbn [obind]; try discriminate.
  destruct (f_Stat_Size f) as [size| |]; cbn [obind]; try discriminate.
  destruct (bufio.Write [] nonce) as [pw1 p1] eqn:E1.
  destruct (f_contents f) as [content| |]; cbn [obind]; try discriminate.
  cbv zeta. destruct (io_Copy _ content) as [w1 out1].
  destruct (bufio.Write pw1 _) as [pw2 p2] eqn:E2.
  destruct (bufio.Flush pw2) as [pw3 p3] eqn:E3.
  intros H. injection H as <-.
  rewrite (bufio_two_writes _ _ E1 E2 E3). eauto.
Qed.

(** [NaClDecrypt] on a body that holds a whole nonce. *)
Lemma NaClDecrypt_envelope nonce box sp key :
  length nonce = 24%nat ->
  NaClDecrypt (mkSlice (nonce ++ box) sp) key
  = match secretbox_Open box nonce key with
    | None => Err ErrCouldNotDecryptBody
    | Some payload =>
        match Unmarshal_Header (bytes_NewReader payload) with
        | (inr e, _) => Err (ErrXdr e)
        | (inl mh, r) =>
            obind (if bytes_Equal (Compression mh) CompNone then Ok r
                   else if bytes_Equal (Compression mh) CompGZIP then pgzip_NewReader r
                   else Err (ErrInvalidCompression (Compression mh)))
                  (fun rd => obind (io_ReadAll rd) (fun cleartext => Ok (mh, cleartext)))
        end
    end.
Proof.
  intros Hn. unfold NaClDecrypt, NonceSize.
  rewrite (slice_range_prefix nonce box sp Hn). cbn [obind].
  rewrite (slice_from_app nonce box sp Hn). cbn [obind].
  rewrite (copy_into_exact nonce Hn). reflexivity.
Qed.

End Facts.
End EnvelopeFacts.

(** ** The envelope round trip *)
Module Envelope.
Import XDR XDRFacts shared SharedFacts EnvelopeFacts.

Lemma writer_Writes_gzip {FL : Flate} (chunks : list bytes) (z : gzip_Writer) :
  exists z' out, writer_Writes (GzipWriter z) chunks = (GzipWriter z', out).
Proof.
  revert z. induction chunks as [|p chunks IH]; intros z; simpl; [eauto|].
  destruct (gzip_Write z p) as [z1 o1]. destruct (IH z1) as (z2 & o2 & E).
  rewrite E. eauto.
Qed.

Lemma writer_Writes_pgzip {FL : Flate} (chunks : list bytes) (z : pgzip_Writer) :
  exists z' out, writer_Writes (PgzipWriter z) chunks = (PgzipWriter z', out).
Proof.
  revert z. induction chunks as [|p chunks IH]; intros z; simpl; [eauto|].
  destruct (pgzip_Write z p) as [z1 o1]. destruct (IH z1) as (z2 & o2 & E).
  rewrite E. eauto.
Qed.

Lemma closed_stream_gzip {FL : Flate} (chunks : list bytes) :
  exists s, closed_stream (GzipWriter gzip_NewWriter) chunks = Some s.
Proof.
  unfold closed_stream.
  destruct (writer_Writes_gzip chunks gzip_NewWriter) as (z & out & E).
  rewrite E. simpl. destruct (gzip_Close z). eauto.
Qed.

Lemma closed_stream_pgzip {FL : Flate} (chunks : list bytes) :
  exists s, closed_stream (PgzipWriter pgzip_NewWriter) chunks = Some s.
Proof.
  unfold closed_stream.
  destruct (writer_Writes_pgzip chunks pgzip_NewWriter) as (z & out & E).
  rewrite E. simpl. destruct (pgzip_Close z). eauto.
Qed.

(** Reading back the body the envelope carries after its header. *)
Lemma envelope_body_reads {FL : Flate} (compress comp0 : bool) (size : Z) (B : bytes) :
  gzip_closed_reads -> pgzip_closed_reads ->
  obind (if compress && comp0
         then pgzip_NewReader (bytes_NewReader
                                 (envelope_body (envelope_writer compress comp0 size) B))
         else Ok (bytes_NewReader
                    (envelope_body (envelope_writer compress comp0 size) B)))
        io_ReadAll
  = Ok B.
Proof.
  intros Hgz Hpgz. unfold envelope_writer.
  destruct compress, comp0; cbn [andb]; try (rewrite envelope_body_bufio; reflexivity).
  unfold envelope_body, bytes_NewReader.
  destruct (1024 * 1024 <? size).
  - destruct (closed_stream_pgzip (io_Copy_chunks (length B) B)) as [s Es].
    rewrite Es, (Hpgz _ _ Es). cbn [obind]. unfold io_ReadAll. cbn [rd_end rd_data].
    rewrite concat_io_Copy_chunks by lia. reflexivity.
  - destruct (closed_stream_gzip (io_Copy_chunks (length B) B)) as [s Es].
    rewrite Es, (Hgz _ _ Es). cbn [obind]. unfold io_ReadAll. cbn [rd_end rd_data].
    rewrite concat_io_Copy_chunks by lia. reflexivity.
Qed.

(** C1.  For every file content [B], 32-byte key and compress flag, opening
    the envelope [FileNaClEncrypt] produced with the same key returns [B]
    and a header whose size is [len(B)] and whose digest is SHA-256 of [B],
    on the uncompressed, the gzip and the parallel-gzip branch alike. *)
Theorem seal_open_roundtrip {CR : Crypto} {FL : Flate} {FS : Files}
        (filename : string) (B : bytes) (compress : bool) (key nonce : bytes)
        (mime : string) (comp0 : bool) (sp : bytes) :
  secretbox_opens -> gzip_closed_reads -> pgzip_closed_reads -> sha256_size ->
  length key = 32%nat -> length nonce = 24%nat ->
  Z.of_nat (length B) < 2 ^ 63 ->
  xdr_len_ok (String.length mime) ->
  goutil_FileSHA256 filename = Ok (sha256_Sum B) ->
  goutil_FileCompressible filename = Ok (mime, comp0) ->
  os_Open filename = Ok (mkFile (Ok (Z.of_nat (length B))) (Ok B)) ->
  exists payload h,
    FileNaClEncrypt filename compress key nonce = Ok payload
    /\ NaClDecrypt (mkSlice payload sp) key = Ok (h, B)
    /\ Size h = Z.of_nat (length B)
    /\ Digest h = sha256_Sum B.
Proof.
  intros Hopen Hgz Hpgz Hsha Hkey Hnonce Hlen Hmime Hd Hc Ho.
  set (size := Z.of_nat (length B)) in *.
  set (h := envelope_header compress comp0 size (sha256_Sum B) mime).
  assert (Hsize : size mod 2 ^ 64 = size) by (apply Z.mod_small; subst size; lia).
  exists (nonce ++ secretbox_Seal
            (List.concat (Marshal_Header h)
               ++ envelope_body (envelope_writer compress comp0 size) B) nonce key), h.
  split; [apply FileNaClEncrypt_ok; assumption|].
  split; [|split; [exact Hsize | reflexivity]].
  rewrite NaClDecrypt_envelope by exact Hnonce.
  rewrite (Hopen _ _ _ Hnonce Hkey).
  assert (Hh : decodes Unmarshal_Header (List.concat (Marshal_Header h)) h).
  { apply Unmarshal_Header_Marshal; subst h; unfold envelope_header;
      cbn [hVersion Compression Size Digest MimeType].
    - unfold fits_int32, Version. lia.
    - destruct (compress && comp0); reflexivity.
    - rewrite Hsize. unfold fits_uint64. subst size. lia.
    - apply Hsha.
    - exact Hmime. }
  change (bytes_NewReader (?a ++ ?b)) with (rd_prepend a (bytes_NewReader b)).
  rewrite Hh.
  pose proof (envelope_body_reads compress comp0 size B Hgz Hpgz) as Hbody.
  subst h. unfold envelope_header. cbn [Compression].
  destruct (compress && comp0).
  - change (bytes_Equal CompGZIP CompNone) with false.
    change (bytes_Equal CompGZIP CompGZIP) with true. cbv iota.
    destruct (pgzip_NewReader _) as [rd| |]; cbn [obind] in *; try discriminate.
    rewrite Hbody. reflexivity.
  - change (bytes_Equal CompNone CompNone) with true. cbv iota.
    cbn [obind] in *. rewrite Hbody. reflexivity.
Qed.

(** C6.  An envelope sealed under [key] and opened with a different key is
    refused with "could not decrypt body"; no header and no bytes come back. *)
Theorem open_wrong_key_fails {CR : Crypto} {FL : Flate} {FS : Files}
        (filename : string) (compress : bool) (key key' nonce payload sp : bytes) :
  secretbox_rejects ->
  length nonce = 24%nat -> length key = 32%nat -> length key' = 32%nat ->
  key <> key' ->
  FileNaClEncrypt filename compress key nonce = Ok payload ->
  NaClDecrypt (mkSlice payload sp) key' = Err ErrCouldNotDecryptBody.
Proof.
  intros Hrej Hnonce Hkey Hkey' Hneq Hseal.
  apply FileNaClEncrypt_shape in Hseal as [b ->].
  rewrite NaClDecrypt_envelope by exact Hnonce.
  rewrite (Hrej _ _ _ _ Hnonce Hkey Hkey' Hneq). reflexivity.
Qed.

End Envelope.

(** ** The key bundle *)
Module KeyBundle.
Import XDR XDRFacts shared SharedFacts.

Lemma copy_into_length (n : nat) (l : bytes) : length (copy_into n l) = n.
Proof.
  unfold copy_into, zeroes. rewrite length_app, length_firstn, repeat_length. lia.
Qed.

(** The schedule in which the goroutines that zero the derived keys run
    after the keys were used.  The blob [Keys.Encrypt] makes under the
    parameters [uploadSecrets] passes is [salt][nonce][box], the box sealed
    under the 32 bytes scrypt derives with N=32768, r=16, p=2; [KeysDecrypt]
    with the same password returns the bundle, and with a password that
    derives another key it returns "could not decrypt".  The source does not
    order the goroutines after the use: the other schedules are treated
    further down. *)
Theorem wrap_unwrap {CR : Crypto}
        (k : Keys) (password password' salt nonce dk dk' sp : bytes)
        (cleared cleared' : list bool) :
  secretbox_opens -> secretbox_rejects ->
  length (MD k) = 32%nat -> length (Data k) = 32%nat -> length (Dedup k) = 32%nat ->
  length salt = 32%nat -> length nonce = 24%nat ->
  runs_after cleared -> runs_after cleared' ->
  scrypt_Key password salt 32768 16 2 32 = Ok dk ->
  scrypt_Key password' salt 32768 16 2 32 = Ok dk' ->
  copy_into 32 dk' <> copy_into 32 dk ->
  let box := secretbox_Seal (List.concat (Marshal_Keys k)) nonce (copy_into 32 dk) in
  Encrypt k password 32768 16 2 salt nonce cleared = Ok (salt ++ nonce ++ box)
  /\ KeysDecrypt password 32768 16 2 (mkSlice (salt ++ nonce ++ box) sp) cleared' = Ok k
  /\ KeysDecrypt password' 32768 16 2 (mkSlice (salt ++ nonce ++ box) sp) cleared'
     = Err ErrCouldNotDecrypt.
Proof.
  intros Hopen Hrej Hmd Hdata Hdedup Hsalt Hnonce Hc Hc' Hs Hs' Hneq box.
  split; [|split].
  - erewrite Encrypt_blob; [|exact Hs].
    unfold KeySize. rewrite (observed_key_runs_after _ Hc). reflexivity.
  - erewrite KeysDecrypt_blob; [|exact Hsalt|exact Hnonce|exact Hs].
    unfold KeySize. rewrite (observed_key_runs_after _ Hc').
    subst box. rewrite (Hopen _ _ _ Hnonce (copy_into_length 32 dk)).
    rewrite <- (app_nil_r (List.concat (Marshal_Keys k))).
    change (bytes_NewReader (?a ++ [])) with (rd_prepend a (bytes_NewReader [])).
    rewrite (Unmarshal_Keys_Marshal k Hmd Hdata Hdedup). reflexivity.
  - erewrite KeysDecrypt_blob; [|exact Hsalt|exact Hnonce|exact Hs'].
    unfold KeySize. rewrite (observed_key_runs_after _ Hc').
    subst box.
    rewrite (Hrej _ _ _ _ Hnonce (copy_into_length 32 dk) (copy_into_length 32 dk')).
    + reflexivity.
    + congruence.
Qed.

(** C9.  A body of fewer than 24 bytes makes [NaClDecrypt] panic with a
    slice bound out of range, and a blob of fewer than 56 bytes does the same
    to [KeysDecrypt] when scrypt accepts the parameters: neither returns its
    decryption error. *)
Theorem short_input_panics {CR : Crypto} {FL : Flate}
        (body : slice) (key : bytes)
        (password : bytes) (N r p : Z) (blob : slice) (cleared : list bool) :
  (slice_len body < 24)%nat ->
  (slice_len blob < 56)%nat ->
  (forall salt, exists dk, scrypt_Key password salt N r p 32 = Ok dk) ->
  NaClDecrypt body key = Panic SliceBoundsOutOfRange
  /\ KeysDecrypt password N r p blob cleared = Panic SliceBoundsOutOfRange.
Proof.
  intros Hbody Hblob Hscrypt. split.
  - unfold NaClDecrypt, NonceSize.
    destruct (slice_range_cases body 0 24) as [-> | [n ->]]; [reflexivity|].
    cbn [obind]. rewrite (slice_from_short body Hbody). reflexivity.
  - unfold KeysDecrypt, KeySize, NonceSize.
    destruct (slice_range_cases blob 0 32) as [-> | [s ->]]; [reflexivity|].
    cbn [obind].
    destruct (slice_range_cases blob 32 (32 + 24)) as [-> | [n ->]]; [reflexivity|].
    cbn [obind].
    destruct (Hscrypt (copy_into 32 s)) as [dk ->]. cbn [obind].
    rewrite (slice_from_short blob (lo := 32 + 24)) by (simpl; lia).
    reflexivity.
Qed.

End KeyBundle.

(** ** The mock instance meets the laws *)
Module MockFacts.
Import Mock.

Lemma firstn_app_exact {A} (a b : list A) : firstn (length a) (a ++ b) = a.
Proof. rewrite firstn_app, firstn_all, Nat.sub_diag, firstn_O. apply app_nil_r. Qed.

Lemma skipn_app_exact {A} (a b : list A) : skipn (length a) (a ++ b) = b.
Proof. rewrite skipn_app, skipn_all, Nat.sub_diag. reflexivity. Qed.

Lemma Open_Seal (m n k : bytes) : Open (Seal m n k) n k = Some m.
Proof.
  unfold Open, Seal. rewrite <- length_app, app_assoc, firstn_app_exact,
    skipn_app_exact, bytes_Equal_refl. reflexivity.
Qed.

Lemma Open_Seal_other (m n k k' : bytes) :
  length k = length k' -> k <> k' -> Open (Seal m n k) n k' = None.
Proof.
  intros Hlen Hneq. unfold Open, Seal.
  rewrite <- Hlen, <- length_app, app_assoc, firstn_app_exact.
  rewrite bytes_Equal_neq; [reflexivity|].
  intros H. apply app_inv_tail in H. contradiction.
Qed.

Lemma secretbox_opens_mock : secretbox_opens.
Proof. intros m n k _ _. apply Open_Seal. Qed.

Lemma secretbox_rejects_mock : secretbox_rejects.
Proof. intros m n k k' _ Hk Hk' Hneq. apply Open_Seal_other; congruence. Qed.

Lemma sha256_size_mock : sha256_size.
Proof.
  intros b. unfold sha256_Sum, crypto, copy_into, zeroes.
  rewrite length_app, length_firstn, repeat_length. lia.
Qed.

Lemma hmac_sha256_size_mock : hmac_sha256_size.
Proof.
  intros k b. unfold hmac_sha256, crypto, copy_into, zeroes.
  rewrite length_app, length_firstn, repeat_length. lia.
Qed.

Lemma inflate_frame (p rest : bytes) :
  inflate (frame p ++ rest) = let '(out, e) := inflate rest in (p ++ out, e).
Proof.
  induction p as [|b p IH].
  - simpl. destruct (inflate rest). reflexivity.
  - change (frame (b :: p) ++ rest) with (x01 :: b :: (frame p ++ rest)).
    cbn [inflate]. rewrite IH. destruct (inflate rest). reflexivity.
Qed.

Lemma inflate_frames (chunks : list bytes) (rest : bytes) :
  inflate (flat_map frame chunks ++ rest)
  = let '(out, e) := inflate rest in (List.concat chunks ++ out, e).
Proof.
  induction chunks as [|p chunks IH].
  - simpl. destruct (inflate rest). reflexivity.
  - cbn [flat_map List.concat]. rewrite <- app_assoc, inflate_frame, IH.
    destruct (inflate rest). rewrite app_assoc. reflexivity.
Qed.

Lemma gzip_Writes_mock (chunks : list bytes) :
  writer_Writes (GzipWriter (tt : gzip_Writer)) chunks
  = (GzipWriter (tt : gzip_Writer), flat_map frame chunks).
Proof.
  induction chunks as [|p chunks IH]; [reflexivity|].
  cbn [writer_Writes writer_Write gzip_Write flate]. rewrite IH. reflexivity.
Qed.

Lemma pgzip_Writes_mock (chunks : list bytes) :
  writer_Writes (PgzipWriter (tt : pgzip_Writer)) chunks
  = (PgzipWriter (tt : pgzip_Writer), flat_map frame chunks).
Proof.
  induction chunks as [|p chunks IH]; [reflexivity|].
  cbn [writer_Writes writer_Write pgzip_Write flate]. rewrite IH. reflexivity.
Qed.

Lemma gzip_closed_reads_mock : gzip_closed_reads.
Proof.
  intros chunks s. unfold closed_stream.
  change gzip_NewWriter with (tt : gzip_Writer). rewrite gzip_Writes_mock.
  cbn [writer_Close gzip_Close flate]. intros H. injection H as <-.
  cbn [pgzip_NewReader flate rd_data]. rewrite inflate_frames.
  cbn [inflate]. rewrite app_nil_r. reflexivity.
Qed.

Lemma pgzip_closed_reads_mock : pgzip_closed_reads.
Proof.
  intros chunks s. unfold closed_stream.
  change pgzip_NewWriter with (tt : pgzip_Writer). rewrite pgzip_Writes_mock.
  cbn [writer_Close pgzip_Close flate]. intros H. injection H as <-.
  cbn [pgzip_NewReader flate rd_data]. rewrite inflate_frames.
  cbn [inflate]. rewrite app_nil_r. reflexivity.
Qed.

Lemma gzip_flushed_reads_mock : gzip_flushed_reads.
Proof.
  intros chunks. unfold flushed_stream.
  change gzip_NewWriter with (tt : gzip_Writer). rewrite gzip_Writes_mock.
  cbn [writer_Flush gzip_Flush flate snd pgzip_NewReader rd_data].
  rewrite inflate_frames. cbn [inflate]. rewrite app_nil_r. reflexivity.
Qed.

Lemma time_codec_ok_mock : time_codec_ok.
Proof.
  intros t r. cbn [Decode_Time Encode_Time time_codec].
  unfold XDR.dbind.
  rewrite (XDRFacts.DecodeFixedOpaque_Encode [t]).
  - reflexivity.
  - unfold XDR.xdr_len_ok, XDR.MaxInt32. simpl. lia.
Qed.

End MockFacts.

(** ** Concrete runs of the envelope and key-bundle theorems *)
Module EnvelopeRuns.
Import shared Mock MockFacts.

Lemma seal_open_roundtrip_witness :
  exists payload h,
    FileNaClEncrypt "hello.txt" true key_a nonce0 = Ok payload
    /\ NaClDecrypt (mkSlice payload []) key_a = Ok (h, hello)
    /\ Size h = 6
    /\ Digest h = sha256_Sum hello.
Proof.
  apply (@Envelope.seal_open_roundtrip crypto flate files
           "hello.txt" hello true key_a nonce0 "text/plain" true []).
  - apply secretbox_opens_mock.
  - apply gzip_closed_reads_mock.
  - apply pgzip_closed_reads_mock.
  - apply sha256_size_mock.
  - reflexivity.
  - reflexivity.
  - reflexivity.
  - unfold XDR.xdr_len_ok, XDR.MaxInt32. simpl. lia.
  - reflexivity.
  - reflexivity.
  - reflexivity.
Defined.

Lemma open_wrong_key_fails_witness :
  exists payload,
    FileNaClEncrypt "hello.txt" true key_a nonce0 = Ok payload
    /\ NaClDecrypt (mkSlice payload []) key_b = Err ErrCouldNotDecryptBody.
Proof.
  eexists. split; [reflexivity|].
  apply (@Envelope.open_wrong_key_fails crypto flate files
           "hello.txt" true key_a key_b nonce0).
  - apply secretbox_rejects_mock.
  - reflexivity.
  - reflexivity.
  - reflexivity.
  - discriminate.
  - reflexivity.
Defined.

Lemma wrap_unwrap_witness :
  let dk := copy_into 32 (hunter2 ++ salt0) in
  let box := secretbox_Seal (List.concat (Marshal_Keys bundle)) nonce0 (copy_into 32 dk) in
  Encrypt bundle hunter2 32768 16 2 salt0 nonce0 [] = Ok (salt0 ++ nonce0 ++ box)
  /\ KeysDecrypt hunter2 32768 16 2 (mkSlice (salt0 ++ nonce0 ++ box) []) [] = Ok bundle
  /\ KeysDecrypt Hunter2 32768 16 2 (mkSlice (salt0 ++ nonce0 ++ box) []) []
     = Err ErrCouldNotDecrypt.
Proof.
  apply (@KeyBundle.wrap_unwrap crypto bundle hunter2 Hunter2 salt0 nonce0
           (copy_into 32 (hunter2 ++ salt0)) (copy_into 32 (Hunter2 ++ salt0)) [] [] []).
  - apply secretbox_opens_mock.
  - apply secretbox_rejects_mock.
  - reflexivity.
  - reflexivity.
  - reflexivity.
  - reflexivity.
  - reflexivity.
  - constructor.
  - constructor.
  - reflexivity.
  - reflexivity.
  - discriminate.
Defined.

Lemma short_input_panics_witness :
  NaClDecrypt (mkSlice hello (zeroes 506)) key_a = Panic SliceBoundsOutOfRange
  /\ KeysDecrypt hunter2 32768 16 2 (mkSlice hello (zeroes 506)) []
     = Panic SliceBoundsOutOfRange.
Proof.
  apply (@KeyBundle.short_input_panics crypto flate).
  - unfold slice_len, hello. simpl. lia.
  - unfold slice_len, hello. simpl. lia.
  - intros salt. eexists. reflexivity.
Defined.

End EnvelopeRuns.

(** ** Traces *)
Section TraceFacts.
Context {TC : TimeCodec}.

Lemma extends_ret {A} (a : A) : extends (ioret a).
Proof. intros tr. exists []. simpl. symmetry. apply app_nil_r. Qed.

Lemma extends_lift {A} (o : outcome A) : extends (lift o).
Proof. intros tr. exists []. simpl. symmetry. apply app_nil_r. Qed.

Lemma extends_call {A} (ev : event) (answer : list event -> outcome A) :
  extends (call ev answer).
Proof. intros tr. exists [ev]. reflexivity. Qed.

Lemma extends_bind {A B} (m : IO A) (f : A -> IO B) :
  extends m -> (forall a, extends (f a)) -> extends (iobind m f).
Proof.
  intros Hm Hf tr. unfold iobind. destruct (Hm tr) as [e1 H1].
  destruct (m tr) as [[a|e|p] tr1]; simpl in H1; subst tr1; simpl; eauto.
  destruct (Hf a (tr ++ e1)) as [e2 H2]. rewrite H2, <- app_assoc. eauto.
Qed.

Lemma extends_try {A} (m : IO A) : extends m -> extends (try m).
Proof.
  intros Hm tr. unfold try. destruct (Hm tr) as [e1 H1].
  destruct (m tr) as [[a|e|p] tr1]; simpl in *; eauto.
Qed.

Lemma extends_pure {A} (f : list event -> outcome A) :
  extends (fun tr => (f tr, tr)).
Proof. intros tr. exists []. simpl. symmetry. apply app_nil_r. Qed.

Lemma quiet_ret {A} (a : A) : quiet (ioret a).
Proof. intros tr. exists []. simpl. rewrite app_nil_r. split; reflexivity. Qed.

Lemma quiet_call {A} (ev : event) (answer : list event -> outcome A) :
  is_remote_call ev = false -> quiet (call ev answer).
Proof. intros H tr. exists [ev]. simpl. rewrite H. split; reflexivity. Qed.

Lemma quiet_bind {A B} (m : IO A) (f : A -> IO B) :
  quiet m -> (forall a, quiet (f a)) -> quiet (iobind m f).
Proof.
  intros Hm Hf tr. unfold iobind. destruct (Hm tr) as (e1 & H1 & Q1).
  destruct (m tr) as [[a|e|p] tr1]; simpl in H1; subst tr1; simpl; eauto.
  destruct (Hf a (tr ++ e1)) as (e2 & H2 & Q2). exists (e1 ++ e2).
  rewrite H2, <- app_assoc, forallb_app, Q1, Q2. split; reflexivity.
Qed.

Lemma quiet_try {A} (m : IO A) : quiet m -> quiet (try m).
Proof.
  intros Hm tr. unfold try. destruct (Hm tr) as (e1 & H1 & Q1).
  destruct (m tr) as [[a|e|p] tr1]; simpl in *; eauto.
Qed.

End TraceFacts.

Ltac quiet_step :=
  first
    [ apply quiet_ret
    | apply quiet_call; reflexivity
    | apply quiet_try
    | apply quiet_bind; [|intros]
    | match goal with
      | |- quiet (match ?x with _ => _ end) => destruct x
      | |- quiet (if ?b then _ else _) => destruct b
      end ].

Ltac extends_step :=
  first
    [ apply extends_ret
    | apply extends_lift
    | apply extends_call
    | apply extends_pure
    | apply extends_try
    | apply extends_bind; [|intros]
    | match goal with
      | |- extends (match ?x with _ => _ end) => destruct x
      | |- extends (if ?b then _ else _) => destruct b
      end ].

(** ** Extraction *)
Module ExtractFacts.
Import acdbackup.
Section Facts.
Context {CR : Crypto} {FL : Flate} {FS : Files} {TC : TimeCodec}
        {FP : Filepath} {PL : PathLib} {W : World}.

Lemma Printf_extends (m : message) : extends (Printf m).
Proof. apply extends_call. Qed.

Lemma downloadPayload_extends (a : acdb) (fullpath : string) (id : bytes) :
  extends (downloadPayload a fullpath id).
Proof. unfold downloadPayload. repeat extends_step. Qed.

Lemma starts_with_call {A B} ev (answer : list event -> outcome A)
      (f : A + error -> IO B) :
  (forall r, extends (f r)) -> starts_with ev (iobind (try (call ev answer)) f).
Proof.
  intros Hf tr. unfold iobind, try, call.
  destruct (answer tr) as [x|err|p].
  - destruct (Hf (inl x) (tr ++ [ev])) as [ext H]. exists ext.
    cbv iota beta. rewrite H, <- app_assoc. reflexivity.
  - destruct (Hf (inr err) (tr ++ [ev])) as [ext H]. exists ext.
    cbv iota beta. rewrite H, <- app_assoc. reflexivity.
  - exists []. reflexivity.
Qed.

Lemma starts_with_try {A} ev (m : IO A) : starts_with ev m -> starts_with ev (try m).
Proof.
  intros Hm tr. unfold try. destruct (Hm tr) as [ext H].
  destruct (m tr) as [[x|err|p] tr1]; simpl in *; eauto.
Qed.

Lemma starts_with_bind {A B} ev (m : IO A) (f : A -> IO B) :
  starts_with ev m -> (forall x, extends (f x)) -> starts_with ev (iobind m f).
Proof.
  intros Hm Hf tr. unfold iobind. destruct (Hm tr) as [ext H].
  destruct (m tr) as [[x|err|p] tr1]; simpl in H; subst tr1; simpl; eauto.
  destruct (Hf x (tr ++ ev :: ext)) as [ext2 H2]. exists (ext ++ ext2).
  rewrite H2, <- app_assoc. reflexivity.
Qed.

Lemma quiet_after_call {A B} ev (answer : list event -> outcome A)
      (f : A + error -> IO B) :
  (forall r, quiet (f r)) ->
  forall tr, exists ext,
    snd (iobind (try (call ev answer)) f tr) = tr ++ ev :: ext
    /\ forallb (fun ev => negb (is_remote_call ev)) ext = true.
Proof.
  intros Hf tr. unfold iobind, try, call.
  destruct (answer tr) as [x|err|p].
  - destruct (Hf (inl x) (tr ++ [ev])) as (ext & H & Q). exists ext.
    cbv iota beta. rewrite H, <- app_assoc. split; [reflexivity | exact Q].
  - destruct (Hf (inr err) (tr ++ [ev])) as (ext & H & Q). exists ext.
    cbv iota beta. rewrite H, <- app_assoc. split; [reflexivity | exact Q].
  - exists []. split; reflexivity.
Qed.

Lemma downloadPayload_starts (a : acdb) (fullpath : string) (id : bytes) :
  starts_with (EvGetMetadataFS ("/data/" ++ hex_EncodeToString id))
              (downloadPayload a fullpath id).
Proof.
  unfold downloadPayload. apply starts_with_call.
  intros r. repeat extends_step.
Qed.

(** C10.  In extract mode a File entry is created empty exactly when its
    size field is 0, whatever its digest: then no call reaches the remote
    store; with any other size the first thing [extract] does after making
    the directory is to look up [/data/<hex digest>], which for the all-zero
    digest is [/data/] followed by 64 zeros. *)
Theorem extract_by_size (a : acdb) (e : metadata.File) (tr : list event) :
  mode a = modeExtract ->
  os_MkdirAll tr (path_Join (root a) (path_Dir (metadata.fName e))) 493 = Ok tt ->
  let tr1 := tr ++ [EvMkdirAll (path_Join (root a) (path_Dir (metadata.fName e))) 493] in
  (metadata.fSize e = 0 ->
   exists ext,
     snd (extract a e tr)
     = tr1 ++ EvCreate (path_Join (root a) (metadata.fName e)) :: ext
     /\ forallb (fun ev => negb (is_remote_call ev)) ext = true)
  /\ (metadata.fSize e <> 0 ->
      exists ext,
        snd (extract a e tr)
        = tr1 ++ EvGetMetadataFS ("/data/" ++ hex_EncodeToString (metadata.fDigest e))
              :: ext)
  /\ hex_EncodeToString (zeroes 32)
     = "0000000000000000000000000000000000000000000000000000000000000000"%string.
Proof.
  intros Hmode Hmk tr1. split; [|split; [|reflexivity]].
  - intros Hsize. unfold extract, iobind at 1, try at 1, call at 1.
    rewrite Hmk, Hmode, Hsize. fold tr1.
    change ((modeExtract =? modeExtract) && (0 =? 0)) with true. cbv iota.
    apply quiet_after_call. intros r. repeat quiet_step.
  - intros Hsize. unfold extract, iobind at 1, try at 1, call at 1.
    rewrite Hmk, Hmode. fold tr1.
    replace (metadata.fSize e =? 0) with false by (symmetry; apply Z.eqb_neq; exact Hsize).
    rewrite andb_false_r. cbv iota. clearbody tr1. revert tr1.
    apply starts_with_bind.
    + apply starts_with_try, downloadPayload_starts.
    + intros x. repeat extends_step.
Qed.

End Facts.
End ExtractFacts.

(** ** Downloading a payload *)
Module DownloadFacts.
Import acdbackup.
Section Facts.
Context {CR : Crypto} {FL : Flate} {FS : Files} {TC : TimeCodec}
        {FP : Filepath} {PL : PathLib} {W : World}.

(** C2, as the code has it.  Once the object was found, downloaded, opened
    with the data key and decompressed, its body goes into a temp file that
    is renamed into place: nothing compares the body with the digest or the
    size of the envelope header, which [downloadPayload] drops. *)
Theorem download_writes_unverified
        (a : acdb) (fullpath : string) (id : bytes) (tr : list event)
        (asset : Asset) (body : slice) (h : shared.Header) (payload : bytes)
        (name : string) :
  let p := ("/data/" ++ hex_EncodeToString id)%string in
  let dest := path_Join (root a) fullpath in
  let tr1 := tr ++ [EvGetMetadataFS p] in
  let tr2 := tr1 ++ [EvDownloadJSON (ID asset)] in
  let tr3 := tr2 ++ [EvTempFile (root a) "acdb"] in
  let tr4 := tr3 ++ [EvWrite name payload] in
  acd_GetMetadataFS tr p = Ok asset ->
  acd_DownloadJSON tr1 (ID asset) = Ok body ->
  shared.NaClDecrypt body (shared.Data (keys a)) = Ok (h, payload) ->
  ioutil_TempFile tr2 (root a) "acdb" = Ok name ->
  file_Write tr3 name payload = Ok tt ->
  os_Rename tr4 name dest = Ok tt ->
  downloadPayload a fullpath id tr = (Ok tt, tr4 ++ [EvRename name dest]).
Proof.
  intros p dest tr1 tr2 tr3 tr4 Hfind Hdl Hopen Htmp Hwrite Hren.
  unfold downloadPayload, iobind, try, call, lift.
  fold p. rewrite Hfind. fold tr1. rewrite Hdl. fold tr2.
  rewrite Hopen. rewrite Htmp. fold tr3. rewrite Hwrite. fold tr4.
  fold dest. rewrite Hren. reflexivity.
Qed.

End Facts.
End DownloadFacts.

(** ** Concrete runs of extraction *)
Module ExtractRuns.
Import Mock acdbackup.

(** C2 as stated fails: the store holds, under the fingerprint of [hello],
    an envelope that opens under the data key to the body [hello] while its
    header announces another digest and another size; [downloadPayload]
    reports no error and renames the body into place. *)
Lemma download_digest_mismatch_accepted :
  shared.NaClDecrypt (mkSlice forged (zeroes 100)) key_b = Ok (forged_header, hello)
  /\ shared.Digest forged_header <> sha256_Sum hello
  /\ shared.Size forged_header <> Z.of_nat (length hello)
  /\ downloadPayload (W := world store) extracting "hello.txt" hello_id []
     = (Ok tt,
        [EvGetMetadataFS ("/data/" ++ hello_name);
         EvDownloadJSON "obj1";
         EvTempFile "/restore" "acdb";
         EvWrite "acdb001" hello;
         EvRename "acdb001" "/restore/hello.txt"]).
Proof.
  split; [vm_compute; reflexivity|].
  split; [vm_compute; discriminate|].
  split; [vm_compute; discriminate|].
  vm_compute. reflexivity.
Qed.

Lemma download_writes_unverified_witness :
  downloadPayload (W := world store) extracting "hello.txt" hello_id []
  = (Ok tt,
     ((([] ++ [EvGetMetadataFS ("/data/" ++ hex_EncodeToString hello_id)])
         ++ [EvDownloadJSON "obj1"])
        ++ [EvTempFile "/restore" "acdb"]
        ++ [EvWrite "acdb001" hello])
       ++ [EvRename "acdb001" "/restore/hello.txt"]).
Proof.
  apply (@DownloadFacts.download_writes_unverified crypto flate time_codec pathlib
           (world store) extracting "hello.txt" hello_id []
           (mkAsset "obj1" hello_name) (mkSlice forged (zeroes 100))
           forged_header hello "acdb001").
  - reflexivity.
  - reflexivity.
  - vm_compute. reflexivity.
  - reflexivity.
  - reflexivity.
  - reflexivity.
Defined.

Lemma extract_by_size_witness :
  exists ext,
    snd (extract (W := world store) extracting empty_with_digest [])
    = [EvMkdirAll "/restore/." 493] ++ EvCreate "/restore/empty.txt" :: ext
    /\ forallb (fun ev => negb (is_remote_call ev)) ext = true.
Proof.
  apply (proj1 (@ExtractFacts.extract_by_size crypto flate time_codec pathlib
                  (world store) extracting empty_with_digest []
                  eq_refl eq_refl)).
  reflexivity.
Defined.

(** Size 0 and a digest: the file is created, nothing is looked up. *)
Example extract_empty_with_digest :
  extract (W := world store) extracting empty_with_digest []
  = (Ok (false, None),
     [EvMkdirAll "/restore/." 493; EvCreate "/restore/empty.txt"]).
Proof. vm_compute. reflexivity. Qed.

(** Size 6 and no digest: the object named by 64 zeros is looked up. *)
Example extract_sized_without_digest :
  extract (W := world store) extracting sized_without_digest []
  = (Ok (false, Some ErrRemoteObjectNotFound),
     [EvMkdirAll "/restore/." 493;
      EvGetMetadataFS
        "/data/0000000000000000000000000000000000000000000000000000000000000000"]).
Proof. vm_compute. reflexivity. Qed.

End ExtractRuns.

(** ** The create walk *)
Module WalkFacts.
Import acdbackup.
Section Facts.
Context {CR : Crypto} {FL : Flate} {FS : Files} {TC : TimeCodec}
        {FP : Filepath} {PL : PathLib} {W : World}.

Lemma IsRegular_not_dir (m : Z) :
  IsRegular m = true -> (Z.land m os_ModeDir =? os_ModeDir) = false.
Proof.
  unfold IsRegular, os_ModeType. intros H. apply Z.eqb_eq in H.
  rewrite Z.land_lor_distr_r in H. apply Z.lor_eq_0_iff in H as [H _].
  rewrite H. reflexivity.
Qed.

Lemma IsRegular_not_symlink (m : Z) :
  IsRegular m = true -> (Z.land m os_ModeSymlink =? os_ModeSymlink) = false.
Proof.
  unfold IsRegular, os_ModeType. intros H. apply Z.eqb_eq in H.
  rewrite Z.land_lor_distr_r in H. apply Z.lor_eq_0_iff in H as [_ H].
  rewrite Z.land_lor_distr_r in H. apply Z.lor_eq_0_iff in H as [H _].
  rewrite H. reflexivity.
Qed.

(** [walk] on a non-empty regular file that every local step could read:
    the File entry is encoded, then the upload is attempted. *)
Lemma walk_regular (a : acdb) (path : string) (info : os_FileInfo)
      (tr : list event) (digest payload : bytes) (mime : string) (c : bool) :
  IsRegular (fi_Mode info) = true ->
  fi_Size info <> 0 ->
  goutil_FileHMACSHA256 path (shared.Dedup (keys a)) = Ok digest ->
  shared.FileNaClEncrypt path (compress a) (shared.Data (keys a))
                         (rand_Read tr shared.NonceSize) = Ok payload ->
  goutil_FileCompressible path = Ok (mime, c) ->
  walk a path info None tr
  = walk_upload (set_me a (fst (metadata.EncFile (me a) path info mime (Some digest))))
                path info None (Some digest) payload tr.
Proof.
  intros Hreg Hsize Hd Hp Hm. unfold walk.
  rewrite (IsRegular_not_dir _ Hreg), (IsRegular_not_symlink _ Hreg), Hreg.
  replace (fi_Size info =? 0) with false by (symmetry; apply Z.eqb_neq; exact Hsize).
  cbn [andb]. cbv iota.
  unfold iobind at 1, try at 1, lift at 1. rewrite Hd.
  unfold iobind at 1, try at 1. rewrite Hp.
  unfold iobind at 1, try at 1, lift at 1. rewrite Hm.
  unfold metadata.EncFile. unfold iobind at 1, try at 1, lift at 1.
  reflexivity.
Qed.

(** The run of [walk] on a non-empty regular file whose bytes are [B], in
    terms of the encoder's [File] method: the digest handed to it is
    HMAC-SHA256 of [B] under the dedup key, and the one upload [walk]
    attempts goes to the data folder under the lowercase hex of that digest;
    when the store answers with a conflict (or accepts), nothing is uploaded
    again.  What the method leaves in the manifest is read back from its
    bytes further down. *)
Theorem walk_dedup (a : acdb) (path : string) (info : os_FileInfo)
        (tr : list event) (B payload : bytes) (mime : string) (c : bool)
        (r : outcome Asset) :
  let d := hmac_sha256 (shared.Dedup (keys a)) B in
  let upload := EvUploadJSON (dataID a) (hex_EncodeToString d) payload in
  IsRegular (fi_Mode info) = true ->
  fi_Size info <> 0 ->
  goutil_FileHMACSHA256 path (shared.Dedup (keys a)) = Ok d ->
  shared.FileNaClEncrypt path (compress a) (shared.Data (keys a))
                         (rand_Read tr shared.NonceSize) = Ok payload ->
  goutil_FileCompressible path = Ok (mime, c) ->
  acd_UploadJSON tr (dataID a) (hex_EncodeToString d) payload = r ->
  (r = Err (CombinedError StatusConflict) \/ exists asset, r = Ok asset) ->
  exists a' printed,
    walk a path info None tr = (Ok a', tr ++ upload :: printed)
    /\ forallb is_print printed = true
    /\ me a' = fst (metadata.EncFile (me a) path info mime (Some d))
    /\ metadata.fDigest (metadata.File_of path info mime (Some d)) = d.
Proof.
  intros d upload Hreg Hsize Hd Hp Hm Hup Hr.
  rewrite (walk_regular a path info tr Hreg Hsize Hd Hp Hm).
  set (a' := set_me a (fst (metadata.EncFile (me a) path info mime (Some d)))).
  unfold walk_upload, iobind at 1, try at 1, call at 1.
  change (dataID a') with (dataID a). change (verbose a') with (verbose a).
  fold upload. rewrite Hup.
  destruct Hr as [-> | [asset ->]]; cbv iota beta.
  - change (negb (StatusConflict =? StatusConflict)) with false. cbv iota.
    destruct (verbose a).
    + eexists a', [_]. unfold iobind, Printf, call, ioret.
      rewrite <- app_assoc. repeat split; reflexivity.
    + exists a', []. repeat split; reflexivity.
  - destruct (verbose a).
    + eexists a', [_]. unfold iobind, Printf, call, ioret.
      rewrite <- app_assoc. repeat split; reflexivity.
    + exists a', []. repeat split; reflexivity.
Qed.

(** A file that cannot be fingerprinted is skipped with a warning: no
    entry, no upload. *)
Lemma walk_fingerprint_error (a : acdb) (path : string) (info : os_FileInfo)
      (tr : list event) (e : error) :
  IsRegular (fi_Mode info) = true ->
  fi_Size info <> 0 ->
  goutil_FileHMACSHA256 path (shared.Dedup (keys a)) = Err e ->
  walk a path info None tr = (Ok a, tr ++ [EvPrintf (MsgSkipping path e)]).
Proof.
  intros Hreg Hsize Hd. unfold walk.
  rewrite (IsRegular_not_dir _ Hreg), (IsRegular_not_symlink _ Hreg), Hreg.
  replace (fi_Size info =? 0) with false by (symmetry; apply Z.eqb_neq; exact Hsize).
  cbn [andb]. cbv iota.
  unfold iobind at 1, try at 1, lift at 1. rewrite Hd. reflexivity.
Qed.

(** So is a file that cannot be sealed. *)
Lemma walk_seal_error (a : acdb) (path : string) (info : os_FileInfo)
      (tr : list event) (digest : bytes) (e : error) :
  IsRegular (fi_Mode info) = true ->
  fi_Size info <> 0 ->
  goutil_FileHMACSHA256 path (shared.Dedup (keys a)) = Ok digest ->
  shared.FileNaClEncrypt path (compress a) (shared.Data (keys a))
                         (rand_Read tr shared.NonceSize) = Err e ->
  walk a path info None tr = (Ok a, tr ++ [EvPrintf (MsgSkipping path e)]).
Proof.
  intros Hreg Hsize Hd Hp. unfold walk.
  rewrite (IsRegular_not_dir _ Hreg), (IsRegular_not_symlink _ Hreg), Hreg.
  replace (fi_Size info =? 0) with false by (symmetry; apply Z.eqb_neq; exact Hsize).
  cbn [andb]. cbv iota.
  unfold iobind at 1, try at 1, lift at 1. rewrite Hd.
  unfold iobind at 1, try at 1. rewrite Hp. reflexivity.
Qed.

(** A failed upload that is not a conflict prints the same warning, after
    the File entry was encoded. *)
Lemma walk_upload_error (a : acdb) (path : string) (info : os_FileInfo)
      (tr : list event) (digest payload : bytes) (mime : string) (c : bool)
      (sc : Z) :
  IsRegular (fi_Mode info) = true ->
  fi_Size info <> 0 ->
  goutil_FileHMACSHA256 path (shared.Dedup (keys a)) = Ok digest ->
  shared.FileNaClEncrypt path (compress a) (shared.Data (keys a))
                         (rand_Read tr shared.NonceSize) = Ok payload ->
  goutil_FileCompressible path = Ok (mime, c) ->
  acd_UploadJSON tr (dataID a) (hex_EncodeToString digest) payload
  = Err (CombinedError sc) ->
  sc <> StatusConflict ->
  walk a path info None tr
  = (Ok (set_me a (fst (metadata.EncFile (me a) path info mime (Some digest)))),
     tr ++ [EvUploadJSON (dataID a) (hex_EncodeToString digest) payload;
            EvPrintf (MsgSkipping path (CombinedError sc))]).
Proof.
  intros Hreg Hsize Hd Hp Hm Hup Hsc.
  rewrite (walk_regular a path info tr Hreg Hsize Hd Hp Hm).
  set (a' := set_me a _).
  unfold walk_upload, iobind at 1, try at 1, call at 1.
  change (dataID a') with (dataID a). rewrite Hup.
  cbv iota beta.
  replace (sc =? StatusConflict) with false by (symmetry; apply Z.eqb_neq; exact Hsc).
  unfold iobind, Printf, call, ioret. cbn [negb]. rewrite <- app_assoc. reflexivity.
Qed.

End Facts.
End WalkFacts.

(** ** Concrete runs of the walk *)
Module WalkRuns.
Import Mock acdbackup.

Lemma walk_dedup_witness :
  exists a' printed,
    walk (W := world conflicting) archiving "hello.txt" hello_info None []
    = (Ok a', [] ++ EvUploadJSON "dataid" hello_name hello_envelope :: printed)
    /\ forallb is_print printed = true
    /\ me a' = fst (metadata.EncFile (me archiving) "hello.txt" hello_info "text/plain"
                                     (Some hello_id))
    /\ metadata.fDigest (metadata.File_of "hello.txt" hello_info "text/plain"
                                          (Some hello_id)) = hello_id.
Proof.
  apply (@WalkFacts.walk_dedup crypto flate files time_codec filepath
           (world conflicting) archiving "hello.txt" hello_info [] hello
           hello_envelope "text/plain" true (Err (CombinedError 409))).
  - reflexivity.
  - discriminate.
  - reflexivity.
  - reflexivity.
  - reflexivity.
  - reflexivity.
  - left. reflexivity.
Defined.

(** The conflict run in full: one upload, the "deduped" line, and a
    manifest that decodes to the File entry with the fingerprint. *)
Example walk_conflict_run :
  exists a',
    walk (W := world conflicting) archiving "hello.txt" hello_info None []
    = (Ok a',
       [EvUploadJSON "dataid" hello_name hello_envelope;
        EvPrintf (MsgVerbose 420 6 "hello.txt" (" deduped " ++ "=> " ++ hello_name))])
    /\ exists md,
         metadata.NewDecoder (bytes_NewReader (metadata.w (metadata.Flush (me a'))))
         = Ok md
         /\ list_entries 2 md
            = Some (Ok [metadata.EFile
                          (metadata.File_of "hello.txt" hello_info "text/plain"
                                            (Some hello_id))]).
Proof.
  eexists. split.
  - vm_compute. reflexivity.
  - eexists. split.
    + vm_compute. reflexivity.
    + vm_compute. reflexivity.
Qed.

(** C4 fails on an upload error: the store answers the upload of
    [hello.txt] with status 500; [walk] prints that it skips the file, and
    the manifest already holds the complete File entry. *)
Theorem walk_upload_failure_keeps_entry :
  exists a',
    walk (W := world failing) archiving "hello.txt" hello_info None []
    = (Ok a',
       [EvUploadJSON "dataid" hello_name hello_envelope;
        EvPrintf (MsgSkipping "hello.txt" (CombinedError 500))])
    /\ exists md,
         metadata.NewDecoder (bytes_NewReader (metadata.w (metadata.Flush (me a'))))
         = Ok md
         /\ list_entries 2 md
            = Some (Ok [metadata.EFile
                          (metadata.File_of "hello.txt" hello_info "text/plain"
                                            (Some hello_id))]).
Proof.
  eexists. split.
  - vm_compute. reflexivity.
  - eexists. split.
    + vm_compute. reflexivity.
    + vm_compute. reflexivity.
Qed.

End WalkRuns.

(** ** The secrets lifecycle *)
Module SecretsFacts.
Import acdbackup.
Section Facts.
Context {CR : Crypto} {FL : Flate} {FS : Files} {TC : TimeCodec}
        {FP : Filepath} {PL : PathLib} {W : World}.

Lemma verifySecrets_trace (a : acdb) (p : bytes) (blob : slice) (tr : list event) :
  snd (verifySecrets a p blob tr) = tr.
Proof.
  unfold verifySecrets, iobind.
  destruct (shared.KeysDecrypt p 32768 16 2 blob (go_Zero_cleared tr)) as [kk|e|pn];
    try reflexivity.
  destruct (_ && _); reflexivity.
Qed.

(** At the prompt, every error of [verifySecrets] is taken for a wrong
    password: it is printed and the loop goes round again. *)
Lemma downloadSecrets_loop_retry (fuel : nat) (a : acdb) (blob : slice)
      (tr : list event) (p : bytes) (e : error) :
  let tr3 := tr ++ [EvReadPassword; EvPrintf MsgNoPasswordFile; EvPromptPassword false] in
  shared_ReadPassword tr = Err ErrNotExist ->
  shared_PromptPassword (tr ++ [EvReadPassword; EvPrintf MsgNoPasswordFile]) false = Ok p ->
  fst (verifySecrets a p blob tr3) = Err e ->
  downloadSecrets_loop (S fuel) a blob tr
  = downloadSecrets_loop fuel a blob (tr3 ++ [EvPrintf (MsgInvalidPassword e)]).
Proof.
  intros tr3 Hread Hprompt Hverify.
  pose proof (verifySecrets_trace a p blob tr3) as Htr.
  cbn [downloadSecrets_loop].
  unfold iobind at 1, try at 1, call at 1. rewrite Hread. cbv iota beta.
  unfold iobind at 1, Printf at 1, call at 1. cbv iota beta.
  unfold iobind at 1, call at 1.
  rewrite <- app_assoc. cbn [app]. rewrite Hprompt. cbv iota beta.
  unfold iobind at 1, try at 1.
  replace ((tr ++ [EvReadPassword; EvPrintf MsgNoPasswordFile]) ++ [EvPromptPassword false])
    with tr3 by (subst tr3; rewrite <- app_assoc; reflexivity).
  destruct (verifySecrets a p blob tr3) as [r tr'].
  cbn [fst snd] in Hverify, Htr. subst r tr'. cbv iota beta.
  unfold iobind at 1, Printf at 1, call at 1. reflexivity.
Qed.

(** With a password file the same error ends [downloadSecrets]. *)
Lemma downloadSecrets_loop_file (fuel : nat) (a : acdb) (blob : slice)
      (tr : list event) (p : bytes) (e : error) :
  shared_ReadPassword tr = Ok p ->
  fst (verifySecrets a p blob (tr ++ [EvReadPassword])) = Err e ->
  downloadSecrets_loop (S fuel) a blob tr = (Err e, tr ++ [EvReadPassword]).
Proof.
  intros Hread Hverify.
  pose proof (verifySecrets_trace a p blob (tr ++ [EvReadPassword])) as Htr.
  cbn [downloadSecrets_loop].
  unfold iobind at 1, try at 1, call at 1. rewrite Hread. cbv iota beta.
  unfold iobind at 1.
  destruct (verifySecrets a p blob (tr ++ [EvReadPassword])) as [r tr'].
  cbn [fst snd] in Hverify, Htr. subst r tr'. reflexivity.
Qed.

End Facts.
End SecretsFacts.

(** ** Concrete runs of the secrets lifecycle *)
Module SecretsRuns.
Import Mock acdbackup.

Lemma remote_blob_opens :
  shared.KeysDecrypt hunter2 32768 16 2 (mkSlice remote_blob (zeroes 344)) []
  = Ok other_bundle.
Proof. vm_compute. reflexivity. Qed.

Lemma verifySecrets_mixed (tr : list event) :
  verifySecrets (W := world mixed_vaults) archiving hunter2
                (mkSlice remote_blob (zeroes 344)) tr
  = (Err ErrSecretsNotIdentical, tr).
Proof.
  unfold verifySecrets, iobind.
  change (go_Zero_cleared tr) with (@nil bool).
  rewrite remote_blob_opens. reflexivity.
Qed.

Lemma mixed_vaults_loop (fuel : nat) (tr : list event) :
  fst (downloadSecrets_loop (W := world mixed_vaults) fuel archiving
                            (mkSlice remote_blob (zeroes 344)) tr)
  = Ok None.
Proof.
  revert tr. induction fuel as [|fuel IH]; intros tr; [reflexivity|].
  rewrite SecretsFacts.downloadSecrets_loop_retry
    with (p := hunter2) (e := ErrSecretsNotIdentical).
  - apply IH.
  - reflexivity.
  - reflexivity.
  - rewrite verifySecrets_mixed. reflexivity.
Qed.

(** C8 fails at the prompt.  The remote secrets open under the typed
    password and hold another bundle than the local one.  Without a password
    file [downloadSecrets] never returns the mismatch: it prints it as an
    invalid password and prompts again, for as long as the user answers; with
    a password file the same mismatch is the error it returns. *)
Theorem key_mismatch_retried_at_prompt :
  shared.KeysDecrypt hunter2 32768 16 2 (mkSlice remote_blob (zeroes 344)) []
  = Ok other_bundle
  /\ other_bundle <> bundle
  /\ (forall fuel,
        fst (downloadSecrets (W := world mixed_vaults) fuel archiving []) = Ok None)
  /\ downloadSecrets (W := world mixed_vaults) 2 archiving []
     = (Ok None,
        [EvGetMetadataFS "metadata/secrets"; EvDownloadJSON "sec";
         EvReadPassword; EvPrintf MsgNoPasswordFile; EvPromptPassword false;
         EvPrintf (MsgInvalidPassword ErrSecretsNotIdentical);
         EvReadPassword; EvPrintf MsgNoPasswordFile; EvPromptPassword false;
         EvPrintf (MsgInvalidPassword ErrSecretsNotIdentical)])
  /\ downloadSecrets (W := world mixed_vaults_with_file) 1 archiving []
     = (Err ErrSecretsNotIdentical,
        [EvGetMetadataFS "metadata/secrets"; EvDownloadJSON "sec"; EvReadPassword]).
Proof.
  split; [apply remote_blob_opens|].
  split; [discriminate|].
  split.
  - intros fuel. unfold downloadSecrets, iobind at 1, try at 1, call at 1.
    cbn [acd_GetMetadataFS world on_find mixed_vaults].
    change (String.eqb _ "metadata/secrets") with true. cbv iota beta.
    unfold iobind at 1, call at 1.
    cbn [acd_DownloadJSON world on_download mixed_vaults]. cbv iota beta.
    apply mixed_vaults_loop.
  - split.
    + vm_compute. reflexivity.
    + vm_compute. reflexivity.
Qed.

End SecretsRuns.

(** ** The manifest stream *)
Module ManifestFacts.
Import XDR XDRFacts metadata.
Section Facts.
Context {FL : Flate} {TC : TimeCodec} {FP : Filepath}.

(** The three methods write the tag and then the struct they build. *)
Lemma EncDir_write_entry (m : MetadataEncoder) (path : string) (fi : os_FileInfo) :
  EncDir m path fi = (write_entry m (EDir (Dir_of path fi)), Ok tt).
Proof. reflexivity. Qed.

Lemma EncFile_write_entry (m : MetadataEncoder) (path : string) (fi : os_FileInfo)
      (mime : string) (digest : option bytes) :
  EncFile m path fi mime digest
  = (write_entry m (EFile (File_of path fi mime digest)), Ok tt).
Proof. reflexivity. Qed.

Lemma EncSymlink_write_entry (m : MetadataEncoder) (path l : string) (fi : os_FileInfo) :
  (if filepath_IsAbs path then filepath_EvalSymlinks path
   else obind (filepath_EvalSymlinks path) (fun l => filepath_Rel path l)) = Ok l ->
  EncSymlink m path fi = (write_entry m (ESymlink (mkSymlink path l)), Ok tt).
Proof. intros H. unfold EncSymlink. rewrite H. reflexivity. Qed.

(** *** The writing side *)

Lemma e_Encode_wrote (hdr : bytes) (w0 : io_Writer) (cs : list bytes)
      (m : MetadataEncoder) (chunks : list bytes) :
  (exists out, writer_Writes w0 cs = (bw m, out) /\ w m = hdr ++ out) ->
  exists out, writer_Writes w0 (cs ++ chunks) = (bw (e_Encode m chunks), out)
              /\ w (e_Encode m chunks) = hdr ++ out.
Proof.
  intros (out & Hw & Hm). rewrite writer_Writes_app, Hw. unfold e_Encode.
  destruct (writer_Writes (bw m) chunks) as [bw' o]. cbn [bw w].
  exists (out ++ o). split; [reflexivity|]. rewrite Hm, app_assoc. reflexivity.
Qed.

Lemma write_entries_wrote (hdr : bytes) (w0 : io_Writer) (ts : list entry)
      (cs : list bytes) (m : MetadataEncoder) :
  (exists out, writer_Writes w0 cs = (bw m, out) /\ w m = hdr ++ out) ->
  exists out, writer_Writes w0 (cs ++ entries_chunks ts) = (bw (write_entries m ts), out)
              /\ w (write_entries m ts) = hdr ++ out.
Proof.
  revert cs m. induction ts as [|t ts IH]; intros cs m H.
  - cbn [entries_chunks flat_map write_entries fold_left]. rewrite app_nil_r. exact H.
  - cbn [entries_chunks flat_map write_entries fold_left].
    fold (entries_chunks ts). fold (write_entries (write_entry m t) ts).
    rewrite app_assoc. apply IH. unfold write_entry.
    rewrite app_assoc. apply e_Encode_wrote, e_Encode_wrote. exact H.
Qed.

(** The manifest is the header followed by what the installed writer let
    through of the entries up to its one [Flush]. *)
Lemma manifest_eq (compress : bool) (ts : list entry) :
  manifest compress ts
  = List.concat (Marshal_Header (mkHeader Version (if compress then CompGZIP else CompNone)))
      ++ flushed_stream (if compress then GzipWriter gzip_NewWriter else BufioWriter [])
                        (entries_chunks ts).
Proof.
  unfold manifest, flushed_stream.
  set (hdr := List.concat (Marshal_Header _)).
  set (w0 := if compress then GzipWriter gzip_NewWriter else BufioWriter []).
  destruct (write_entries_wrote hdr w0 ts [] (NewEncoder [] compress))
    as (out & Hw & Hm).
  { exists []. unfold NewEncoder. cbn [bw w writer_Writes app].
    rewrite app_nil_r. split; reflexivity. }
  cbn [app] in Hw. rewrite Hw. unfold Flush.
  destruct (writer_Flush (bw (write_entries (NewEncoder [] compress) ts))) as [bw' o].
  cbn [w snd]. rewrite Hm, app_assoc. reflexivity.
Qed.

(** *** The reading side *)

Lemma Unmarshal_Dir_Marshal (x : Dir) :
  time_codec_ok -> legal_entry (EDir x) ->
  decodes Unmarshal_Dir (List.concat (Marshal_Dir x)) x.
Proof.
  intros Ht (Hn & Hm & Ho & Hg). unfold Marshal_Dir, Unmarshal_Dir.
  rewrite !concat_app.
  eapply decodes_bind; [apply DecodeString_Encode; exact Hn|].
  eapply decodes_bind; [apply DecodeUint_Encode; exact Hm|].
  eapply decodes_bind; [apply DecodeInt_Encode; exact Ho|].
  eapply decodes_bind; [apply DecodeInt_Encode; exact Hg|].
  cbv beta. rewrite <- (app_nil_r (List.concat (Encode_Time (dModified x)))).
  eapply decodes_bind; [intros r; apply Ht|].
  destruct x. apply decodes_ret.
Qed.

Lemma Unmarshal_Symlink_Marshal (x : Symlink) :
  legal_entry (ESymlink x) ->
  decodes Unmarshal_Symlink (List.concat (Marshal_Symlink x)) x.
Proof.
  intros (Hn & Hl). unfold Marshal_Symlink, Unmarshal_Symlink.
  rewrite !concat_app.
  eapply decodes_bind; [apply DecodeString_Encode; exact Hn|].
  cbv beta. rewrite <- (app_nil_r (List.concat (EncodeString (sLink x)))).
  eapply decodes_bind; [apply DecodeString_Encode; exact Hl|].
  destruct x. apply decodes_ret.
Qed.

Lemma Unmarshal_File_Marshal (x : File) :
  time_codec_ok -> legal_entry (EFile x) ->
  decodes Unmarshal_File (List.concat (Marshal_File x)) x.
Proof.
  intros Ht (Hn & Hm & Ho & Hg & Hs & Hmt & Hd). unfold Marshal_File, Unmarshal_File.
  rewrite !concat_app.
  eapply decodes_bind; [apply DecodeString_Encode; exact Hn|].
  eapply decodes_bind; [apply DecodeUint_Encode; exact Hm|].
  eapply decodes_bind; [apply DecodeInt_Encode; exact Ho|].
  eapply decodes_bind; [apply DecodeInt_Encode; exact Hg|].
  eapply decodes_bind; [apply DecodeHyper_Encode; exact Hs|].
  eapply decodes_bind; [intros r; apply Ht|].
  eapply decodes_bind; [apply DecodeString_Encode; exact Hmt|].
  cbv beta. rewrite <- (app_nil_r (List.concat (EncodeFixedOpaque (fDigest x)))).
  eapply decodes_bind.
  { rewrite <- Hd. apply DecodeFixedOpaque_Encode. rewrite Hd.
    apply SharedFacts.xdr_len_ok_32. }
  destruct x. apply decodes_ret.
Qed.

Lemma tag_decodes (t : entry) :
  decodes (DecodeFixedOpaque 4) (List.concat (EncodeFixedOpaque (entry_tag t)))
          (entry_tag t).
Proof.
  replace 4%nat with (length (entry_tag t)) by (destruct t; reflexivity).
  apply DecodeFixedOpaque_Encode.
  replace (length (entry_tag t)) with 4%nat by (destruct t; reflexivity).
  apply SharedFacts.xdr_len_ok_4.
Qed.

(** [Next] on a stream that starts with an encoded entry. *)
Lemma Next_entry (t : entry) (r : reader) :
  time_codec_ok -> legal_entry t ->
  Next (mkDecoder
          (rd_prepend (List.concat (EncodeFixedOpaque (entry_tag t) ++ entry_body t)) r))
  = (Ok t, mkDecoder r).
Proof.
  intros Ht Hl. unfold Next. cbn [d].
  rewrite concat_app, rd_prepend_app, tag_decodes.
  destruct t as [x|x|x]; cbn [entry_tag entry_body].
  - change (bytes_Equal TypeDir TypeDir) with true. cbv iota.
    rewrite (Unmarshal_Dir_Marshal Ht Hl). reflexivity.
  - change (bytes_Equal TypeSymlink TypeDir) with false.
    change (bytes_Equal TypeSymlink TypeSymlink) with true. cbv iota.
    rewrite (Unmarshal_Symlink_Marshal Hl). reflexivity.
  - change (bytes_Equal TypeFile TypeDir) with false.
    change (bytes_Equal TypeFile TypeSymlink) with false.
    change (bytes_Equal TypeFile TypeFile) with true. cbv iota.
    rewrite (Unmarshal_File_Marshal Ht Hl). reflexivity.
Qed.

(** [Next] at the end of the data: a clean end and a cut-off one are both
    reported as [io.EOF]. *)
Lemma Next_end (e : ioerr) :
  e = EOF \/ e = ErrUnexpectedEOF ->
  fst (Next (mkDecoder (mkReader [] e))) = Err (ErrIo EOF).
Proof. intros [-> | ->]; reflexivity. Qed.

Lemma list_entries_all (ts : list entry) (e : ioerr) :
  time_codec_ok -> Forall legal_entry ts ->
  e = EOF \/ e = ErrUnexpectedEOF ->
  acdbackup.list_entries (S (length ts))
    (mkDecoder (mkReader (List.concat (entries_chunks ts)) e))
  = Some (Ok ts).
Proof.
  intros Ht Hl He. induction Hl as [|t ts Hlt Hlts IH].
  - cbn [length entries_chunks flat_map List.concat acdbackup.list_entries].
    pose proof (Next_end He) as Hn.
    destruct (Next (mkDecoder (mkReader [] e))) as [o md]. cbn [fst] in Hn.
    subst o. reflexivity.
  - cbn [entries_chunks flat_map]. fold (entries_chunks ts).
    rewrite concat_app.
    change (mkReader (?a ++ ?b) e) with (rd_prepend a (mkReader b e)).
    change (length (t :: ts)) with (S (length ts)).
    cbn [acdbackup.list_entries].
    rewrite Next_entry by assumption.
    cbn [acdbackup.list_entries] in IH. rewrite IH. reflexivity.
Qed.

Lemma NewDecoder_manifest (compress : bool) (body : bytes) :
  NewDecoder (bytes_NewReader
                (List.concat (Marshal_Header
                                (mkHeader Version (if compress then CompGZIP else CompNone)))
                   ++ body))
  = if compress
    then obind (pgzip_NewReader (mkReader body EOF)) (fun br => Ok (mkDecoder br))
    else Ok (mkDecoder (mkReader body EOF)).
Proof.
  unfold NewDecoder.
  change (bytes_NewReader (?a ++ ?b)) with (rd_prepend a (bytes_NewReader b)).
  assert (Hh : forall c, length c = 4%nat ->
               decodes Unmarshal_Header (List.concat (Marshal_Header (mkHeader Version c)))
                       (mkHeader Version c)).
  { intros c Hc. unfold Marshal_Header, Unmarshal_Header. cbn [hVersion Compression].
    rewrite concat_app.
    eapply decodes_bind; [apply DecodeInt_Encode; unfold fits_int32, Version; lia|].
    cbv beta. rewrite <- (app_nil_r (List.concat (EncodeFixedOpaque c))).
    eapply decodes_bind.
    { rewrite <- Hc. apply DecodeFixedOpaque_Encode. rewrite Hc.
      apply SharedFacts.xdr_len_ok_4. }
    apply decodes_ret. }
  rewrite Hh by (destruct compress; reflexivity).
  cbn [hVersion Compression]. change (negb (Version =? Version)) with false. cbv iota.
  destruct compress.
  - change (bytes_Equal CompGZIP CompNone) with false.
    change (bytes_Equal CompGZIP CompGZIP) with true. reflexivity.
  - change (bytes_Equal CompNone CompNone) with true. reflexivity.
Qed.

(** X1.  Round trip: with or without compression, the manifest of legal entries,
    flushed once, decodes to the same entries, and [list] then sees the end
    of the stream. *)
Theorem manifest_roundtrip (compress : bool) (ts : list entry) :
  time_codec_ok -> gzip_flushed_reads -> Forall legal_entry ts ->
  exists md,
    NewDecoder (bytes_NewReader (manifest compress ts)) = Ok md
    /\ acdbackup.list_entries (S (length ts)) md = Some (Ok ts).
Proof.
  intros Ht Hgz Hl. rewrite manifest_eq, NewDecoder_manifest.
  destruct compress.
  - rewrite Hgz. cbn [obind]. eexists. split; [reflexivity|].
    apply list_entries_all; auto.
  - rewrite bufio_flushed_stream. eexists. split; [reflexivity|].
    apply list_entries_all; auto.
Qed.

(** C3, where it fails.  With compression the manifest ends with what one
    [Flush] of the gzip writer emits: the member is never closed, so it is
    not the closed gzip stream of the entries, and a reader of it meets
    [io.ErrUnexpectedEOF] where the footer should be. *)
Theorem manifest_gzip_left_open (ts : list entry) :
  gzip_flushed_reads -> gzip_closed_reads ->
  let body := flushed_stream (GzipWriter gzip_NewWriter) (entries_chunks ts) in
  manifest true ts
  = List.concat (Marshal_Header (mkHeader Version CompGZIP)) ++ body
  /\ pgzip_NewReader (mkReader body EOF)
     = Ok (mkReader (List.concat (entries_chunks ts)) ErrUnexpectedEOF)
  /\ (forall s, closed_stream (GzipWriter gzip_NewWriter) (entries_chunks ts) = Some s ->
                body <> s).
Proof.
  intros Hfl Hcl body. split; [apply (manifest_eq true)|].
  split; [apply Hfl|].
  intros s Hs Heq. pose proof (Hcl _ _ Hs) as Hr.
  rewrite <- Heq in Hr. subst body. rewrite Hfl in Hr. discriminate.
Qed.

End Facts.
End ManifestFacts.

(** ** Concrete runs of the manifest stream *)
Module ManifestRuns.
Import Mock metadata.

Lemma tree_legal : Forall legal_entry tree.
Proof.
  unfold tree, XDR.xdr_len_ok, XDR.fits_uint32, XDR.fits_int32, XDR.fits_int64,
    XDR.MaxInt32.
  repeat constructor; cbn; try lia; try discriminate.
Qed.

Lemma manifest_roundtrip_witness :
  exists md,
    NewDecoder (bytes_NewReader (manifest true tree)) = Ok md
    /\ acdbackup.list_entries 4 md = Some (Ok tree).
Proof.
  apply (@ManifestFacts.manifest_roundtrip flate time_codec true tree).
  - apply MockFacts.time_codec_ok_mock.
  - apply MockFacts.gzip_flushed_reads_mock.
  - apply tree_legal.
Defined.

Lemma manifest_gzip_left_open_witness :
  let body := flushed_stream (GzipWriter gzip_NewWriter) (entries_chunks tree) in
  manifest true tree
  = List.concat (Marshal_Header (mkHeader Version CompGZIP)) ++ body
  /\ pgzip_NewReader (mkReader body EOF)
     = Ok (mkReader (List.concat (entries_chunks tree)) ErrUnexpectedEOF)
  /\ (forall s, closed_stream (GzipWriter gzip_NewWriter) (entries_chunks tree) = Some s ->
                body <> s).
Proof.
  apply (@ManifestFacts.manifest_gzip_left_open flate time_codec tree).
  - apply MockFacts.gzip_flushed_reads_mock.
  - apply MockFacts.gzip_closed_reads_mock.
Defined.

(** The compressed manifest of no entries: the header, then the flush
    marker of the mock compressor where its footer [x02] would close the
    member; the decoder takes the cut-off end for the end of the stream. *)
Example empty_compressed_manifest :
  manifest true []
  = List.concat (Marshal_Header (mkHeader Version CompGZIP)) ++ [x00]
  /\ closed_stream (GzipWriter gzip_NewWriter) (entries_chunks []) = Some [x02]
  /\ exists md,
       NewDecoder (bytes_NewReader (manifest true [])) = Ok md
       /\ rd_end (d md) = ErrUnexpectedEOF
       /\ acdbackup.list_entries 1 md = Some (Ok []).
Proof.
  split.
  - vm_compute. reflexivity.
  - split.
    + vm_compute. reflexivity.
    + eexists. split.
      * vm_compute. reflexivity.
      * split.
        -- reflexivity.
        -- vm_compute. reflexivity.
Qed.

End ManifestRuns.

(** ** The File record of a deduplicated file, read back from the manifest *)
Module WalkRecorded.
Import XDR metadata acdbackup ManifestFacts.
Section Facts.
Context {CR : Crypto} {FL : Flate} {FS : Files} {TC : TimeCodec}
        {FP : Filepath} {PL : PathLib} {W : World}.

Lemma write_entries_snoc (m : MetadataEncoder) (ts : list entry) (t : entry) :
  write_entry (write_entries m ts) t = write_entries m (ts ++ [t]).
Proof. unfold write_entries. rewrite fold_left_app. reflexivity. Qed.

(** C5.  [walk] on a non-empty regular file whose bytes are [B], with a
    manifest that so far holds the entries [ts]: the one upload it attempts
    goes to the data folder under the lowercase hex of
    [d] = HMAC-SHA256(k_dedup, [B]); when the store answers with a conflict
    (or accepts) nothing is uploaded again, and the manifest file, once
    flushed, is the manifest of [ts] followed by the File record of the path
    with the 32 bytes [d] as its digest: reading it back with [NewDecoder]
    and [Next] gives exactly these entries. *)
Theorem walk_dedup_recorded (a : acdb) (path : string) (info : os_FileInfo)
        (tr : list event) (B payload : bytes) (mime : string) (c : bool)
        (r : outcome Asset) (cz : bool) (ts : list entry) :
  let d := hmac_sha256 (shared.Dedup (keys a)) B in
  let upload := EvUploadJSON (dataID a) (hex_EncodeToString d) payload in
  let f := mkFile path (fi_Mode info) (Uid (stat_of info)) (Gid (stat_of info))
                  (fi_Size info) (fi_ModTime info) mime d in
  time_codec_ok -> gzip_flushed_reads -> hmac_sha256_size ->
  me a = write_entries (NewEncoder [] cz) ts ->
  Forall legal_entry ts ->
  legal_entry (EFile (File_of path info mime None)) ->
  IsRegular (fi_Mode info) = true ->
  fi_Size info <> 0 ->
  goutil_FileHMACSHA256 path (shared.Dedup (keys a)) = Ok d ->
  shared.FileNaClEncrypt path (compress a) (shared.Data (keys a))
                         (rand_Read tr shared.NonceSize) = Ok payload ->
  goutil_FileCompressible path = Ok (mime, c) ->
  acd_UploadJSON tr (dataID a) (hex_EncodeToString d) payload = r ->
  (r = Err (CombinedError StatusConflict) \/ exists asset, r = Ok asset) ->
  exists a' printed md,
    walk a path info None tr = (Ok a', tr ++ upload :: printed)
    /\ forallb is_print printed = true
    /\ w (Flush (me a')) = manifest cz (ts ++ [EFile f])
    /\ NewDecoder (bytes_NewReader (w (Flush (me a')))) = Ok md
    /\ list_entries (S (length (ts ++ [EFile f]))) md = Some (Ok (ts ++ [EFile f]))
    /\ length d = 32%nat.
Proof.
  intros d upload f Ht Hgz Hsz Hme Hts Hlegal Hreg Hsize Hd Hp Hm Hup Hr.
  destruct (@WalkFacts.walk_dedup CR FL FS TC FP W a path info tr B payload mime c r
              Hreg Hsize Hd Hp Hm Hup Hr) as (a' & printed & Hw & Hpr & Hme' & _).
  assert (Hbytes : w (Flush (me a')) = manifest cz (ts ++ [EFile f])).
  { rewrite Hme'. unfold manifest. rewrite <- write_entries_snoc, <- Hme. reflexivity. }
  assert (Hall : Forall legal_entry (ts ++ [EFile f])).
  { apply Forall_app. split; [exact Hts|]. constructor; [|constructor].
    unfold legal_entry, File_of in *. cbn [fName fMode fOwner fGroup fSize fMimeType fDigest] in *.
    destruct Hlegal as (H1 & H2 & H3 & H4 & H5 & H6 & _).
    repeat (split; [assumption|]). apply Hsz. }
  assert (Hread : exists md,
             NewDecoder (bytes_NewReader (manifest cz (ts ++ [EFile f]))) = Ok md
             /\ list_entries (S (length (ts ++ [EFile f]))) md
                = Some (Ok (ts ++ [EFile f]))).
  { rewrite manifest_eq, NewDecoder_manifest. destruct cz.
    - rewrite Hgz. cbn [obind]. eexists. split; [reflexivity|].
      apply list_entries_all; auto.
    - rewrite bufio_flushed_stream. eexists. split; [reflexivity|].
      apply list_entries_all; auto. }
  destruct Hread as (md & Hnd & Hls).
  exists a', printed, md. rewrite Hbytes.
  split; [exact Hw|]. split; [exact Hpr|]. split; [reflexivity|].
  split; [exact Hnd|]. split; [exact Hls|]. apply Hsz.
Qed.

End Facts.

Import Mock Samples.

Lemma walk_dedup_recorded_witness :
  let f := mkFile "hello.txt" 420 1000 1000 6 "t"%byte "text/plain" hello_id in
  exists a' printed md,
    walk (W := world conflicting) archiving_in_d "hello.txt" hello_info None []
    = (Ok a', [] ++ EvUploadJSON "dataid" hello_name hello_envelope :: printed)
    /\ forallb is_print printed = true
    /\ w (Flush (me a')) = manifest false ([dir_entry] ++ [EFile f])
    /\ NewDecoder (bytes_NewReader (w (Flush (me a')))) = Ok md
    /\ list_entries (S (length ([dir_entry] ++ [EFile f]))) md
       = Some (Ok ([dir_entry] ++ [EFile f]))
    /\ length hello_id = 32%nat.
Proof.
  apply (@walk_dedup_recorded crypto flate files time_codec filepath
           (world conflicting) archiving_in_d "hello.txt" hello_info [] hello
           hello_envelope "text/plain" true (Err (CombinedError 409)) false [dir_entry]).
  - apply MockFacts.time_codec_ok_mock.
  - apply MockFacts.gzip_flushed_reads_mock.
  - apply MockFacts.hmac_sha256_size_mock.
  - reflexivity.
  - constructor; [|constructor].
    unfold dir_entry, legal_entry, xdr_len_ok, fits_uint32, fits_int32, MaxInt32.
    cbn. lia.
  - unfold legal_entry, File_of, xdr_len_ok, fits_uint32, fits_int32, fits_int64, MaxInt32.
    cbn. repeat split; lia.
  - reflexivity.
  - discriminate.
  - reflexivity.
  - reflexivity.
  - reflexivity.
  - reflexivity.
  - left. reflexivity.
Defined.

End WalkRecorded.

(** ** More of the create walk *)
Module WalkMore.
Import acdbackup.
Section Facts.
Context {CR : Crypto} {FL : Flate} {FS : Files} {TC : TimeCodec}
        {FP : Filepath} {PL : PathLib} {W : World}.

Lemma walk_upload_no_digest_quiet (a : acdb) (path : string) (info : os_FileInfo)
      (err : option error) (payload : bytes) :
  quiet (walk_upload a path info err None payload).
Proof. unfold walk_upload. repeat quiet_step. Qed.

(** X2.  Only a non-empty regular file makes [walk] call the remote store: a
    node that arrives with a walk error, a directory, a symlink, an empty
    file or a node of any other kind is handled without one. *)
Theorem walk_remote_only_for_payload (a : acdb) (path : string)
        (info : os_FileInfo) (errIn : option error) :
  errIn <> None
  \/ (Z.land (fi_Mode info) os_ModeDir =? os_ModeDir) = true
  \/ (Z.land (fi_Mode info) os_ModeSymlink =? os_ModeSymlink) = true
  \/ fi_Size info = 0
  \/ IsRegular (fi_Mode info) = false ->
  quiet (walk a path info errIn).
Proof.
  intros H. unfold walk.
  destruct errIn as [e|]; [repeat quiet_step|].
  destruct (Z.land (fi_Mode info) os_ModeDir =? os_ModeDir) eqn:Hdir.
  { destruct (metadata.EncDir (me a) path info) as [m r].
    apply quiet_bind; [apply quiet_try; intros tr; exists []; rewrite app_nil_r;
                        split; reflexivity|].
    intros x. apply walk_upload_no_digest_quiet. }
  destruct (Z.land (fi_Mode info) os_ModeSymlink =? os_ModeSymlink) eqn:Hsym.
  { destruct (metadata.EncSymlink (me a) path info) as [m r].
    apply quiet_bind; [apply quiet_try; intros tr; exists []; rewrite app_nil_r;
                        split; reflexivity|].
    intros x. apply walk_upload_no_digest_quiet. }
  destruct (IsRegular (fi_Mode info)) eqn:Hreg; cbn [andb].
  - destruct (fi_Size info =? 0) eqn:Hsize.
    + destruct (metadata.EncFile (me a) path info EmptyString None) as [m r].
      apply quiet_bind; [apply quiet_try; intros tr; exists []; rewrite app_nil_r;
                          split; reflexivity|].
      intros x. apply walk_upload_no_digest_quiet.
    + apply Z.eqb_neq in Hsize.
      destruct H as [H | [H | [H | [H | H]]]]; congruence.
  - repeat quiet_step.
Qed.

(** X3.  An empty regular file gets a File entry with an empty MIME type and the
    all-zero digest; nothing is fingerprinted, sealed or uploaded. *)
Theorem walk_empty_file (a : acdb) (path : string) (info : os_FileInfo)
        (tr : list event) :
  IsRegular (fi_Mode info) = true ->
  fi_Size info = 0 ->
  walk a path info None tr
  = (Ok (set_me a (write_entry (me a)
                     (metadata.EFile (metadata.File_of path info EmptyString None)))),
     tr ++ (if verbose a
            then [EvPrintf (MsgVerbose (fi_Mode info) (fi_Size info) path EmptyString)]
            else []))
  /\ metadata.fDigest (metadata.File_of path info EmptyString None) = zeroes 32
  /\ metadata.fSize (metadata.File_of path info EmptyString None) = 0.
Proof.
  intros Hreg Hsize. split; [|split; [reflexivity | exact Hsize]].
  unfold walk.
  rewrite (WalkFacts.IsRegular_not_dir _ Hreg), (WalkFacts.IsRegular_not_symlink _ Hreg),
    Hreg, Hsize.
  change (0 =? 0) with true. cbn [andb]. cbv iota.
  unfold metadata.EncFile.
  unfold iobind at 1, try at 1, lift at 1. cbv iota beta.
  unfold walk_upload. cbn [verbose set_me].
  destruct (verbose a).
  - unfold iobind, Printf, call, ioret. rewrite ?Hsize. reflexivity.
  - unfold ioret. rewrite app_nil_r. reflexivity.
Qed.

(** A node that is neither a directory, a symlink nor a regular file is
    named in a warning and leaves no entry. *)
Theorem walk_unsupported (a : acdb) (path : string) (info : os_FileInfo)
        (tr : list event) :
  (Z.land (fi_Mode info) os_ModeDir =? os_ModeDir) = false ->
  (Z.land (fi_Mode info) os_ModeSymlink =? os_ModeSymlink) = false ->
  IsRegular (fi_Mode info) = false ->
  walk a path info None tr = (Ok a, tr ++ [EvPrintf (MsgUnsupported path)]).
Proof.
  intros Hdir Hsym Hreg. unfold walk. rewrite Hdir, Hsym, Hreg. reflexivity.
Qed.

(** X4.  A regular file that cannot be fingerprinted, or that cannot be sealed,
    is skipped with a warning: the encoder is left as it was and nothing is
    uploaded. *)
Theorem walk_local_error_skips (a : acdb) (path : string) (info : os_FileInfo)
        (tr : list event) (e : error) :
  IsRegular (fi_Mode info) = true ->
  fi_Size info <> 0 ->
  goutil_FileHMACSHA256 path (shared.Dedup (keys a)) = Err e
  \/ (exists digest,
        goutil_FileHMACSHA256 path (shared.Dedup (keys a)) = Ok digest
        /\ shared.FileNaClEncrypt path (compress a) (shared.Data (keys a))
                                  (rand_Read tr shared.NonceSize) = Err e) ->
  walk a path info None tr = (Ok a, tr ++ [EvPrintf (MsgSkipping path e)]).
Proof.
  intros Hreg Hsize [H | (digest & Hd & Hp)].
  - apply WalkFacts.walk_fingerprint_error; assumption.
  - eapply WalkFacts.walk_seal_error; eassumption.
Qed.

End Facts.
End WalkMore.

(** ** More of the secrets lifecycle *)
Module SecretsMore.
Import acdbackup.
Section Facts.
Context {CR : Crypto} {FL : Flate} {FS : Files} {TC : TimeCodec}
        {FP : Filepath} {PL : PathLib} {W : World}.

(** X5.  [verifySecrets] returns nil exactly when the blob opens under the
    password and each of the three keys in it equals the local one. *)
Theorem verifySecrets_accepts_iff (a : acdb) (p : bytes) (blob : slice)
        (tr : list event) :
  fst (verifySecrets a p blob tr) = Ok tt
  <-> exists kk,
        shared.KeysDecrypt p 32768 16 2 blob (go_Zero_cleared tr) = Ok kk
        /\ shared.MD kk = shared.MD (keys a)
        /\ shared.Data kk = shared.Data (keys a)
        /\ shared.Dedup kk = shared.Dedup (keys a).
Proof.
  unfold verifySecrets, iobind.
  destruct (shared.KeysDecrypt p 32768 16 2 blob (go_Zero_cleared tr)) as [kk|e|pn];
    cbn [fst].
  - destruct (bytes_Equal (shared.MD (keys a)) (shared.MD kk)) eqn:E1;
      destruct (bytes_Equal (shared.Data (keys a)) (shared.Data kk)) eqn:E2;
      destruct (bytes_Equal (shared.Dedup (keys a)) (shared.Dedup kk)) eqn:E3;
      cbn [andb fst ioret lift];
      try apply bytes_Equal_eq in E1; try apply bytes_Equal_eq in E2;
      try apply bytes_Equal_eq in E3.
    1: { split; [intros _; exists kk; auto | reflexivity]. }
    all: split; [discriminate|]; intros (kk' & Hk & H1 & H2 & H3);
      injection Hk as <-.
    all: try (rewrite H3, bytes_Equal_refl in E3; discriminate).
    all: try (rewrite H2, bytes_Equal_refl in E2; discriminate).
    all: try (rewrite H1, bytes_Equal_refl in E1; discriminate).
  - split; [discriminate | intros (kk & Hk & _); discriminate].
  - split; [discriminate | intros (kk & Hk & _); discriminate].
Qed.

(** [verifySecrets] on a blob of the shape [Keys.Encrypt] gives the local
    keys. *)
Lemma verifySecrets_own_blob (a : acdb) (p salt nonce dk sp : bytes) (tr : list event) :
  secretbox_opens ->
  length (shared.MD (keys a)) = 32%nat ->
  length (shared.Data (keys a)) = 32%nat ->
  length (shared.Dedup (keys a)) = 32%nat ->
  length salt = 32%nat -> length nonce = 24%nat ->
  scrypt_Key p salt 32768 16 2 32 = Ok dk ->
  runs_after (go_Zero_cleared tr) ->
  verifySecrets a p
    (mkSlice (salt ++ nonce
                ++ secretbox_Seal (List.concat (shared.Marshal_Keys (keys a))) nonce
                     (copy_into 32 dk)) sp) tr
  = (Ok tt, tr).
Proof.
  intros Hopen Hmd Hdata Hdedup Hsalt Hnonce Hs Hc.
  unfold verifySecrets, iobind.
  erewrite SharedFacts.KeysDecrypt_blob; [|exact Hsalt|exact Hnonce|exact Hs].
  unfold shared.KeySize. rewrite (SharedFacts.observed_key_runs_after _ Hc).
  rewrite (Hopen _ _ _ Hnonce (KeyBundle.copy_into_length 32 dk)).
  rewrite <- (app_nil_r (List.concat (shared.Marshal_Keys (keys a)))).
  change (bytes_NewReader (?x ++ [])) with (rd_prepend x (bytes_NewReader [])).
  rewrite (SharedFacts.Unmarshal_Keys_Marshal (keys a) Hmd Hdata Hdedup).
  rewrite !bytes_Equal_refl. reflexivity.
Qed.

(** [uploadSecrets], step by step. *)
Lemma uploadSecrets_eq (a : acdb) (tr : list event) :
  uploadSecrets a tr
  = let tr1 := tr ++ [EvPrintf MsgNoSecrets] in
    let tr2 := tr1 ++ [EvPromptPassword true] in
    match shared_PromptPassword tr1 true with
    | Ok p =>
        match shared.Encrypt (keys a) p 32768 16 2 (rand_Read tr2 shared.KeySize)
                (rand_Read tr2 shared.NonceSize) (go_Zero_cleared tr2) with
        | Ok blob =>
            let tr3 := tr2 ++ [EvUploadJSON (metadataID a) secretsName blob] in
            match acd_UploadJSON tr2 (metadataID a) secretsName blob with
            | Ok _ => (Ok tt, tr3)
            | Err (CombinedError sc) =>
                if sc =? StatusConflict then (Panic NilPointerDereference, tr3)
                else (Err ErrSecretsAppeared, tr3)
            | Err _ => (Panic NilPointerDereference, tr3)
            | Panic pn => (Panic pn, tr3)
            end
        | Err e => (Err e, tr2)
        | Panic pn => (Panic pn, tr2)
        end
    | Err e => (Err e, tr2)
    | Panic pn => (Panic pn, tr2)
    end.
Proof.
  unfold uploadSecrets, iobind, Printf, call, try, lift, ioret. cbv zeta.
  destruct (shared_PromptPassword _ true) as [p|e|pn]; try reflexivity.
  destruct (shared.Encrypt _ _ _ _ _ _ _ _) as [blob|e|pn]; try reflexivity.
  destruct (acd_UploadJSON _ _ _ _) as [x|e|pn]; try reflexivity.
  destruct e; try reflexivity.
  destruct (StatusCode =? StatusConflict); reflexivity.
Qed.

(** X6.  When the store has no secrets yet, [uploadSecrets] prompts for a new
    password (asking for it to be saved) and uploads, into the metadata
    folder under the name [secrets], a blob that [verifySecrets] accepts
    under that password against the local keys. *)
Theorem uploadSecrets_blob_verifies (a : acdb) (tr : list event)
        (p dk : bytes) (asset : Asset) :
  let tr1 := tr ++ [EvPrintf MsgNoSecrets] in
  let tr2 := tr1 ++ [EvPromptPassword true] in
  let salt := rand_Read tr2 shared.KeySize in
  let nonce := rand_Read tr2 shared.NonceSize in
  let blob := salt ++ nonce
                ++ secretbox_Seal (List.concat (shared.Marshal_Keys (keys a))) nonce
                     (copy_into 32 dk) in
  secretbox_opens ->
  length (shared.MD (keys a)) = 32%nat ->
  length (shared.Data (keys a)) = 32%nat ->
  length (shared.Dedup (keys a)) = 32%nat ->
  length salt = 32%nat -> length nonce = 24%nat ->
  shared_PromptPassword tr1 true = Ok p ->
  scrypt_Key p salt 32768 16 2 32 = Ok dk ->
  runs_after (go_Zero_cleared tr2) ->
  acd_UploadJSON tr2 (metadataID a) secretsName blob = Ok asset ->
  uploadSecrets a tr = (Ok tt, tr2 ++ [EvUploadJSON (metadataID a) secretsName blob])
  /\ forall sp tr', runs_after (go_Zero_cleared tr') ->
                    verifySecrets a p (mkSlice blob sp) tr' = (Ok tt, tr').
Proof.
  intros tr1 tr2 salt nonce blob Hopen Hmd Hdata Hdedup Hsalt Hnonce Hp Hs Hc Hup.
  split.
  - assert (Henc : shared.Encrypt (keys a) p 32768 16 2 salt nonce (go_Zero_cleared tr2)
                   = Ok blob).
    { erewrite SharedFacts.Encrypt_blob; [|exact Hs].
      rewrite (SharedFacts.observed_key_runs_after _ Hc). reflexivity. }
    rewrite uploadSecrets_eq. cbv zeta. fold tr1. rewrite Hp. fold tr2.
    fold salt nonce. rewrite Henc, Hup. reflexivity.
  - intros sp tr' Hc'. apply verifySecrets_own_blob; assumption.
Qed.

(** X7.  When that upload fails, only a failure that is a [CombinedError] other
    than a conflict is returned as an error; a conflict, or any other kind
    of error, lets [uploadSecrets] go on to read [asset.ID] of the nil asset. *)
Theorem uploadSecrets_upload_failure (a : acdb) (tr : list event)
        (p blob : bytes) (e : error) :
  let tr1 := tr ++ [EvPrintf MsgNoSecrets] in
  let tr2 := tr1 ++ [EvPromptPassword true] in
  shared_PromptPassword tr1 true = Ok p ->
  shared.Encrypt (keys a) p 32768 16 2 (rand_Read tr2 shared.KeySize)
                 (rand_Read tr2 shared.NonceSize) (go_Zero_cleared tr2) = Ok blob ->
  acd_UploadJSON tr2 (metadataID a) secretsName blob = Err e ->
  fst (uploadSecrets a tr)
  = match e with
    | CombinedError sc =>
        if sc =? StatusConflict then Panic NilPointerDereference
        else Err ErrSecretsAppeared
    | _ => Panic NilPointerDereference
    end.
Proof.
  intros tr1 tr2 Hp Henc Hup.
  rewrite uploadSecrets_eq. cbv zeta. fold tr1. rewrite Hp. fold tr2.
  rewrite Henc, Hup.
  destruct e; try reflexivity.
  destruct (StatusCode =? StatusConflict); reflexivity.
Qed.

(** X8.  Without a password file, a password typed at the prompt that verifies
    is handed to [WritePassword], whose result [downloadSecrets] returns. *)
Theorem downloadSecrets_prompt_saves (fuel : nat) (a : acdb) (tr : list event)
        (asset : Asset) (blob : slice) (p : bytes) :
  let name := (metadataName ++ "/" ++ secretsName)%string in
  let tr1 := tr ++ [EvGetMetadataFS name] in
  let tr2 := tr1 ++ [EvDownloadJSON (ID asset)] in
  let tr5 := tr2 ++ [EvReadPassword; EvPrintf MsgNoPasswordFile; EvPromptPassword false] in
  acd_GetMetadataFS tr name = Ok asset ->
  acd_DownloadJSON tr1 (ID asset) = Ok blob ->
  shared_ReadPassword tr2 = Err ErrNotExist ->
  shared_PromptPassword (tr2 ++ [EvReadPassword; EvPrintf MsgNoPasswordFile]) false = Ok p ->
  fst (verifySecrets a p blob tr5) = Ok tt ->
  downloadSecrets (S fuel) a tr
  = (obind (shared_WritePassword tr5 p) (fun _ => Ok (Some tt)),
     tr5 ++ [EvWritePassword p]).
Proof.
  intros name tr1 tr2 tr5 Hfind Hdl Hread Hprompt Hverify.
  pose proof (SecretsFacts.verifySecrets_trace a p blob tr5) as Htr.
  unfold downloadSecrets. fold name.
  unfold iobind at 1, try at 1, call at 1. rewrite Hfind. fold tr1. cbv iota beta.
  unfold iobind at 1, call at 1. rewrite Hdl. fold tr2. cbv iota beta.
  cbn [downloadSecrets_loop].
  unfold iobind at 1, try at 1, call at 1. rewrite Hread. cbv iota beta.
  unfold iobind at 1, Printf at 1, call at 1. cbv iota beta.
  unfold iobind at 1, call at 1.
  rewrite <- app_assoc. cbn [app]. rewrite Hprompt. cbv iota beta.
  unfold iobind at 1, try at 1.
  replace ((tr2 ++ [EvReadPassword; EvPrintf MsgNoPasswordFile]) ++ [EvPromptPassword false])
    with tr5 by (subst tr5; rewrite <- app_assoc; reflexivity).
  destruct (verifySecrets a p blob tr5) as [r tr'].
  cbn [fst snd] in Hverify, Htr. subst r tr'. cbv iota beta.
  unfold iobind, call, ioret.
  destruct (shared_WritePassword tr5 p) as [[]|e|pn]; reflexivity.
Qed.

(** X9.  With a password file nothing is asked and nothing is saved: the result
    of [downloadSecrets] is the one of [verifySecrets] under the stored
    password. *)
Theorem downloadSecrets_password_file (fuel : nat) (a : acdb) (tr : list event)
        (asset : Asset) (blob : slice) (p : bytes) :
  let name := (metadataName ++ "/" ++ secretsName)%string in
  let tr1 := tr ++ [EvGetMetadataFS name] in
  let tr2 := tr1 ++ [EvDownloadJSON (ID asset)] in
  let tr3 := tr2 ++ [EvReadPassword] in
  acd_GetMetadataFS tr name = Ok asset ->
  acd_DownloadJSON tr1 (ID asset) = Ok blob ->
  shared_ReadPassword tr2 = Ok p ->
  downloadSecrets (S fuel) a tr
  = (obind (fst (verifySecrets a p blob tr3)) (fun _ => Ok (Some tt)), tr3).
Proof.
  intros name tr1 tr2 tr3 Hfind Hdl Hread.
  pose proof (SecretsFacts.verifySecrets_trace a p blob tr3) as Htr.
  unfold downloadSecrets. fold name.
  unfold iobind at 1, try at 1, call at 1. rewrite Hfind. fold tr1. cbv iota beta.
  unfold iobind at 1, call at 1. rewrite Hdl. fold tr2. cbv iota beta.
  cbn [downloadSecrets_loop].
  unfold iobind at 1, try at 1, call at 1. rewrite Hread. fold tr3. cbv iota beta.
  unfold iobind.
  destruct (verifySecrets a p blob tr3) as [r tr'].
  cbn [fst snd] in Htr |- *. subst tr'.
  destruct r as [[]|e|pn]; reflexivity.
Qed.

(** X10.  Only [acd.ErrNotFound] from the lookup of [metadata/secrets] leads to
    [uploadSecrets]; any other lookup error ends [downloadSecrets] with
    "remote object not found" and no further call. *)
Theorem downloadSecrets_lookup_error (fuel : nat) (a : acdb) (tr : list event)
        (e : error) :
  let name := (metadataName ++ "/" ++ secretsName)%string in
  let tr1 := tr ++ [EvGetMetadataFS name] in
  acd_GetMetadataFS tr name = Err e ->
  (e = ErrNotFound ->
   downloadSecrets fuel a tr
   = (obind (fst (uploadSecrets a tr1)) (fun _ => Ok (Some tt)),
      snd (uploadSecrets a tr1)))
  /\ (e <> ErrNotFound ->
      downloadSecrets fuel a tr = (Err ErrRemoteObjectNotFound, tr1)).
Proof.
  intros name tr1 Hfind.
  split; intros He; unfold downloadSecrets; fold name;
    unfold iobind at 1, try at 1, call at 1; rewrite Hfind; fold tr1; cbv iota beta.
  - subst e. unfold iobind.
    destruct (uploadSecrets a tr1) as [[[]|e'|pn] tr']; reflexivity.
  - unfold lift.
    destruct e; try reflexivity. exfalso. apply He. reflexivity.
Qed.

End Facts.
End SecretsMore.

(** ** More of the envelope and the key bundle *)
Module EnvelopeMore.
Import XDR XDRFacts shared SharedFacts EnvelopeFacts.
Section Facts.
Context {CR : Crypto} {FL : Flate} {FS : Files}.

Lemma observed_key_cleared (key : bytes) :
  observed_key (repeat true (length key)) key = zeroes (length key).
Proof. induction key as [|b key IH]; simpl; [reflexivity|]. rewrite IH. reflexivity. Qed.

(** [NaClDecrypt] on a sealed header followed by [rest]. *)
Lemma NaClDecrypt_sealed (h : Header) (rest key nonce sp : bytes) :
  secretbox_opens ->
  length key = 32%nat -> length nonce = 24%nat ->
  fits_int32 (hVersion h) -> length (Compression h) = 4%nat ->
  fits_uint64 (Size h) -> length (Digest h) = 32%nat ->
  xdr_len_ok (String.length (MimeType h)) ->
  NaClDecrypt
    (mkSlice (nonce ++ secretbox_Seal (List.concat (Marshal_Header h) ++ rest) nonce key) sp)
    key
  = obind (if bytes_Equal (Compression h) CompNone then Ok (bytes_NewReader rest)
           else if bytes_Equal (Compression h) CompGZIP
                then pgzip_NewReader (bytes_NewReader rest)
                else Err (ErrInvalidCompression (Compression h)))
          (fun rd => obind (io_ReadAll rd) (fun cleartext => Ok (h, cleartext))).
Proof.
  intros Hopen Hkey Hnonce Hv Hc Hs Hd Hm.
  rewrite NaClDecrypt_envelope by exact Hnonce.
  rewrite (Hopen _ _ _ Hnonce Hkey).
  change (bytes_NewReader (?a ++ ?b)) with (rd_prepend a (bytes_NewReader b)).
  rewrite (Unmarshal_Header_Marshal h Hv Hc Hs Hd Hm). reflexivity.
Qed.

(** X11.  Unless compression was asked for and the file was judged compressible,
    the envelope seals the header and then the file's bytes as they are;
    the header says [none] and carries the size [Stat] reported. *)
Theorem envelope_stored_verbatim (filename : string) (compress : bool)
        (key nonce fd : bytes) (mime : string) (comp0 : bool) (size : Z)
        (content : bytes) :
  compress && comp0 = false ->
  goutil_FileSHA256 filename = Ok fd ->
  goutil_FileCompressible filename = Ok (mime, comp0) ->
  os_Open filename = Ok (mkFile (Ok size) (Ok content)) ->
  FileNaClEncrypt filename compress key nonce
  = Ok (nonce
          ++ secretbox_Seal
               (List.concat (Marshal_Header
                               (mkHeader Version CompNone (size mod 2 ^ 64) fd mime))
                  ++ content)
               nonce key).
Proof.
  intros Hcomp Hd Hc Ho.
  rewrite (FileNaClEncrypt_ok filename compress key nonce Hd Hc Ho).
  unfold envelope_header, envelope_writer. rewrite Hcomp.
  replace (if compress then comp0 else false) with false
    by (destruct compress, comp0; try reflexivity; discriminate).
  rewrite envelope_body_bufio. reflexivity.
Qed.

(** X12.  [NaClDecrypt] looks at the compression field of the header only: what
    follows an uncompressed header is returned whatever version, size and
    digest the header announces. *)
Theorem open_unchecked_header (h : Header) (B key nonce sp : bytes) :
  secretbox_opens ->
  length key = 32%nat -> length nonce = 24%nat ->
  fits_int32 (hVersion h) -> Compression h = CompNone ->
  fits_uint64 (Size h) -> length (Digest h) = 32%nat ->
  xdr_len_ok (String.length (MimeType h)) ->
  NaClDecrypt
    (mkSlice (nonce ++ secretbox_Seal (List.concat (Marshal_Header h) ++ B) nonce key) sp)
    key
  = Ok (h, B).
Proof.
  intros Hopen Hkey Hnonce Hv Hc Hs Hd Hm.
  rewrite NaClDecrypt_sealed; try assumption.
  - rewrite Hc. change (bytes_Equal CompNone CompNone) with true. reflexivity.
  - rewrite Hc. reflexivity.
Qed.

(** X13.  A header whose compression field is neither [none] nor [gzip] is
    refused with "invalid compression", whatever follows it. *)
Theorem open_invalid_compression (h : Header) (rest key nonce sp : bytes) :
  secretbox_opens ->
  length key = 32%nat -> length nonce = 24%nat ->
  fits_int32 (hVersion h) -> length (Compression h) = 4%nat ->
  fits_uint64 (Size h) -> length (Digest h) = 32%nat ->
  xdr_len_ok (String.length (MimeType h)) ->
  Compression h <> CompNone -> Compression h <> CompGZIP ->
  NaClDecrypt
    (mkSlice (nonce ++ secretbox_Seal (List.concat (Marshal_Header h) ++ rest) nonce key) sp)
    key
  = Err (ErrInvalidCompression (Compression h)).
Proof.
  intros Hopen Hkey Hnonce Hv Hc Hs Hd Hm Hn Hg.
  rewrite NaClDecrypt_sealed; try assumption.
  rewrite (bytes_Equal_neq Hn), (bytes_Equal_neq Hg). reflexivity.
Qed.

(** X14.  When the goroutine that zeroes the derived key has cleared it before
    [secretbox] reads it, the bundle is sealed under the all-zero key; a
    [KeysDecrypt] whose own goroutine got as far opens it under any password
    scrypt accepts. *)
Theorem wrap_under_cleared_key (k : Keys) (N r p : Z)
        (password password' salt nonce dk dk' sp : bytes) :
  secretbox_opens ->
  length (MD k) = 32%nat -> length (Data k) = 32%nat -> length (Dedup k) = 32%nat ->
  length salt = 32%nat -> length nonce = 24%nat ->
  scrypt_Key password salt N r p 32 = Ok dk ->
  scrypt_Key password' salt N r p 32 = Ok dk' ->
  let box := secretbox_Seal (List.concat (Marshal_Keys k)) nonce (zeroes 32) in
  Encrypt k password N r p salt nonce (repeat true 32) = Ok (salt ++ nonce ++ box)
  /\ KeysDecrypt password' N r p (mkSlice (salt ++ nonce ++ box) sp) (repeat true 32)
     = Ok k.
Proof.
  intros Hopen Hmd Hdata Hdedup Hsalt Hnonce Hs Hs' box.
  assert (Hz : forall d, observed_key (repeat true 32) (copy_into KeySize d) = zeroes 32).
  { intros d. pose proof (observed_key_cleared (copy_into KeySize d)) as H.
    rewrite (KeyBundle.copy_into_length KeySize d) in H. exact H. }
  split.
  - erewrite Encrypt_blob; [|exact Hs]. rewrite Hz. reflexivity.
  - erewrite KeysDecrypt_blob; [|exact Hsalt|exact Hnonce|exact Hs'].
    rewrite Hz. subst box.
    rewrite (Hopen _ _ _ Hnonce (repeat_length x00 32)).
    rewrite <- (app_nil_r (List.concat (Marshal_Keys k))).
    change (bytes_NewReader (?a ++ [])) with (rd_prepend a (bytes_NewReader [])).
    rewrite (Unmarshal_Keys_Marshal k Hmd Hdata Hdedup). reflexivity.
Qed.

End Facts.
End EnvelopeMore.

(** ** The key bundle when the zeroing goroutine is ahead of [secretbox] *)
Module KeyBundleRace.
Import XDR XDRFacts shared SharedFacts.

Lemma observed_key_raced (dk : bytes) :
  observed_key (repeat true 32) (copy_into KeySize dk) = zeroes 32.
Proof.
  pose proof (EnvelopeMore.observed_key_cleared (copy_into KeySize dk)) as H.
  rewrite (KeyBundle.copy_into_length KeySize dk) in H. exact H.
Qed.

(** C7, where it fails.  [Keys.Encrypt] and [KeysDecrypt] start
    [go func() { goutil.Zero(key[:]) }()] before [secretbox] reads the key,
    so the key [secretbox] sees depends on the schedule.  When the
    goroutine of [Encrypt] finishes first, the blob still is
    [salt][nonce][box] with the key scrypt derives with N=32768, r=16, p=2,
    but the box is sealed under the all-zero key: [KeysDecrypt] with the
    password the blob was made with, its own key intact, answers "could not
    decrypt", and a [KeysDecrypt] whose goroutine finishes first as well
    returns the bundle under every password scrypt accepts.  A blob
    sealed under the derived key is refused in the same way, under the
    right password, by a [KeysDecrypt] whose goroutine finishes first. *)
Theorem wrap_unwrap_raced {CR : Crypto}
        (k : Keys) (password password' salt nonce dk dk' sp : bytes)
        (cleared : list bool) :
  secretbox_opens -> secretbox_rejects ->
  length (MD k) = 32%nat -> length (Data k) = 32%nat -> length (Dedup k) = 32%nat ->
  length salt = 32%nat -> length nonce = 24%nat ->
  runs_after cleared ->
  scrypt_Key password salt 32768 16 2 32 = Ok dk ->
  scrypt_Key password' salt 32768 16 2 32 = Ok dk' ->
  copy_into 32 dk <> zeroes 32 ->
  let raced := repeat true 32 in
  let box0 := secretbox_Seal (List.concat (Marshal_Keys k)) nonce (zeroes 32) in
  let box := secretbox_Seal (List.concat (Marshal_Keys k)) nonce (copy_into 32 dk) in
  Encrypt k password 32768 16 2 salt nonce raced = Ok (salt ++ nonce ++ box0)
  /\ KeysDecrypt password 32768 16 2 (mkSlice (salt ++ nonce ++ box0) sp) cleared
     = Err ErrCouldNotDecrypt
  /\ KeysDecrypt password' 32768 16 2 (mkSlice (salt ++ nonce ++ box0) sp) raced = Ok k
  /\ Encrypt k password 32768 16 2 salt nonce cleared = Ok (salt ++ nonce ++ box)
  /\ KeysDecrypt password 32768 16 2 (mkSlice (salt ++ nonce ++ box) sp) raced
     = Err ErrCouldNotDecrypt.
Proof.
  intros Hopen Hrej Hmd Hdata Hdedup Hsalt Hnonce Hc Hs Hs' Hnz raced box0 box.
  assert (Hz : length (zeroes 32) = 32%nat) by apply repeat_length.
  split; [|split; [|split; [|split]]].
  - erewrite Encrypt_blob; [|exact Hs]. subst raced. rewrite observed_key_raced.
    reflexivity.
  - erewrite KeysDecrypt_blob; [|exact Hsalt|exact Hnonce|exact Hs].
    unfold KeySize. rewrite (observed_key_runs_after _ Hc). subst box0.
    rewrite (Hrej _ _ _ _ Hnonce Hz (KeyBundle.copy_into_length 32 dk)).
    + reflexivity.
    + congruence.
  - erewrite KeysDecrypt_blob; [|exact Hsalt|exact Hnonce|exact Hs'].
    subst raced. rewrite observed_key_raced. subst box0.
    rewrite (Hopen _ _ _ Hnonce Hz).
    rewrite <- (app_nil_r (List.concat (Marshal_Keys k))).
    change (bytes_NewReader (?a ++ [])) with (rd_prepend a (bytes_NewReader [])).
    rewrite (Unmarshal_Keys_Marshal k Hmd Hdata Hdedup). reflexivity.
  - erewrite Encrypt_blob; [|exact Hs].
    unfold KeySize. rewrite (observed_key_runs_after _ Hc). reflexivity.
  - erewrite KeysDecrypt_blob; [|exact Hsalt|exact Hnonce|exact Hs].
    subst raced. rewrite observed_key_raced. subst box.
    rewrite (Hrej _ _ _ _ Hnonce (KeyBundle.copy_into_length 32 dk) Hz).
    + reflexivity.
    + exact Hnz.
Qed.

Import Mock.

Lemma wrap_unwrap_raced_witness :
  let raced := repeat true 32 in
  let box0 := secretbox_Seal (List.concat (Marshal_Keys bundle)) nonce0 (zeroes 32) in
  let box := secretbox_Seal (List.concat (Marshal_Keys bundle)) nonce0
                            (copy_into 32 (copy_into 32 (hunter2 ++ salt0))) in
  Encrypt bundle hunter2 32768 16 2 salt0 nonce0 raced = Ok (salt0 ++ nonce0 ++ box0)
  /\ KeysDecrypt hunter2 32768 16 2 (mkSlice (salt0 ++ nonce0 ++ box0) []) []
     = Err ErrCouldNotDecrypt
  /\ KeysDecrypt Hunter2 32768 16 2 (mkSlice (salt0 ++ nonce0 ++ box0) []) raced
     = Ok bundle
  /\ Encrypt bundle hunter2 32768 16 2 salt0 nonce0 [] = Ok (salt0 ++ nonce0 ++ box)
  /\ KeysDecrypt hunter2 32768 16 2 (mkSlice (salt0 ++ nonce0 ++ box) []) raced
     = Err ErrCouldNotDecrypt.
Proof.
  apply (@wrap_unwrap_raced crypto bundle hunter2 Hunter2 salt0 nonce0
           (copy_into 32 (hunter2 ++ salt0)) (copy_into 32 (Hunter2 ++ salt0)) [] []).
  - apply MockFacts.secretbox_opens_mock.
  - apply MockFacts.secretbox_rejects_mock.
  - reflexivity.
  - reflexivity.
  - reflexivity.
  - reflexivity.
  - reflexivity.
  - constructor.
  - reflexivity.
  - reflexivity.
  - discriminate.
Defined.

End KeyBundleRace.

(** ** Manifests that are cut off or hold a tag without its record *)
Module ManifestMore.
Import XDR XDRFacts metadata acdbackup ManifestFacts.
Section Facts.
Context {CR : Crypto} {FL : Flate} {FS : Files} {TC : TimeCodec}
        {FP : Filepath} {PL : PathLib} {W : World}.

(** Fewer than four bytes where a tag should be read as the end of the
    stream. *)
Lemma Next_partial_tag (tail : bytes) :
  (length tail < 4)%nat ->
  fst (Next (mkDecoder (mkReader tail EOF))) = Err (ErrIo EOF).
Proof.
  intros H. destruct tail as [|b0 [|b1 [|b2 [|b3 tail]]]]; try reflexivity.
  simpl in H. lia.
Qed.

(** Listing the entries in front of a stream whose next [Next] fails. *)
Lemma list_entries_then (ts : list entry) (r : reader) (e : error) :
  time_codec_ok -> Forall legal_entry ts ->
  fst (Next (mkDecoder r)) = Err e ->
  list_entries (S (length ts))
    (mkDecoder (rd_prepend (List.concat (entries_chunks ts)) r))
  = Some (match e with ErrIo EOF => Ok ts | _ => Err e end).
Proof.
  intros Ht Hl He. induction Hl as [|t ts Hlt Hlts IH].
  - cbn [length entries_chunks flat_map List.concat list_entries].
    rewrite rd_prepend_nil.
    destruct (Next (mkDecoder r)) as [o md]. cbn [fst] in He. subst o.
    destruct e as [| [] | | | | | | | | | | | | | | | | |]; reflexivity.
  - cbn [entries_chunks flat_map]. fold (entries_chunks ts).
    rewrite concat_app, rd_prepend_app.
    change (length (t :: ts)) with (S (length ts)).
    cbn [list_entries].
    rewrite Next_entry by assumption.
    cbn [list_entries] in IH. rewrite IH.
    destruct e as [| [] | | | | | | | | | | | | | | | | |]; reflexivity.
Qed.

(** X15.  One to three stray bytes after the last entry of an uncompressed
    manifest go unnoticed: the listing is the one of the whole manifest. *)
Theorem list_ignores_partial_tag (ts : list entry) (tail : bytes) :
  time_codec_ok -> Forall legal_entry ts ->
  (length tail < 4)%nat ->
  exists md,
    NewDecoder (bytes_NewReader (manifest false ts ++ tail)) = Ok md
    /\ list_entries (S (length ts)) md = Some (Ok ts).
Proof.
  intros Ht Hl Htail. rewrite manifest_eq, bufio_flushed_stream, <- app_assoc.
  rewrite (NewDecoder_manifest false). eexists. split; [reflexivity|].
  change (mkReader (?a ++ ?b) EOF) with (rd_prepend a (mkReader b EOF)).
  rewrite (list_entries_then (e := ErrIo EOF) _ Ht Hl); [reflexivity|].
  apply Next_partial_tag. exact Htail.
Qed.

(** A string whose announced length exceeds what is left cannot be read. *)
Lemma DecodeString_short (r r' : reader) (n : Z) :
  DecodeUint r = (inl n, r') ->
  Z.of_nat (length (rd_data r')) < n ->
  exists e r'', DecodeString r = (inr e, r'').
Proof.
  intros Hn Hlen. unfold DecodeString, dbind. rewrite Hn.
  destruct (MaxInt32 <? n); [unfold dfail; eauto|].
  unfold DecodeFixedOpaque.
  destruct (Nat.eqb_spec (Z.to_nat n) 0) as [E|E]; [lia|].
  destruct (MaxInt32 <? Z.of_nat (Z.to_nat n + pad_len (Z.to_nat n)));
    [unfold dfail; eauto|].
  unfold dbind, read_full, io_ReadFull.
  destruct (Nat.leb_spec (Z.to_nat n + pad_len (Z.to_nat n)) (length (rd_data r')))
    as [L|L]; [lia|].
  eauto.
Qed.

Lemma DecodeUint_tag (b0 b1 b2 b3 : byte) (rest : bytes) (e : ioerr) :
  DecodeUint (mkReader (b0 :: b1 :: b2 :: b3 :: rest) e)
  = (inl (be_value [b0; b1; b2; b3]), mkReader rest e).
Proof. reflexivity. Qed.

(** What follows a tag whose record was never written does not read as a
    symlink record while it is shorter than the length its first four bytes
    announce. *)
Lemma Unmarshal_Symlink_after_orphan (ts' : list entry) :
  Z.of_nat (length (List.concat (entries_chunks ts'))) < 1684631040 ->
  exists e r,
    Unmarshal_Symlink (mkReader (List.concat (entries_chunks ts')) EOF) = (inr e, r).
Proof.
  intros Hlen. unfold Unmarshal_Symlink, dbind at 1.
  destruct ts' as [|t ts'].
  - cbn. eauto.
  - cbn [entries_chunks flat_map] in *. fold (entries_chunks ts') in *.
    rewrite !concat_app in *.
    set (rest := List.concat (entry_body t) ++ List.concat (entries_chunks ts')) in *.
    assert (Htag : exists b0 b1 b2 b3,
               List.concat (EncodeFixedOpaque (entry_tag t)) = [b0; b1; b2; b3]
               /\ 1684631040 <= be_value [b0; b1; b2; b3]).
    { destruct t; cbn; do 4 eexists; (split; [reflexivity|]); vm_compute; discriminate. }
    destruct Htag as (b0 & b1 & b2 & b3 & Htag & Hbig).
    rewrite <- app_assoc in *. fold rest in Hlen |- *.
    rewrite Htag in *. cbn [app] in *.
    pose proof (DecodeUint_tag b0 b1 b2 b3 rest EOF) as Hu.
    apply DecodeString_short in Hu as (e & r' & ->).
    + eauto.
    + cbn [rd_data]. cbn [length] in Hlen. lia.
Qed.

(** X16.  A symbolic link that cannot be resolved leaves its tag in the manifest
    without a record: [walk] reports the file as skipped and goes on, and
    the listing of the uncompressed manifest fails with "invalid symlink
    type", the entries written before and after the link included. *)
Theorem unresolved_symlink_breaks_manifest
        (a : acdb) (path : string) (info : os_FileInfo) (e : error)
        (ts ts' : list entry) (tr : list event) :
  time_codec_ok -> Forall legal_entry ts ->
  me a = write_entries (NewEncoder [] false) ts ->
  (Z.land (fi_Mode info) os_ModeDir =? os_ModeDir) = false ->
  (Z.land (fi_Mode info) os_ModeSymlink =? os_ModeSymlink) = true ->
  (if filepath_IsAbs path then filepath_EvalSymlinks path
   else obind (filepath_EvalSymlinks path) (fun l => filepath_Rel path l)) = Err e ->
  Z.of_nat (length (List.concat (entries_chunks ts'))) < 1684631040 ->
  exists a',
    walk a path info None tr = (Ok a', tr ++ [EvPrintf (MsgSkipping path e)])
    /\ exists md,
         NewDecoder (bytes_NewReader (w (Flush (write_entries (me a') ts')))) = Ok md
         /\ list_entries (S (length ts)) md = Some (Err ErrTypeSymlink).
Proof.
  intros Ht Hl Hme Hdir Hsym Hres Hlen.
  set (m1 := e_Encode (me a) (EncodeFixedOpaque TypeSymlink)).
  exists (set_me a m1). split.
  - unfold walk. rewrite Hdir, Hsym. unfold EncSymlink. rewrite Hres. reflexivity.
  - cbn [set_me me].
    set (hdr := List.concat (Marshal_Header (mkHeader Version CompNone))).
    assert (H0 : exists out,
               writer_Writes (BufioWriter []) (entries_chunks ts) = (bw (me a), out)
               /\ w (me a) = hdr ++ out).
    { rewrite Hme.
      destruct (write_entries_wrote hdr (BufioWriter []) ts [] (NewEncoder [] false))
        as (out & Hw & Hm).
      - exists []. unfold NewEncoder. cbn [bw w writer_Writes app].
        rewrite app_nil_r. split; reflexivity.
      - eauto. }
    apply (e_Encode_wrote hdr (BufioWriter []) (entries_chunks ts) (me a)
                          (EncodeFixedOpaque TypeSymlink)) in H0.
    fold m1 in H0.
    apply (write_entries_wrote hdr (BufioWriter []) ts' _ m1) in H0.
    destruct H0 as (out & Hw & Hm).
    assert (Hfile : w (Flush (write_entries m1 ts'))
                    = hdr ++ List.concat (entries_chunks ts)
                        ++ TypeSymlink ++ List.concat (entries_chunks ts')).
    { unfold Flush.
      pose proof (bufio_flushed_stream
                    ((entries_chunks ts ++ EncodeFixedOpaque TypeSymlink)
                       ++ entries_chunks ts')) as Hfl.
      unfold flushed_stream in Hfl. rewrite Hw in Hfl.
      destruct (writer_Flush (bw (write_entries m1 ts'))) as [bw' o].
      cbn [w snd] in *. rewrite Hm, <- app_assoc, Hfl, !concat_app.
      rewrite <- app_assoc. reflexivity. }
    rewrite Hfile. subst hdr. rewrite (NewDecoder_manifest false).
    eexists. split; [reflexivity|].
    change (mkReader (?x ++ ?y) EOF) with (rd_prepend x (mkReader y EOF)).
    rewrite (list_entries_then (e := ErrTypeSymlink) _ Ht Hl); [reflexivity|].
    destruct (Unmarshal_Symlink_after_orphan ts' Hlen) as (e' & r' & Hu).
    unfold Next. cbn [d].
    change (DecodeFixedOpaque 4 (mkReader (TypeSymlink ++ ?y) EOF))
      with (@inl bytes xdr_error TypeSymlink, mkReader y EOF).
    change (bytes_Equal TypeSymlink TypeDir) with false.
    change (bytes_Equal TypeSymlink TypeSymlink) with true. cbv iota.
    rewrite Hu. reflexivity.
Qed.

End Facts.
End ManifestMore.

(** ** More of extraction *)
Module ExtractMore.
Import acdbackup.
Section Facts.
Context {CR : Crypto} {FL : Flate} {FS : Files} {TC : TimeCodec}
        {FP : Filepath} {PL : PathLib} {W : World}.

(** X17.  [extract] calls an error fatal only when it comes from one of its own
    calls on the local file system, which is then the last call made; an
    error it returns as not fatal is the one [downloadPayload] returned, and
    then nothing was done after the download: no mode, time or owner is
    set. *)
Theorem extract_fatal_only_local (a : acdb) (e : metadata.File) (tr : list event)
        (fatal : bool) (oerr : option error) :
  fst (extract a e tr) = Ok (fatal, oerr) ->
  let tr1 := tr ++ [EvMkdirAll (path_Join (root a) (path_Dir (metadata.fName e))) 493] in
  if fatal
  then exists err pre ev,
         oerr = Some err /\ snd (extract a e tr) = pre ++ [ev]
         /\ is_local_setup ev = true
  else match oerr with
       | None => True
       | Some err =>
           downloadPayload a (metadata.fName e) (metadata.fDigest e) tr1
           = (Err err, snd (extract a e tr))
       end.
Proof.
  unfold extract, iobind, try, call, ioret. cbv zeta.
  destruct (os_MkdirAll tr _ 493) as [[]|err|pn]; cbn [fst snd].
  - destruct ((mode a =? modeExtract) && (metadata.fSize e =? 0)).
    + destruct (os_Create _ _) as [[]|err|pn]; cbn [fst snd].
      * destruct (perms a); cbn [fst snd].
        -- destruct (os_Chmod _ _ _) as [[]|err|pn]; cbn [fst snd].
           ++ destruct (os_Chtimes _ _ _ _) as [[]|err|pn]; cbn [fst snd].
              ** destruct (os_Chown _ _ _ _) as [[]|err|pn]; cbn [fst snd];
                   intros H; inversion H; subst; cbn [fst snd]; eauto 10.
              ** intros H; inversion H; subst; eauto 10.
              ** discriminate.
           ++ intros H; inversion H; subst; eauto 10.
           ++ discriminate.
        -- intros H; inversion H; subst; exact I.
      * intros H; inversion H; subst; eauto 10.
      * discriminate.
    + destruct (downloadPayload a (metadata.fName e) (metadata.fDigest e) _)
        as [[[]|err|pn] tr2]; cbn [fst snd].
      * destruct (perms a); cbn [fst snd].
        -- destruct (os_Chmod _ _ _) as [[]|err|pn]; cbn [fst snd].
           ++ destruct (os_Chtimes _ _ _ _) as [[]|err|pn]; cbn [fst snd].
              ** destruct (os_Chown _ _ _ _) as [[]|err|pn]; cbn [fst snd];
                   intros H; inversion H; subst; cbn [fst snd]; eauto 10.
              ** intros H; inversion H; subst; eauto 10.
              ** discriminate.
           ++ intros H; inversion H; subst; eauto 10.
           ++ discriminate.
        -- intros H; inversion H; subst; exact I.
      * intros H; inversion H; subst; reflexivity.
      * discriminate.
  - intros H; inversion H; subst; eauto 10.
  - discriminate.
Qed.

(** X18.  Whatever [downloadPayload] writes to a file is the cleartext that the
    object it looked up and downloaded gave under the data key: when the
    lookup, the download or the decryption fails, nothing is written. *)
Theorem download_writes_only_opened (a : acdb) (fullpath : string) (id : bytes)
        (tr ext : list event) (name : string) (b : bytes) :
  snd (downloadPayload a fullpath id tr) = tr ++ ext ->
  In (EvWrite name b) ext ->
  let p := ("/data/" ++ hex_EncodeToString id)%string in
  exists asset body h,
    acd_GetMetadataFS tr p = Ok asset
    /\ acd_DownloadJSON (tr ++ [EvGetMetadataFS p]) (ID asset) = Ok body
    /\ shared.NaClDecrypt body (shared.Data (keys a)) = Ok (h, b).
Proof.
  intros Htr Hin p. revert Htr.
  unfold downloadPayload, iobind, try, call, lift. fold p.
  destruct (acd_GetMetadataFS tr p) as [asset|err|pn] eqn:Hfind; cbn [fst snd].
  - destruct (acd_DownloadJSON _ (ID asset)) as [body|err|pn] eqn:Hdl; cbn [fst snd].
    + destruct (shared.NaClDecrypt body (shared.Data (keys a)))
        as [[h payload]|err|pn] eqn:Hopen; cbn [fst snd].
      * destruct (ioutil_TempFile _ _ _) as [tmp|err|pn]; cbn [fst snd].
        -- destruct (file_Write _ tmp payload) as [[]|err|pn]; cbn [fst snd];
             rewrite <- ?app_assoc; cbn [app]; intros Htr;
             apply app_inv_head in Htr; subst ext;
             cbn [In] in Hin;
             repeat match type of Hin with
                    | _ \/ _ => destruct Hin as [Hin|Hin]
                    end;
             try discriminate; try contradiction;
             inversion Hin; subst; exists asset, body, h; auto.
        -- rewrite <- ?app_assoc; cbn [app]; intros Htr;
             apply app_inv_head in Htr; subst ext;
             cbn [In] in Hin; intuition discriminate.
        -- rewrite <- ?app_assoc; cbn [app]; intros Htr;
             apply app_inv_head in Htr; subst ext;
             cbn [In] in Hin; intuition discriminate.
      * rewrite <- ?app_assoc; cbn [app]; intros Htr;
          apply app_inv_head in Htr; subst ext;
          cbn [In] in Hin; intuition discriminate.
      * rewrite <- ?app_assoc; cbn [app]; intros Htr;
          apply app_inv_head in Htr; subst ext;
          cbn [In] in Hin; intuition discriminate.
    + rewrite <- ?app_assoc; cbn [app]; intros Htr;
        apply app_inv_head in Htr; subst ext;
        cbn [In] in Hin; intuition discriminate.
    + rewrite <- ?app_assoc; cbn [app]; intros Htr;
        apply app_inv_head in Htr; subst ext;
        cbn [In] in Hin; intuition discriminate.
  - intros Htr; apply app_inv_head in Htr; subst ext;
      cbn [In] in Hin; intuition discriminate.
  - intros Htr; apply app_inv_head in Htr; subst ext;
      cbn [In] in Hin; intuition discriminate.
Qed.

End Facts.
End ExtractMore.

(** ** The password prompt *)
Module PromptFacts.
Import prompt.

(** An attempt the loop turns down. *)
Lemma refused_attempt (a b : bytes) :
  bytes_Equal a b && negb (length a =? 0)%nat = false <-> (a <> b \/ a = []).
Proof.
  split.
  - intros H. apply andb_false_iff in H as [H|H].
    + left. intros ->. rewrite bytes_Equal_refl in H. discriminate.
    + right. destruct a; [reflexivity | discriminate].
  - intros [H| ->].
    + rewrite (bytes_Equal_neq H). reflexivity.
    + apply andb_false_r.
Qed.

Lemma accepted_attempt (p : bytes) :
  p <> [] -> bytes_Equal p p && negb (length p =? 0)%nat = true.
Proof. intros H. rewrite bytes_Equal_refl. destruct p; [contradiction | reflexivity]. Qed.

Lemma loop_accepts_sound (n : nat) :
  forall (reads : list (bytes + error)) (out0 : list line) (p : bytes)
         (rest : list (bytes + error)) (out : list line),
    (length reads <= n)%nat ->
    PromptPassword_loop reads out0 = Some (inl p, rest, out) ->
    p <> []
    /\ exists attempts,
         reads = typed attempts ++ [inl p; inl p] ++ rest
         /\ Forall (fun ab => fst ab <> snd ab \/ fst ab = []) attempts
         /\ out = out0
                    ++ flat_map (fun _ => [AskPassword; AskAgain; Newline; NoMatch]) attempts
                    ++ [AskPassword; AskAgain; Newline].
Proof.
  induction n as [|n IH]; intros reads out0 p rest out Hlen H.
  - destruct reads; [discriminate | simpl in Hlen; lia].
  - destruct reads as [|[p1|e1] [|[p2|e2] reads']]; try discriminate.
    cbn [PromptPassword_loop] in H.
    destruct (bytes_Equal p1 p2 && negb (length p1 =? 0)%nat) eqn:E.
    + injection H as <- <- <-.
      apply andb_true_iff in E as [E1 E2]. apply bytes_Equal_eq in E1. subst p2.
      split; [intros ->; discriminate|].
      exists []. split; [reflexivity|]. split; [constructor | reflexivity].
    + apply IH in H; [|simpl in Hlen; lia].
      destruct H as (Hp & attempts & -> & Hbad & ->). split; [exact Hp|].
      exists ((p1, p2) :: attempts). split; [reflexivity|]. split.
      * constructor; [apply refused_attempt; exact E | exact Hbad].
      * cbn [flat_map]. rewrite <- !app_assoc. reflexivity.
Qed.

Lemma loop_accepts_complete (attempts : list (bytes * bytes)) :
  forall (out0 : list line) (p : bytes) (rest : list (bytes + error)),
    p <> [] ->
    Forall (fun ab => fst ab <> snd ab \/ fst ab = []) attempts ->
    PromptPassword_loop (typed attempts ++ [inl p; inl p] ++ rest) out0
    = Some (inl p, rest,
            out0 ++ flat_map (fun _ => [AskPassword; AskAgain; Newline; NoMatch]) attempts
                 ++ [AskPassword; AskAgain; Newline]).
Proof.
  induction attempts as [|[a b] attempts IH]; intros out0 p rest Hp Hbad.
  - cbn [typed flat_map app PromptPassword_loop].
    rewrite (accepted_attempt Hp). reflexivity.
  - inversion Hbad as [|x l Hab Hrest]; subst.
    cbn [typed flat_map app PromptPassword_loop fst snd].
    apply refused_attempt in Hab. cbn [fst snd] in Hab. rewrite Hab.
    fold (typed attempts). rewrite (IH _ p rest Hp Hrest).
    rewrite <- !app_assoc. reflexivity.
Qed.

(** X19.  [PromptPassword] returns a password exactly when, after any number of
    attempts that did not match or were empty, the same non-empty password
    was typed twice in a row, and, when it is to be saved, [WritePassword]
    took it; every refused attempt was answered with "Passwords do not
    match or are empty." and nothing was read past the accepted pair. *)
Theorem PromptPassword_accepts_iff (WritePassword : bytes -> outcome unit) (save : bool)
        (reads : list (bytes + error)) (p : bytes) (rest : list (bytes + error))
        (out : list line) :
  PromptPassword WritePassword save reads = Some (Ok p, rest, out)
  <-> (p <> []
       /\ (save = true -> WritePassword p = Ok tt)
       /\ exists attempts,
            reads = typed attempts ++ [inl p; inl p] ++ rest
            /\ Forall (fun ab => fst ab <> snd ab \/ fst ab = []) attempts
            /\ out = flat_map (fun _ => [AskPassword; AskAgain; Newline; NoMatch]) attempts
                       ++ [AskPassword; AskAgain; Newline]).
Proof.
  unfold PromptPassword. split.
  - destruct (PromptPassword_loop reads []) as [[[[p1|e] rest1] out1]|] eqn:E;
      try discriminate.
    apply (loop_accepts_sound (n := length reads)) in E; [|lia].
    destruct E as (Hp & attempts & Hreads & Hbad & Hout). cbn [app] in Hout.
    destruct save.
    + destruct (WritePassword p1) as [[]|e|pn] eqn:Ew; cbn [obind]; try discriminate.
      intros H. injection H as <- <- <-. split; [exact Hp|].
      split; [intros _; exact Ew|]. eauto.
    + intros H. injection H as <- <- <-. split; [exact Hp|].
      split; [discriminate|]. eauto.
  - intros (Hp & Hsave & attempts & -> & Hbad & ->).
    rewrite (loop_accepts_complete [] rest Hp Hbad). cbn [app].
    destruct save; [|reflexivity]. rewrite (Hsave eq_refl). reflexivity.
Qed.

(** X20.  An error of the terminal ends [PromptPassword] with that error, and
    nothing is saved: the result does not depend on [WritePassword]. *)
Theorem PromptPassword_terminal_error (WritePassword : bytes -> outcome unit)
        (save : bool) (attempts : list (bytes * bytes)) (first : list (bytes + error))
        (e : error) (rest : list (bytes + error)) :
  Forall (fun ab => fst ab <> snd ab \/ fst ab = []) attempts ->
  first = [] \/ (exists p, first = [inl p]) ->
  exists out,
    PromptPassword WritePassword save (typed attempts ++ first ++ inr e :: rest)
    = Some (Err e, rest, out).
Proof.
  intros Hbad Hfirst. unfold PromptPassword.
  assert (H : forall out0, exists out,
             PromptPassword_loop (typed attempts ++ first ++ inr e :: rest) out0
             = Some (inr e, rest, out)).
  { induction Hbad as [|[a b] attempts Hab _ IH]; intros out0.
    - cbn [typed flat_map app].
      destruct Hfirst as [-> | [p ->]]; cbn [app PromptPassword_loop]; eauto.
    - cbn [typed flat_map app PromptPassword_loop fst snd].
      apply refused_attempt in Hab. cbn [fst snd] in Hab. rewrite Hab.
      apply IH. }
  destruct (H []) as [out ->]. eauto.
Qed.

End PromptFacts.

(** ** Looking up a path on the drive *)
Module AcdFacts.
Import acd.
Section Facts.
Context {SL : Strings}.
Variable GetChildrenJSON : list (string * string) -> string -> string -> outcome Assets.

Lemma loop_found (file : string) (elements : list string) :
  forall parent qs a qs',
    GetMetadataFS_loop GetChildrenJSON file elements parent qs = (Found a, qs') ->
    iName a = file
    /\ exists folder pre assets more,
         qs' = pre ++ [(folder, ("?filters=name:" ++ file)%string)]
         /\ GetChildrenJSON pre folder ("?filters=name:" ++ file)%string = Ok assets
         /\ aCount assets = 1
         /\ aData assets = a :: more
         /\ In folder (iParents a).
Proof.
  induction elements as [|v rest IH]; intros parent qs a qs' H.
  - discriminate.
  - cbn [GetMetadataFS_loop] in H.
    destruct (v =? "")%string; [apply IH in H; exact H|].
    destruct (GetChildrenJSON qs parent _) as [assets|e|pn] eqn:Eq; try discriminate.
    destruct (Z.eqb_spec (aCount assets) 1) as [Hc|Hc]; cbn [negb] in H;
      [|discriminate].
    destruct (aData assets) as [|a0 more] eqn:Ed; [discriminate|].
    destruct (String.eqb_spec (iName a0) v) as [Hn|Hn]; cbn [negb] in H;
      [|discriminate].
    destruct (existsb _ (iParents a0)) eqn:Ep; [|discriminate].
    destruct (String.eqb_spec v file) as [Hv|Hv].
    + injection H as <- <-. clear IH. subst file. split; [exact Hn|].
      exists parent, qs, assets, more. repeat split; try assumption.
      apply existsb_exists in Ep as (vv & Hin & Hvv).
      apply String.eqb_eq in Hvv. subst vv. exact Hin.
    + apply IH in H. exact H.
Qed.

(** X21.  An asset [GetMetadataFS] returns bears the base name of the path; it is
    the first entry of the answer, of count one, to the last query made,
    and the folder that query was made in is listed among its parents. *)
Theorem GetMetadataFS_found (root filepath : string) (qs qs' : list (string * string))
        (a : AssetInfo) :
  GetMetadataFS GetChildrenJSON root filepath qs = (Found a, qs') ->
  iName a = path_Base filepath
  /\ exists folder pre assets more,
       qs' = pre ++ [(folder, ("?filters=name:" ++ path_Base filepath)%string)]
       /\ GetChildrenJSON pre folder ("?filters=name:" ++ path_Base filepath)%string
          = Ok assets
       /\ aCount assets = 1
       /\ aData assets = a :: more
       /\ In folder (iParents a).
Proof. unfold GetMetadataFS. apply loop_found. Qed.

Lemma loop_stops_at_first (file : string) (post : list string) (pre : list string) :
  file <> EmptyString ->
  forall parent qs,
    GetMetadataFS_loop GetChildrenJSON file (pre ++ file :: post) parent qs
    = GetMetadataFS_loop GetChildrenJSON file (pre ++ [file]) parent qs.
Proof.
  intros Hfile. induction pre as [|v pre IH]; intros parent qs.
  - cbn [app GetMetadataFS_loop].
    destruct (String.eqb_spec file "") as [E|_]; [contradiction|].
    destruct (GetChildrenJSON qs parent _) as [assets|e|pn]; try reflexivity.
    destruct (negb (aCount assets =? 1)); [reflexivity|].
    destruct (aData assets) as [|a0 more]; [reflexivity|].
    destruct (negb (iName a0 =? file)%string); [reflexivity|].
    destruct (existsb _ (iParents a0)); [|reflexivity].
    rewrite String.eqb_refl. reflexivity.
  - cbn [app GetMetadataFS_loop].
    destruct (v =? "")%string; [apply IH|].
    destruct (GetChildrenJSON qs parent _) as [assets|e|pn]; try reflexivity.
    destruct (negb (aCount assets =? 1)); [reflexivity|].
    destruct (aData assets) as [|a0 more]; [reflexivity|].
    destruct (negb (iName a0 =? v)%string); [reflexivity|].
    destruct (existsb _ (iParents a0)); [|reflexivity].
    destruct (v =? file)%string; [reflexivity | apply IH].
Qed.

(** X22.  The walk down the path ends at the first element that equals the base
    name: the elements after it are never looked up, so a path whose last
    name also occurs higher up resolves like the path cut after that first
    occurrence. *)
Theorem GetMetadataFS_stops_at_first (root filepath : string)
        (pre post : list string) (qs : list (string * string)) :
  strings_Split filepath = pre ++ path_Base filepath :: post ->
  path_Base filepath <> EmptyString ->
  GetMetadataFS GetChildrenJSON root filepath qs
  = GetMetadataFS_loop GetChildrenJSON (path_Base filepath)
                       (pre ++ [path_Base filepath]) root qs.
Proof.
  intros Hsplit Hbase. unfold GetMetadataFS. rewrite Hsplit.
  apply loop_stops_at_first. exact Hbase.
Qed.

(** X23.  A path without a non-empty element is "object not found" without a
    single query. *)
Theorem GetMetadataFS_empty_path (root filepath : string) (qs : list (string * string)) :
  Forall (fun v => v = EmptyString) (strings_Split filepath) ->
  GetMetadataFS GetChildrenJSON root filepath qs = (Failed ErrNotFound, qs).
Proof.
  unfold GetMetadataFS. generalize (path_Base filepath) as file.
  intros file H. induction H as [|v rest Hv _ IH]; [reflexivity|].
  subst v. exact IH.
Qed.

End Facts.
End AcdFacts.

(** ** The output name of [sfe] *)
Module SfeFacts.
Import sfe.
Section Facts.
Context {CR : Crypto} {FL : Flate} {FS : Files}.
Variable os_Stat : string -> option error.
Variable os_OpenFile : string -> option error.
Variable out_Write : string -> bytes -> option error.

Lemma length_append (a b : string) :
  String.length (a ++ b) = (String.length a + String.length b)%nat.
Proof. induction a as [|c a IH]; simpl; [reflexivity | rewrite IH; reflexivity]. Qed.

Lemma length_ones (k : nat) : String.length (ones k) = k.
Proof. induction k as [|k IH]; simpl; [reflexivity | rewrite IH; reflexivity]. Qed.

Lemma candidates_differ (base : string) (j k : nat) :
  (ones j ++ base)%string = (ones k ++ base)%string -> j = k.
Proof.
  intros H. apply (f_equal String.length) in H.
  rewrite !length_append, !length_ones in H. lia.
Qed.

Lemma NoDup_candidates (base : string) (n : nat) :
  NoDup (map (fun k => (ones k ++ base)%string) (seq 0 n)).
Proof.
  generalize (seq_NoDup n 0). generalize (seq 0 n) as l.
  induction l as [|k l IH]; intros Hl; cbn [map]; [constructor|].
  inversion Hl as [|x l' Hk Hl']; subst. constructor; [|apply IH; exact Hl'].
  intros Hin. apply in_map_iff in Hin as (j & Hj & Hin).
  apply candidates_differ in Hj. subst j. contradiction.
Qed.

(** From the [k]-th candidate on, the loop returns the first candidate
    [os.Stat] fails on. *)
Lemma outFilename_first (base : string) (d : nat) :
  forall k fuel,
    (forall j, (k <= j < k + d)%nat -> os_Stat (ones j ++ base)%string = None) ->
    os_Stat (ones (k + d) ++ base)%string <> None ->
    (d < fuel)%nat ->
    outFilename os_Stat fuel (ones k ++ base)%string = Some (ones (k + d) ++ base)%string.
Proof.
  induction d as [|d IH]; intros k fuel Hfound Hfree Hfuel.
  - destruct fuel as [|fuel]; [lia|]. cbn [outFilename].
    rewrite Nat.add_0_r in *.
    destruct (os_Stat (ones k ++ base)%string); [reflexivity | contradiction].
  - destruct fuel as [|fuel]; [lia|]. cbn [outFilename].
    rewrite (Hfound k) by lia.
    change ("1" ++ (ones k ++ base))%string with (ones (S k) ++ base)%string.
    rewrite (IH (S k) fuel).
    + replace (S k + d)%nat with (k + S d)%nat by lia. reflexivity.
    + intros j Hj. apply Hfound. lia.
    + replace (S k + d)%nat with (k + S d)%nat by lia. exact Hfree.
    + lia.
Qed.

(** Among the first [n] candidates either all are found or there is a
    first one that is not. *)
Lemma first_free (base : string) (n : nat) :
  (forall j, (j < n)%nat -> os_Stat (ones j ++ base)%string = None)
  \/ exists k, (k < n)%nat
               /\ os_Stat (ones k ++ base)%string <> None
               /\ forall j, (j < k)%nat -> os_Stat (ones j ++ base)%string = None.
Proof.
  induction n as [|n [IH | (k & Hk & Hfree & Hfound)]].
  - left. intros j Hj. lia.
  - destruct (os_Stat (ones n ++ base)%string) as [e|] eqn:E.
    + right. exists n. split; [lia|]. split; [congruence | exact IH].
    + left. intros j Hj. destruct (Nat.eq_dec j n) as [->|]; [exact E | apply IH; lia].
  - right. exists k. split; [lia|]. split; assumption.
Qed.

(** X24.  When only finitely many names exist, [encrypt] finds an output name
    within as many steps plus one: the first of [filename.sfe],
    [1filename.sfe], [11filename.sfe], ... that [os.Stat] does not find.
    The envelope is written under that name and nowhere else, so no file
    that [os.Stat] finds is written to. *)
Theorem encrypt_picks_free_name (names : list string) (compress : bool)
        (key nonce payload : bytes) (filename : string) :
  (forall n, os_Stat n = None -> In n names) ->
  shared.FileNaClEncrypt filename compress key nonce = Ok payload ->
  exists k r writes,
    (k <= length names)%nat
    /\ encrypt os_Stat os_OpenFile out_Write (S (length names)) compress key nonce filename
       = Some (r, writes)
    /\ os_Stat (ones k ++ filename ++ ".sfe")%string <> None
    /\ (forall j, (j < k)%nat -> os_Stat (ones j ++ filename ++ ".sfe")%string = None)
    /\ (forall name b, In (name, b) writes ->
                       name = (ones k ++ filename ++ ".sfe")%string /\ b = payload)
    /\ (os_OpenFile (ones k ++ filename ++ ".sfe")%string = None ->
        writes = [((ones k ++ filename ++ ".sfe")%string, payload)]).
Proof.
  intros Hfin Hseal.
  set (base := (filename ++ ".sfe")%string).
  destruct (first_free base (S (length names))) as [Hall | (k & Hk & Hfree & Hfound)].
  - exfalso.
    assert (Hincl : incl (map (fun k => (ones k ++ base)%string) (seq 0 (S (length names))))
                         names).
    { intros n Hn. apply in_map_iff in Hn as (j & <- & Hj). apply in_seq in Hj.
      apply Hfin, Hall. lia. }
    apply NoDup_incl_length in Hincl; [|apply NoDup_candidates].
    rewrite length_map, length_seq in Hincl. lia.
  - assert (Hname : outFilename os_Stat (S (length names)) base
                    = Some (ones k ++ base)%string).
    { apply (outFilename_first base (d := k) (k := 0)).
      - intros j Hj. apply Hfound. lia.
      - exact Hfree.
      - lia. }
    unfold encrypt. rewrite Hseal. fold base. rewrite Hname.
    destruct (os_OpenFile (ones k ++ base)%string) as [e|] eqn:Eo.
    + exists k, (Err (ErrOther "invalid argument")), []. split; [lia|].
      split; [reflexivity|]. split; [exact Hfree|]. split; [exact Hfound|].
      split; [intros name b [] | intros Ho; rewrite Ho in Eo; discriminate].
    + destruct (out_Write (ones k ++ base)%string payload) as [e|].
      * exists k, (Err e), [((ones k ++ base)%string, payload)]. split; [lia|].
        split; [reflexivity|]. split; [exact Hfree|]. split; [exact Hfound|].
        split; [|reflexivity].
        intros name b [H|[]]. inversion H. split; reflexivity.
      * exists k, (Ok tt), [((ones k ++ base)%string, payload)]. split; [lia|].
        split; [reflexivity|]. split; [exact Hfree|]. split; [exact Hfound|].
        split; [|reflexivity].
        intros name b [H|[]]. inversion H. split; reflexivity.
Qed.

End Facts.
End SfeFacts.

(** ** Concrete runs of the properties above *)
Module MoreRuns.
Import Mock Fixtures Samples acdbackup.

Lemma walk_remote_only_for_payload_witness :
  quiet (walk (W := world store) archiving "empty.txt" empty_info None).
Proof.
  apply (@WalkMore.walk_remote_only_for_payload crypto flate files time_codec filepath
           (world store) archiving "empty.txt" empty_info None).
  right. right. right. left. reflexivity.
Defined.

Lemma walk_empty_file_witness :
  walk (W := world store) archiving "empty.txt" empty_info None []
  = (Ok (set_me archiving
           (write_entry (me archiving)
              (metadata.EFile (metadata.File_of "empty.txt" empty_info EmptyString None)))),
     [] ++ (if verbose archiving
            then [EvPrintf (MsgVerbose (fi_Mode empty_info) (fi_Size empty_info)
                              "empty.txt" EmptyString)]
            else []))
  /\ metadata.fDigest (metadata.File_of "empty.txt" empty_info EmptyString None)
     = zeroes 32
  /\ metadata.fSize (metadata.File_of "empty.txt" empty_info EmptyString None) = 0.
Proof.
  apply (@WalkMore.walk_empty_file crypto flate files time_codec filepath
           (world store) archiving "empty.txt" empty_info []).
  - reflexivity.
  - reflexivity.
Defined.

Lemma walk_local_error_skips_witness :
  walk (W := world store) archiving "missing.txt" hello_info None []
  = (Ok archiving, [] ++ [EvPrintf (MsgSkipping "missing.txt" ErrNotExist)]).
Proof.
  apply (@WalkMore.walk_local_error_skips crypto flate files time_codec filepath
           (world store) archiving "missing.txt" hello_info [] ErrNotExist).
  - reflexivity.
  - discriminate.
  - left. reflexivity.
Defined.

Lemma verifySecrets_accepts_iff_witness :
  fst (verifySecrets (W := world own_vault) archiving hunter2
         (mkSlice own_blob (zeroes 344)) [])
  = Ok tt.
Proof.
  apply (proj2 (@SecretsMore.verifySecrets_accepts_iff crypto flate time_codec
                  (world own_vault) archiving hunter2 (mkSlice own_blob (zeroes 344)) [])).
  exists bundle. split.
  - vm_compute. reflexivity.
  - split.
    + reflexivity.
    + split.
      * reflexivity.
      * reflexivity.
Defined.

(** The blob a first run uploads: the salt and the nonce the mock random
    source delivers, and the bundle sealed under the key derived from
    [hunter2]. *)
Lemma uploadSecrets_blob_verifies_witness :
  let salt := repeat "n"%byte 32 in
  let nonce := repeat "n"%byte 24 in
  let blob := salt ++ nonce
                ++ secretbox_Seal (List.concat (shared.Marshal_Keys bundle)) nonce
                     (copy_into 32 (copy_into 32 (hunter2 ++ salt))) in
  uploadSecrets (W := world (fresh_vault (Ok (mkAsset "sec" "secrets")))) archiving []
  = (Ok tt,
     (([] ++ [EvPrintf MsgNoSecrets]) ++ [EvPromptPassword true])
       ++ [EvUploadJSON "mdid" "secrets" blob])
  /\ forall sp tr',
       runs_after (go_Zero_cleared (World := world (fresh_vault (Ok (mkAsset "sec" "secrets"))))
                                   tr') ->
       verifySecrets (W := world (fresh_vault (Ok (mkAsset "sec" "secrets"))))
                     archiving hunter2 (mkSlice blob sp) tr'
       = (Ok tt, tr').
Proof.
  apply (@SecretsMore.uploadSecrets_blob_verifies crypto flate time_codec
           (world (fresh_vault (Ok (mkAsset "sec" "secrets")))) archiving []
           hunter2 (copy_into 32 (hunter2 ++ repeat "n"%byte 32))
           (mkAsset "sec" "secrets")).
  - apply MockFacts.secretbox_opens_mock.
  - reflexivity.
  - reflexivity.
  - reflexivity.
  - reflexivity.
  - reflexivity.
  - reflexivity.
  - reflexivity.
  - constructor.
  - reflexivity.
Defined.

Lemma uploadSecrets_upload_failure_witness :
  fst (uploadSecrets (W := world (fresh_vault (Err (CombinedError 409)))) archiving [])
  = Panic NilPointerDereference.
Proof.
  eapply (@SecretsMore.uploadSecrets_upload_failure crypto flate time_codec
            (world (fresh_vault (Err (CombinedError 409)))) archiving []
            hunter2 _ (CombinedError 409)).
  - reflexivity.
  - vm_compute. reflexivity.
  - reflexivity.
Defined.

Lemma downloadSecrets_prompt_saves_witness :
  downloadSecrets (W := world own_vault) 1 archiving []
  = (Ok (Some tt),
     [EvGetMetadataFS "metadata/secrets"; EvDownloadJSON "sec"; EvReadPassword;
      EvPrintf MsgNoPasswordFile; EvPromptPassword false; EvWritePassword hunter2]).
Proof.
  apply (@SecretsMore.downloadSecrets_prompt_saves crypto flate time_codec
           (world own_vault) 0 archiving [] (mkAsset "sec" "secrets")
           (mkSlice own_blob (zeroes 344)) hunter2).
  - reflexivity.
  - reflexivity.
  - reflexivity.
  - reflexivity.
  - vm_compute. reflexivity.
Defined.

Lemma downloadSecrets_password_file_witness :
  downloadSecrets (W := world own_vault_with_file) 1 archiving []
  = (Ok (Some tt),
     [EvGetMetadataFS "metadata/secrets"; EvDownloadJSON "sec"; EvReadPassword]).
Proof.
  apply (@SecretsMore.downloadSecrets_password_file crypto flate time_codec
           (world own_vault_with_file) 0 archiving [] (mkAsset "sec" "secrets")
           (mkSlice own_blob (zeroes 344)) hunter2).
  - reflexivity.
  - reflexivity.
  - reflexivity.
Defined.

Lemma downloadSecrets_lookup_error_witness :
  downloadSecrets (W := world unreachable) 1 archiving []
  = (Err ErrRemoteObjectNotFound, [EvGetMetadataFS "metadata/secrets"]).
Proof.
  apply (proj2 (@SecretsMore.downloadSecrets_lookup_error crypto flate time_codec
                  (world unreachable) 1 archiving [] (CombinedError 503) eq_refl)).
  discriminate.
Defined.

Lemma envelope_stored_verbatim_witness :
  shared.FileNaClEncrypt "hello.txt" false key_b nonce0
  = Ok (nonce0
          ++ secretbox_Seal
               (List.concat
                  (shared.Marshal_Header
                     (shared.mkHeader shared.Version shared.CompNone (6 mod 2 ^ 64)
                                      (copy_into 32 hello) "text/plain"))
                  ++ hello)
               nonce0 key_b).
Proof.
  apply (@EnvelopeMore.envelope_stored_verbatim crypto flate files "hello.txt" false
           key_b nonce0 (copy_into 32 hello) "text/plain" true 6 hello).
  - reflexivity.
  - reflexivity.
  - reflexivity.
  - reflexivity.
Defined.

Lemma open_unchecked_header_witness :
  shared.NaClDecrypt
    (mkSlice (nonce0
                ++ secretbox_Seal
                     (List.concat (shared.Marshal_Header odd_header) ++ hello)
                     nonce0 key_b) [])
    key_b
  = Ok (odd_header, hello).
Proof.
  apply (@EnvelopeMore.open_unchecked_header crypto flate odd_header hello key_b nonce0 []).
  - apply MockFacts.secretbox_opens_mock.
  - reflexivity.
  - reflexivity.
  - unfold XDR.fits_int32. cbn. lia.
  - reflexivity.
  - unfold XDR.fits_uint64. cbn. lia.
  - reflexivity.
  - unfold XDR.xdr_len_ok, XDR.MaxInt32. cbn. lia.
Defined.

Lemma open_invalid_compression_witness :
  shared.NaClDecrypt
    (mkSlice (nonce0
                ++ secretbox_Seal
                     (List.concat (shared.Marshal_Header zstd_header) ++ hello)
                     nonce0 key_b) [])
    key_b
  = Err (ErrInvalidCompression ["z"; "s"; "t"; "d"]%byte).
Proof.
  apply (@EnvelopeMore.open_invalid_compression crypto flate zstd_header hello key_b
           nonce0 []).
  - apply MockFacts.secretbox_opens_mock.
  - reflexivity.
  - reflexivity.
  - unfold XDR.fits_int32. cbn. lia.
  - reflexivity.
  - unfold XDR.fits_uint64. cbn. lia.
  - reflexivity.
  - unfold XDR.xdr_len_ok, XDR.MaxInt32. cbn. lia.
  - discriminate.
  - discriminate.
Defined.

Lemma wrap_under_cleared_key_witness :
  let box := secretbox_Seal (List.concat (shared.Marshal_Keys bundle)) nonce0 (zeroes 32) in
  shared.Encrypt bundle hunter2 32768 16 2 salt0 nonce0 (repeat true 32)
  = Ok (salt0 ++ nonce0 ++ box)
  /\ shared.KeysDecrypt Hunter2 32768 16 2 (mkSlice (salt0 ++ nonce0 ++ box) [])
                        (repeat true 32)
     = Ok bundle.
Proof.
  apply (@EnvelopeMore.wrap_under_cleared_key crypto bundle 32768 16 2 hunter2 Hunter2
           salt0 nonce0 (copy_into 32 (hunter2 ++ salt0)) (copy_into 32 (Hunter2 ++ salt0))
           []).
  - apply MockFacts.secretbox_opens_mock.
  - reflexivity.
  - reflexivity.
  - reflexivity.
  - reflexivity.
  - reflexivity.
  - reflexivity.
  - reflexivity.
Defined.

Lemma list_ignores_partial_tag_witness :
  exists md,
    metadata.NewDecoder (bytes_NewReader (manifest false tree ++ ["f"; "i"]%byte)) = Ok md
    /\ list_entries 4 md = Some (Ok tree).
Proof.
  apply (@ManifestMore.list_ignores_partial_tag flate time_codec tree ["f"; "i"]%byte).
  - apply MockFacts.time_codec_ok_mock.
  - apply ManifestRuns.tree_legal.
  - simpl. lia.
Defined.

Lemma dir_entry_legal : Forall legal_entry [dir_entry].
Proof.
  constructor; [|constructor].
  unfold dir_entry, legal_entry, XDR.xdr_len_ok, XDR.fits_uint32, XDR.fits_int32,
    XDR.MaxInt32.
  cbn. lia.
Qed.

Lemma unresolved_symlink_breaks_manifest_witness :
  exists a',
    walk (FP := broken_links) (W := world store) archiving_in_d "d/b" symlink_info None []
    = (Ok a', [] ++ [EvPrintf (MsgSkipping "d/b" ErrNotExist)])
    /\ exists md,
         metadata.NewDecoder
           (bytes_NewReader
              (metadata.w (metadata.Flush (write_entries (me a') [file_entry]))))
         = Ok md
         /\ list_entries 2 md = Some (Err ErrTypeSymlink).
Proof.
  apply (@ManifestMore.unresolved_symlink_breaks_manifest crypto flate files time_codec
           broken_links (world store) archiving_in_d "d/b" symlink_info ErrNotExist
           [dir_entry] [file_entry] []).
  - apply MockFacts.time_codec_ok_mock.
  - apply dir_entry_legal.
  - reflexivity.
  - reflexivity.
  - reflexivity.
  - reflexivity.
  - vm_compute. reflexivity.
Defined.

Lemma extract_fatal_only_local_witness :
  downloadPayload (W := world store) extracting "six.txt" (zeroes 32)
                  ([] ++ [EvMkdirAll "/restore/." 493])
  = (Err ErrRemoteObjectNotFound,
     snd (extract (W := world store) extracting sized_without_digest [])).
Proof.
  apply (@ExtractMore.extract_fatal_only_local crypto flate time_codec pathlib
           (world store) extracting sized_without_digest []
           false (Some ErrRemoteObjectNotFound)).
  vm_compute. reflexivity.
Defined.

Lemma download_writes_only_opened_witness :
  exists asset body h,
    acd_GetMetadataFS (World := world store) [] ("/data/" ++ hex_EncodeToString hello_id)
    = Ok asset
    /\ acd_DownloadJSON (World := world store)
         ([] ++ [EvGetMetadataFS ("/data/" ++ hex_EncodeToString hello_id)]) (ID asset)
       = Ok body
    /\ shared.NaClDecrypt body (shared.Data (keys extracting)) = Ok (h, hello).
Proof.
  apply (@ExtractMore.download_writes_only_opened crypto flate time_codec pathlib
           (world store) extracting "hello.txt" hello_id []
           [EvGetMetadataFS ("/data/" ++ hello_name);
            EvDownloadJSON "obj1";
            EvTempFile "/restore" "acdb";
            EvWrite "acdb001" hello;
            EvRename "acdb001" "/restore/hello.txt"]
           "acdb001" hello).
  - vm_compute. reflexivity.
  - right. right. right. left. reflexivity.
Defined.

(** A mistyped attempt, an empty one, and then [hunter2] twice. *)
Lemma PromptPassword_accepts_iff_witness :
  prompt.PromptPassword (fun _ => Ok tt) true
    (prompt.typed [(hunter2, Hunter2); ([], [])]
       ++ [inl hunter2; inl hunter2] ++ [inl key_a])
  = Some (Ok hunter2, [inl key_a],
          flat_map (fun _ => [prompt.AskPassword; prompt.AskAgain; prompt.Newline;
                              prompt.NoMatch])
                   [(hunter2, Hunter2); ([], [])]
            ++ [prompt.AskPassword; prompt.AskAgain; prompt.Newline]).
Proof.
  apply (proj2 (@PromptFacts.PromptPassword_accepts_iff (fun _ => Ok tt) true
                  (prompt.typed [(hunter2, Hunter2); ([], [])]
                     ++ [inl hunter2; inl hunter2] ++ [inl key_a])
                  hunter2 [inl key_a]
                  (flat_map (fun _ => [prompt.AskPassword; prompt.AskAgain; prompt.Newline;
                                       prompt.NoMatch])
                            [(hunter2, Hunter2); ([], [])]
                     ++ [prompt.AskPassword; prompt.AskAgain; prompt.Newline]))).
  split.
  - discriminate.
  - split.
    + reflexivity.
    + exists [(hunter2, Hunter2); ([], [])]. split.
      * reflexivity.
      * split.
        -- constructor.
           ++ left. discriminate.
           ++ constructor.
              ** right. reflexivity.
              ** constructor.
        -- reflexivity.
Defined.

Lemma PromptPassword_terminal_error_witness :
  exists out,
    prompt.PromptPassword (fun _ => Ok tt) true
      (prompt.typed [(hunter2, Hunter2)] ++ [inl hunter2] ++ inr (ErrIo EOF) :: [])
    = Some (Err (ErrIo EOF), [], out).
Proof.
  apply (@PromptFacts.PromptPassword_terminal_error (fun _ => Ok tt) true
           [(hunter2, Hunter2)] [inl hunter2] (ErrIo EOF) []).
  - constructor.
    + left. discriminate.
    + constructor.
  - right. exists hunter2. reflexivity.
Defined.

Lemma GetMetadataFS_found_witness :
  acd.iName (acd.mkAssetInfo "id-b" "b" ["id-a"%string]) = acd.path_Base "a/b"
  /\ exists folder pre assets more,
       [("r0", "?filters=name:a"); ("id-a", "?filters=name:b")]%string
       = pre ++ [(folder, ("?filters=name:" ++ acd.path_Base "a/b")%string)]
       /\ drive pre folder ("?filters=name:" ++ acd.path_Base "a/b")%string = Ok assets
       /\ acd.aCount assets = 1
       /\ acd.aData assets = acd.mkAssetInfo "id-b" "b" ["id-a"%string] :: more
       /\ In folder (acd.iParents (acd.mkAssetInfo "id-b" "b" ["id-a"%string])).
Proof.
  apply (@AcdFacts.GetMetadataFS_found strings drive "r0" "a/b" []
           [("r0", "?filters=name:a"); ("id-a", "?filters=name:b")]%string
           (acd.mkAssetInfo "id-b" "b" ["id-a"%string])).
  vm_compute. reflexivity.
Defined.

(** [a/b/a] resolves to the [a] directly under the root, in one query. *)
Lemma GetMetadataFS_stops_at_first_witness :
  acd.GetMetadataFS drive "r0" "a/b/a" []
  = acd.GetMetadataFS_loop drive (acd.path_Base "a/b/a") ([] ++ [acd.path_Base "a/b/a"])
                           "r0" [].
Proof.
  apply (@AcdFacts.GetMetadataFS_stops_at_first strings drive "r0" "a/b/a" []
           ["b"; "a"]%string []).
  - reflexivity.
  - discriminate.
Defined.

Lemma GetMetadataFS_empty_path_witness :
  acd.GetMetadataFS drive "r0" "//" [] = (acd.Failed ErrNotFound, []).
Proof.
  apply (@AcdFacts.GetMetadataFS_empty_path strings drive "r0" "//" []).
  repeat constructor.
Defined.

Lemma stat_taken_finite (n : string) : stat_taken n = None -> In n taken.
Proof.
  unfold stat_taken. destruct (existsb (String.eqb n) taken) eqn:E; [|discriminate].
  intros _. apply existsb_exists in E as (x & Hin & Hx).
  apply String.eqb_eq in Hx. subst x. exact Hin.
Qed.

Lemma encrypt_picks_free_name_witness :
  exists k r writes,
    (k <= length taken)%nat
    /\ sfe.encrypt stat_taken (fun _ => None) (fun _ _ => None) (S (length taken))
                   false key_b nonce0 "hello.txt"
       = Some (r, writes)
    /\ stat_taken (sfe.ones k ++ "hello.txt" ++ ".sfe")%string <> None
    /\ (forall j, (j < k)%nat ->
                  stat_taken (sfe.ones j ++ "hello.txt" ++ ".sfe")%string = None)
    /\ (forall name b, In (name, b) writes ->
                       name = (sfe.ones k ++ "hello.txt" ++ ".sfe")%string
                       /\ b = hello_sealed)
    /\ ((fun _ : string => @None error) (sfe.ones k ++ "hello.txt" ++ ".sfe")%string = None ->
        writes = [((sfe.ones k ++ "hello.txt" ++ ".sfe")%string, hello_sealed)]).
Proof.
  apply (@SfeFacts.encrypt_picks_free_name crypto flate files stat_taken
           (fun _ => None) (fun _ _ => None) taken false key_b nonce0
           hello_sealed "hello.txt").
  - apply stat_taken_finite.
  - vm_compute. reflexivity.
Defined.

(** With [hello.txt.sfe] and [1hello.txt.sfe] taken, the envelope goes to
    [11hello.txt.sfe]. *)
Example encrypt_third_name :
  sfe.encrypt stat_taken (fun _ => None) (fun _ _ => None) 3 false key_b nonce0
              "hello.txt"
  = Some (Ok tt, [("11hello.txt.sfe"%string, hello_sealed)]).
Proof. vm_compute. reflexivity. Qed.

(** The lookup of [a/b/a] makes one query and returns the top-level [a]. *)
Example lookup_nested_same_name :
  acd.GetMetadataFS drive "r0" "a/b/a" []
  = (acd.Found (acd.mkAssetInfo "id-a" "a" ["r0"%string]),
     [("r0", "?filters=name:a")]%string).
Proof. vm_compute. reflexivity. Qed.

End MoreRuns.

(** ** Listing and restoring an archive *)
Module ProgramFacts.
Import metadata acdbackup program.
Section Facts.
Context {CR : Crypto} {FL : Flate} {FS : Files} {TC : TimeCodec}
        {FP : Filepath} {PL : PathLib} {H : Host}.







(** What a completed run of the loop of [list] leaves in [permList]: in
    extract mode with [-p], the directories it met, last first. *)
Lemma list_loop_permList (fuel : nat) :
  forall (s s' : state) (md : MetadataDecoder) (tr tr' : list op),
    list_loop fuel s md tr = (Done (Some s'), tr') ->
    exists ts,
      list_entries fuel md = Some (Ok ts)
      /\ ac s' = ac s
      /\ permList s'
         = (if (mode (ac s) =? modeExtract) && perms (ac s)
            then rev (dirs_of ts) else [])
             ++ permList s.
Proof.
  induction fuel as [|fuel IH]; intros s s' md tr tr' Hrun.
  - discriminate.
  - cbn [list_loop list_entries] in *.
    destruct (Next md) as [[[x|x|x]|e|pn] md'].
    + (* a directory *)
      revert Hrun. unfold bind at 1.
      destruct (mode (ac s) =? modeExtract) eqn:Hmode.
      * unfold bind at 1, MkdirAll, sub, call, ret at 1.
        destruct (os_MkdirAll _ _ _) as [[]|e|pn]; cbn [of_outcome]; try discriminate.
        unfold bind at 1, print. intros Hrun. apply IH in Hrun.
        destruct Hrun as (ts & -> & Hac & Hperm). exists (EDir x :: ts).
        split; [reflexivity|].
        destruct (perms (ac s)) eqn:Hp; cbn [ac permList] in *.
        -- split; [exact Hac|]. rewrite Hperm, Hmode, Hp. cbn [andb dirs_of flat_map app rev].
           fold (dirs_of ts). rewrite <- app_assoc. reflexivity.
        -- split; [exact Hac|]. rewrite Hperm, Hmode, Hp. reflexivity.
      * unfold ret at 1, bind at 1, print. intros Hrun. apply IH in Hrun.
        destruct Hrun as (ts & -> & Hac & Hperm). exists (EDir x :: ts).
        split; [reflexivity|]. split; [exact Hac|]. rewrite Hperm, Hmode. reflexivity.
    + (* a symbolic link *)
      revert Hrun. unfold bind at 1.
      destruct (mode (ac s) =? modeExtract) eqn:Hmode.
      * unfold ask. destruct (os_Symlink _ _ _) as [[]|e|pn]; cbn [of_outcome];
          try discriminate.
        unfold bind at 1, print. intros Hrun. apply IH in Hrun.
        destruct Hrun as (ts & -> & Hac & Hperm). exists (ESymlink x :: ts).
        split; [reflexivity|]. split; [exact Hac|]. rewrite Hperm, Hmode.
        cbn [dirs_of flat_map app]. reflexivity.
      * unfold ret at 1, bind at 1, print. intros Hrun. apply IH in Hrun.
        destruct Hrun as (ts & -> & Hac & Hperm). exists (ESymlink x :: ts).
        split; [reflexivity|]. split; [exact Hac|]. rewrite Hperm, Hmode. reflexivity.
    + (* a file *)
      revert Hrun.
      destruct (mode (ac s) =? modeExtract) eqn:Hmode.
      * unfold bind at 1, sub.
        destruct (extract (ac s) x []) as [[[fatal oerr]|e|pn] evs]; cbn [of_outcome];
          try discriminate.
        destruct fatal, oerr as [err|]; try discriminate;
          unfold bind at 1, print; intros Hrun; apply IH in Hrun;
          destruct Hrun as (ts & -> & Hac & Hperm); exists (EFile x :: ts);
          (split; [reflexivity|]); (split; [exact Hac|]); rewrite Hperm, Hmode;
          reflexivity.
      * unfold bind at 1, print. intros Hrun. apply IH in Hrun.
        destruct Hrun as (ts & -> & Hac & Hperm). exists (EFile x :: ts).
        split; [reflexivity|]. split; [exact Hac|]. rewrite Hperm, Hmode. reflexivity.
    + destruct e as [| [] | | | | | | | | | | | | | | | | |]; try discriminate.
      injection Hrun as <- <-. exists []. split; [reflexivity|].
      split; [reflexivity|].
      destruct ((mode (ac s) =? modeExtract) && perms (ac s)); reflexivity.
    + discriminate.
Qed.

(** The calls of a completed [apply_perms]. *)
Lemma apply_perms_trace (root' : string) (l : list Dir) :
  forall tr tr', apply_perms root' l tr = (Done tt, tr') ->
                 tr' = tr ++ flat_map (perm_ops root') l.
Proof.
  induction l as [|ee l IH]; intros tr tr' Hrun.
  - injection Hrun as <-. cbn. rewrite app_nil_r. reflexivity.
  - cbn [apply_perms] in Hrun. revert Hrun.
    unfold bind at 1, Chmod, sub, call.
    destruct (os_Chmod _ _ _) as [[]|e|pn]; cbn [of_outcome]; try discriminate.
    unfold bind at 1, Chtimes, sub, call.
    destruct (os_Chtimes _ _ _ _) as [[]|e|pn]; cbn [of_outcome]; try discriminate.
    unfold bind at 1, Chown, sub, call.
    destruct (os_Chown _ _ _ _) as [[]|e|pn]; cbn [of_outcome]; try discriminate.
    intros Hrun. apply IH in Hrun. subst tr'.
    cbn [flat_map perm_ops map app]. rewrite <- !app_assoc. reflexivity.
Qed.

(** X27.  When a restore with [-p] completes, the attributes of the directories
    were set after the loop over the entries had ended, three calls per
    directory, the directory met last first. *)
Theorem restore_sets_directories_last (fuel : nat) (s : state) (f : reader)
        (tr tr' : list op) :
  mode (ac s) = modeExtract -> perms (ac s) = true -> permList s = [] ->
  list_body fuel s f tr = (Done (Some tt), tr') ->
  exists md ts,
    NewDecoder f = Ok md
    /\ list_entries fuel md = Some (Ok ts)
    /\ tr' = snd (list_loop fuel s md tr)
               ++ flat_map (perm_ops (root (ac s))) (rev (dirs_of ts)).
Proof.
  intros Hmode Hperms Hlist. unfold list_body, bind at 1, pure.
  destruct (NewDecoder f) as [md|e|pn]; cbn [of_outcome]; try discriminate.
  unfold bind at 1.
  destruct (list_loop fuel s md tr) as [[[s'|]|fl|pn] tr1] eqn:Hloop; try discriminate.
  destruct (list_loop_permList _ _ _ _ Hloop) as (ts & Hts & Hac & Hpl).
  rewrite Hmode, Hperms, Hlist, app_nil_r in Hpl.
  change ((modeExtract =? modeExtract) && true) with true in Hpl. cbv iota in Hpl.
  unfold bind.
  destruct (apply_perms (root (ac s')) (permList s') tr1) as [[[]|fl|pn] tr2] eqn:Hap;
    try discriminate.
  intros Hrun. injection Hrun as <-.
  apply apply_perms_trace in Hap. rewrite Hac, Hpl in Hap.
  exists md, ts. subst tr2. rewrite Hloop. cbn [snd].
  split; [reflexivity|]. split; [exact Hts | reflexivity].
Qed.

(** [online] up to the scan of the root's folders. *)
Lemma online_scanned (fuel : nat) (s : state) (tr : list op)
      (kf : string) (cl : Client) (k : shared.Keys) (children : list Asset) :
  let rootDir := path_Dir kf in
  let filename := path_Join rootDir TokenFilename in
  let tr1 := tr ++ [OpDefaultKeysFilename] in
  let tr2 := tr1 ++ [Sub (EvMkdirAll rootDir 448)] in
  let tr3 := tr2 ++ [OpNewClient filename] in
  let tr4 := tr3 ++ [OpLoadKeys kf] in
  let tr5 := tr4 ++ [OpGetChildrenJSON "" "?filters=kind:FOLDER"] in
  shared_DefaultKeysFilename tr = Ok kf ->
  os_MkdirAll (World := host_world tr1) [] rootDir 448 = Ok tt ->
  acd_NewClient tr2 filename = Ok cl ->
  shared_LoadKeys tr3 kf = Ok k ->
  acd_GetChildrenJSON tr4 "" "?filters=kind:FOLDER" = Ok children ->
  online fuel s tr
  = (let a0 := set_keys (ac s) k in
     let '(d, m, count) := scan children (dataID a0) (metadataID a0) 0 in
     let a1 := set_ids a0 d m in
     bind (if negb (count =? 2)%nat
           then bind (attempt (makeDirectories cl a1))
                     (fun r => match r with
                               | inl a => ret a
                               | inr (Plain e) => fail (CouldNotCreateDirectories e)
                               | inr f => fail f
                               end)
           else ret a1)
          (fun a2 =>
             bind (sub (fun W => downloadSecrets fuel a2))
                  (fun r => match r with
                            | None => ret None
                            | Some _ => ret (Some (mkState a2 (Some cl) (target s)
                                                           (permList s)))
                            end))) tr5.
Proof.
  intros rootDir filename tr1 tr2 tr3 tr4 tr5 Hkf Hmk Hcl Hk Hch.
  unfold online.
  unfold bind at 1, ask at 1. rewrite Hkf. cbn [of_outcome]. fold rootDir tr1.
  unfold bind at 1, MkdirAll, sub, call. rewrite Hmk. cbn [of_outcome map app].
  fold tr2. fold filename.
  unfold bind at 1, ask_try at 1. rewrite Hcl. fold tr3. cbv iota beta.
  unfold bind at 1, ask at 1. rewrite Hk. cbn [of_outcome]. fold tr4.
  unfold bind at 1, ask at 1. rewrite Hch. cbn [of_outcome]. fold tr5.
  reflexivity.
Qed.

(** [makeDirectories] when both folders are answered with a conflict. *)
Lemma makeDirectories_conflicts (cl : Client) (a : acdb) (tr : list op) :
  acd_MkdirJSON tr (c_root cl) dataName = Err (CombinedError StatusConflict) ->
  acd_MkdirJSON (tr ++ [OpMkdirJSON (c_root cl) dataName]) (c_root cl) metadataName
  = Err (CombinedError StatusConflict) ->
  makeDirectories cl a tr
  = (Done a, (tr ++ [OpMkdirJSON (c_root cl) dataName])
               ++ [OpMkdirJSON (c_root cl) metadataName]).
Proof.
  intros Hd Hm. unfold makeDirectories, mkdir_or_conflict, bind, ask_try, ret.
  rewrite Hd. cbv iota beta. change (negb (StatusConflict =? StatusConflict)) with false.
  cbv iota beta zeta. rewrite Hm. cbv iota beta.
  change (negb (StatusConflict =? StatusConflict)) with false. reflexivity.
Qed.

(** X28.  A conflict is success for [makeDirectories] whether or not the scan of
    the root found the folder: when both creations are answered with 409,
    [online] goes on to the secrets with the ids the scan left, which are
    the empty ids of a fresh [acdb] when the listing named neither folder. *)
Theorem online_conflict_keeps_ids (fuel : nat) (s : state) (tr : list op)
        (kf : string) (cl : Client) (k : shared.Keys) (children : list Asset) :
  let rootDir := path_Dir kf in
  let filename := path_Join rootDir TokenFilename in
  let tr1 := tr ++ [OpDefaultKeysFilename] in
  let tr2 := tr1 ++ [Sub (EvMkdirAll rootDir 448)] in
  let tr3 := tr2 ++ [OpNewClient filename] in
  let tr4 := tr3 ++ [OpLoadKeys kf] in
  let tr5 := tr4 ++ [OpGetChildrenJSON "" "?filters=kind:FOLDER"] in
  let tr6 := tr5 ++ [OpMkdirJSON (c_root cl) dataName] in
  let tr7 := tr6 ++ [OpMkdirJSON (c_root cl) metadataName] in
  shared_DefaultKeysFilename tr = Ok kf ->
  os_MkdirAll (World := host_world tr1) [] rootDir 448 = Ok tt ->
  acd_NewClient tr2 filename = Ok cl ->
  shared_LoadKeys tr3 kf = Ok k ->
  acd_GetChildrenJSON tr4 "" "?filters=kind:FOLDER" = Ok children ->
  Forall (fun v => aName v <> dataName /\ aName v <> metadataName) children ->
  acd_MkdirJSON tr5 (c_root cl) dataName = Err (CombinedError StatusConflict) ->
  acd_MkdirJSON tr6 (c_root cl) metadataName = Err (CombinedError StatusConflict) ->
  let a2 := set_ids (set_keys (ac s) k) (dataID (ac s)) (metadataID (ac s)) in
  online fuel s tr
  = bind (sub (fun W => downloadSecrets fuel a2))
         (fun r => match r with
                   | None => ret None
                   | Some _ => ret (Some (mkState a2 (Some cl) (target s) (permList s)))
                   end) tr7.
Proof.
  intros rootDir filename tr1 tr2 tr3 tr4 tr5 tr6 tr7 Hkf Hmk Hcl Hk Hch Hnone Hd Hm a2.
  rewrite (online_scanned fuel s tr Hkf Hmk Hcl Hk Hch). cbv zeta.
  fold rootDir filename tr1 tr2 tr3 tr4 tr5.
  assert (Hscan : forall d m n,
             scan children d m n = (d, m, n)).
  { clear - Hnone.
    induction Hnone as [|v rest [Hv1 Hv2] _ IH]; intros d m n; [reflexivity|].
    cbn [scan].
    destruct (String.eqb_spec (aName v) dataName) as [E|_]; [contradiction|].
    destruct (String.eqb_spec (aName v) metadataName) as [E|_]; [contradiction|].
    apply IH. }
  rewrite Hscan. cbn [Nat.eqb negb dataID metadataID set_keys].
  unfold bind at 1. unfold bind at 1, attempt.
  rewrite (makeDirectories_conflicts cl _ tr5 Hd Hm). fold tr6 tr7.
  reflexivity.
Qed.

(** [walk] always returns nil: an error of a step is reported and skipped. *)
Lemma walk_upload_no_error (W : World) (a : acdb) (path : string) (info : os_FileInfo)
      (err : option error) (digest : option bytes) (payload : bytes)
      (tr : list event) (e : error) :
  fst (walk_upload (W := W) a path info err digest payload tr) <> Err e.
Proof.
  unfold walk_upload, iobind, try, call, Printf, ioret.
  destruct err as [e0|]; [cbn; discriminate|].
  destruct digest as [dg|].
  - destruct (acd_UploadJSON tr _ _ _) as [x|e0|pn]; cbv iota beta.
    + destruct (verbose a); cbn; discriminate.
    + destruct e0; try (cbn; discriminate).
      destruct (negb (StatusCode =? StatusConflict)); [cbn; discriminate|].
      destruct (verbose a); cbn; discriminate.
    + cbn. discriminate.
  - destruct (verbose a); cbn; discriminate.
Qed.

Lemma walk_no_error (W : World) (a : acdb) (path : string) (info : os_FileInfo)
      (errIn : option error) (tr : list event) (e : error) :
  fst (walk (W := W) a path info errIn tr) <> Err e.
Proof.
  unfold walk. destruct errIn as [e0|]; [cbn; discriminate|].
  destruct (Z.land (fi_Mode info) os_ModeDir =? os_ModeDir).
  { destruct (EncDir (me a) path info) as [m r].
    unfold iobind, try, lift. destruct r; try apply walk_upload_no_error.
    cbn. discriminate. }
  destruct (Z.land (fi_Mode info) os_ModeSymlink =? os_ModeSymlink).
  { destruct (EncSymlink (me a) path info) as [m r].
    unfold iobind, try, lift. destruct r; try apply walk_upload_no_error.
    cbn. discriminate. }
  destruct (IsRegular (fi_Mode info) && (fi_Size info =? 0)).
  { destruct (EncFile (me a) path info EmptyString None) as [m r].
    unfold iobind, try, lift. destruct r; try apply walk_upload_no_error.
    cbn. discriminate. }
  destruct (IsRegular (fi_Mode info)); [|cbn; discriminate].
  unfold iobind at 1, try at 1, lift at 1.
  destruct (goutil_FileHMACSHA256 path _) as [dg|e0|pn]; cbv iota beta;
    [|apply walk_upload_no_error|cbn; discriminate].
  unfold iobind at 1, try at 1.
  destruct (shared.FileNaClEncrypt path _ _ _) as [payload|e0|pn]; cbv iota beta;
    [|apply walk_upload_no_error|cbn; discriminate].
  unfold iobind at 1, try at 1, lift at 1.
  destruct (goutil_FileCompressible path) as [[mime comp0]|e0|pn]; cbv iota beta;
    [|apply walk_upload_no_error|cbn; discriminate].
  destruct (EncFile (me a) path info mime (Some dg)) as [m r].
  unfold iobind at 1, try at 1, lift at 1.
  destruct r; cbv iota beta; try apply walk_upload_no_error.
  cbn. discriminate.
Qed.

Lemma walk_visits_no_failure (vs : list visit) :
  forall (a : acdb) (tr : list op) (f : failure),
    fst (walk_visits a vs tr) <> Fail f.
Proof.
  induction vs as [|v vs IH]; intros a tr f; [discriminate|].
  cbn [walk_visits]. unfold bind, sub.
  pose proof (walk_no_error (host_world tr) a (v_path v) (v_info v) (v_err v) [])
    as Hw.
  destruct (walk a (v_path v) (v_info v) (v_err v) []) as [[a'|e|pn] evs];
    cbn [fst of_outcome] in *.
  - apply IH.
  - exfalso. exact (Hw e eq_refl).
  - discriminate.
Qed.

(** X29.  Walking the arguments never makes [archive] fail: whatever the files,
    a node that cannot be read, fingerprinted, sealed or uploaded is
    reported and skipped, and the walk goes on. *)
Theorem walking_never_fails (args : list string) (a : acdb) (tr : list op)
        (f : failure) :
  fst (walk_args a args tr) <> Fail f.
Proof.
  revert a tr. induction args as [|v args IH]; intros a tr; [discriminate|].
  cbn [walk_args]. unfold bind.
  pose proof (@walk_visits_no_failure (filepath_Walk tr v) a (tr ++ [OpWalk v]) f) as Hv.
  destruct (walk_visits a (filepath_Walk tr v) (tr ++ [OpWalk v])) as [[a'|f'|pn] tr'];
    cbn [fst] in *.
  - apply IH.
  - intros E. injection E as ->. apply Hv. reflexivity.
  - discriminate.
Qed.

(** The manifest [archive] uploads, when every call succeeds. *)
Lemma upload_manifest_ok (a : acdb) (f : string) (tr : list op) (up : Asset) :
  let tr1 := tr ++ [OpSeek f] in
  let tr2 := tr1 ++ [OpStat f] in
  let tr3 := tr2 ++ [OpRead f] in
  let nonce := rand_Read (World := host_world tr3) [] shared.NonceSize in
  let name := time_Now_Format tr3 in
  let tr4 := tr3 ++ [OpNow] in
  let mde := nonce ++ secretbox_Seal (w (Flush (me a))) nonce (shared.MD (keys a)) in
  file_Seek tr f = Ok tt ->
  file_Stat tr1 f = Ok tt ->
  file_Read tr2 f = Ok tt ->
  acd_UploadJSON (World := host_world tr4) [] (metadataID a) name mde = Ok up ->
  upload_manifest a f tr
  = (Done (set_me a (Flush (me a))),
     tr4 ++ [Sub (EvUploadJSON (metadataID a) name mde); OpPrintBackupComplete name]).
Proof.
  intros tr1 tr2 tr3 nonce name tr4 mde Hseek Hstat Hread Hup.
  unfold upload_manifest, bind, ask, UploadJSON, sub, call, print, ret.
  rewrite Hseek. cbn [of_outcome]. fold tr1. rewrite Hstat. cbn [of_outcome].
  fold tr2. rewrite Hread. cbn [of_outcome]. fold tr3 nonce name tr4.
  cbn [set_me me keys metadataID]. fold mde. rewrite Hup. cbn [of_outcome map app].
  rewrite <- app_assoc. reflexivity.
Qed.

(** [list] fetching a sealed manifest from the drive, when every call
    succeeds. *)
Lemma list_open_remote (s : state) (tr : list op) (cl : Client) (e : error)
      (asset : Asset) (nonce m sp : bytes) (tmp : string) :
  let p := (metadataName ++ "/" ++ target s)%string in
  let tr1 := tr ++ [OpOpen (target s)] in
  let tr2 := tr1 ++ [Sub (EvGetMetadataFS p)] in
  let tr3 := tr2 ++ [Sub (EvDownloadJSON (ID asset))] in
  let tr4 := tr3 ++ [Sub (EvTempFile "" "acdb")] in
  let tr5 := tr4 ++ [Sub (EvWrite tmp m)] in
  secretbox_opens ->
  length nonce = 24%nat -> length (shared.MD (keys (ac s))) = 32%nat ->
  c s = Some cl ->
  os_Open_manifest tr (target s) = Err e ->
  acd_GetMetadataFS (World := host_world tr1) [] p = Ok asset ->
  acd_DownloadJSON (World := host_world tr2) [] (ID asset)
  = Ok (mkSlice (nonce ++ secretbox_Seal m nonce (shared.MD (keys (ac s)))) sp) ->
  ioutil_TempFile (World := host_world tr3) [] "" "acdb" = Ok tmp ->
  file_Write (World := host_world tr4) [] tmp m = Ok tt ->
  file_Seek tr5 tmp = Ok tt ->
  list_open s tr = (Done (bytes_NewReader m), tr5 ++ [OpSeek tmp]).
Proof.
  intros p tr1 tr2 tr3 tr4 tr5 Hopens Hnonce Hkey Hc Hopen Hfind Hdl Htmp Hwr Hseek.
  unfold list_open. unfold bind at 1, ask_try at 1. rewrite Hopen. fold tr1.
  cbv iota beta.
  unfold bind at 1, downloadMD. rewrite Hc. fold p.
  unfold bind at 1, sub_try, sub, try, call. rewrite Hfind. cbn [of_outcome map app].
  fold tr2. rewrite Hdl. cbn [of_outcome map app]. fold tr3.
  unfold bind at 1, pure at 1.
  rewrite (slice_range_prefix nonce _ sp Hnonce). cbn [of_outcome].
  unfold bind at 1, pure at 1.
  rewrite (slice_from_app nonce _ sp Hnonce). cbn [of_outcome].
  cbv zeta. unfold shared.NonceSize.
  rewrite (copy_into_exact nonce Hnonce), (Hopens _ _ _ Hnonce Hkey).
  unfold bind, TempFile, Write, sub, call, ask, ret.
  rewrite Htmp. cbn [of_outcome map app]. fold tr4.
  rewrite Hwr. cbn [of_outcome map app]. fold tr5.
  rewrite Hseek. reflexivity.
Qed.

(** X30.  What [archive] puts on the drive as the manifest, [list] reads back:
    the blob uploaded under the target [-] is the nonce and the flushed
    manifest sealed under the metadata key; a [list] that is handed that
    blob by the drive opens it with the same key, writes the manifest to a
    temporary file and decodes from it the entries that were written, with
    or without compression. *)
Theorem uploaded_manifest_reads_back
        (a : acdb) (f : string) (tr : list op) (up : Asset) (ts : list entry)
        (s : state) (tr' : list op) (cl : Client) (e : error)
        (asset : Asset) (sp : bytes) (tmp : string) :
  let tr1 := tr ++ [OpSeek f] in
  let tr2 := tr1 ++ [OpStat f] in
  let tr3 := tr2 ++ [OpRead f] in
  let nonce := rand_Read (World := host_world tr3) [] shared.NonceSize in
  let name := time_Now_Format tr3 in
  let tr4 := tr3 ++ [OpNow] in
  let m := manifest (compress a) ts in
  let mde := nonce ++ secretbox_Seal m nonce (shared.MD (keys a)) in
  let p := (metadataName ++ "/" ++ target s)%string in
  let tr1' := tr' ++ [OpOpen (target s)] in
  let tr2' := tr1' ++ [Sub (EvGetMetadataFS p)] in
  let tr3' := tr2' ++ [Sub (EvDownloadJSON (ID asset))] in
  let tr4' := tr3' ++ [Sub (EvTempFile "" "acdb")] in
  let tr5' := tr4' ++ [Sub (EvWrite tmp m)] in
  secretbox_opens -> time_codec_ok -> gzip_flushed_reads ->
  Forall legal_entry ts ->
  me a = write_entries (NewEncoder [] (compress a)) ts ->
  length nonce = 24%nat -> length (shared.MD (keys a)) = 32%nat ->
  file_Seek tr f = Ok tt ->
  file_Stat tr1 f = Ok tt ->
  file_Read tr2 f = Ok tt ->
  acd_UploadJSON (World := host_world tr4) [] (metadataID a) name mde = Ok up ->
  shared.MD (keys (ac s)) = shared.MD (keys a) ->
  c s = Some cl ->
  os_Open_manifest tr' (target s) = Err e ->
  acd_GetMetadataFS (World := host_world tr1') [] p = Ok asset ->
  acd_DownloadJSON (World := host_world tr2') [] (ID asset) = Ok (mkSlice mde sp) ->
  ioutil_TempFile (World := host_world tr3') [] "" "acdb" = Ok tmp ->
  file_Write (World := host_world tr4') [] tmp m = Ok tt ->
  file_Seek tr5' tmp = Ok tt ->
  upload_manifest a f tr
  = (Done (set_me a (Flush (me a))),
     tr4 ++ [Sub (EvUploadJSON (metadataID a) name mde); OpPrintBackupComplete name])
  /\ exists r md,
       list_open s tr' = (Done r, tr5' ++ [OpSeek tmp])
       /\ NewDecoder r = Ok md
       /\ list_entries (S (length ts)) md = Some (Ok ts).
Proof.
  intros tr1 tr2 tr3 nonce name tr4 m mde p tr1' tr2' tr3' tr4' tr5'
         Hopens Htime Hgz Hlegal Hme Hnonce Hkey Hseek Hstat Hread Hup
         Hsame Hc Hopen Hfind Hdl Htmp Hwr Hseek'.
  assert (Hm : w (Flush (me a)) = m) by (rewrite Hme; reflexivity).
  split.
  - rewrite (upload_manifest_ok a f tr (up := up)); fold tr1 tr2 tr3 nonce name tr4;
      rewrite ?Hm; try assumption. reflexivity.
  - exists (bytes_NewReader m). 
    assert (Hdec : exists md, NewDecoder (bytes_NewReader m) = Ok md
                              /\ list_entries (S (length ts)) md = Some (Ok ts)).
    { subst m. rewrite ManifestFacts.manifest_eq, ManifestFacts.NewDecoder_manifest.
      destruct (compress a).
      - rewrite Hgz. cbn [obind]. eexists. split; [reflexivity|].
        apply ManifestFacts.list_entries_all; auto.
      - rewrite bufio_flushed_stream. eexists. split; [reflexivity|].
        apply ManifestFacts.list_entries_all; auto. }
    destruct Hdec as (md & Hmd & Hl). exists md.
    split; [|split; assumption].
    apply (list_open_remote s tr' nonce m (cl := cl) (e := e) (asset := asset)
                            (sp := sp) (tmp := tmp)); try assumption.
    + rewrite Hsame. exact Hkey.
    + fold p tr1' tr2'. rewrite Hsame. exact Hdl.
Qed.

End Facts.
End ProgramFacts.

(** ** Concrete runs of listing, restoring and archiving *)
Module ProgramRuns.
Import Mock Fixtures Samples acdbackup program.



(** Listing [backup.md] prints the three entries of [tree]. *)
Example list_local_manifest :
  _main (H := host with_local_manifest) 4 (list_flags "backup.md") []
  = (Done (Some tt),
     [OpOpen "backup.md";
      OpPrintEntry 2147484141 0 "d";
      OpPrintEntry (Z.lor os_ModeSymlink 493) 0 "d/b";
      OpPrintEntry 420 6 "hello.txt"]).
Proof. vm_compute. reflexivity. Qed.

Lemma restore_sets_directories_last_witness :
  exists md ts,
    metadata.NewDecoder (bytes_NewReader (manifest false two_dirs)) = Ok md
    /\ list_entries 3 md = Some (Ok ts)
    /\ snd (list_body (H := host with_local_manifest) 3 restoring
                      (bytes_NewReader (manifest false two_dirs)) [])
       = snd (list_loop (H := host with_local_manifest) 3 restoring md [])
           ++ flat_map (perm_ops (root (ac restoring))) (rev (dirs_of ts)).
Proof.
  apply (@ProgramFacts.restore_sets_directories_last crypto flate time_codec
           pathlib (host with_local_manifest) 3 restoring
           (bytes_NewReader (manifest false two_dirs)) []
           (snd (list_body (H := host with_local_manifest) 3 restoring
                           (bytes_NewReader (manifest false two_dirs)) []))).
  - reflexivity.
  - reflexivity.
  - reflexivity.
  - vm_compute. reflexivity.
Defined.

(** The restore of [two_dirs]: both directories are made and listed, then
    [d/e] gets its attributes, then [d]. *)
Example restore_two_dirs :
  list_body (H := host with_local_manifest) 3 restoring
            (bytes_NewReader (manifest false two_dirs)) []
  = (Done (Some tt),
     [Sub (EvMkdirAll "/restore/d" 493); OpPrintEntry 2147484141 0 "d";
      Sub (EvMkdirAll "/restore/d/e" 493); OpPrintEntry 2147484096 0 "d/e";
      Sub (EvChmod "/restore/d/e" 2147484096);
      Sub (EvChtimes "/restore/d/e" "u"%byte "u"%byte);
      Sub (EvChown "/restore/d/e" 1000 1000);
      Sub (EvChmod "/restore/d" 2147484141);
      Sub (EvChtimes "/restore/d" "t"%byte "t"%byte);
      Sub (EvChown "/restore/d" 1000 1000)]).
Proof. vm_compute. reflexivity. Qed.

Lemma online_conflict_keeps_ids_witness :
  let a2 := set_ids (set_keys (ac first_run) bundle) EmptyString EmptyString in
  online (H := host hidden_folders) 1 first_run []
  = bind (sub (H := host hidden_folders) (fun W => downloadSecrets 1 a2))
         (fun r => match r with
                   | None => ret None
                   | Some _ => ret (Some (mkState a2 (Some (mkClient "r0")) "-" []))
                   end)
         [OpDefaultKeysFilename; Sub (EvMkdirAll "." 448);
          OpNewClient "./acd-token.json"; OpLoadKeys "/home/u/.acdbackup/keys.json";
          OpGetChildrenJSON "" "?filters=kind:FOLDER";
          OpMkdirJSON "r0" "data"; OpMkdirJSON "r0" "metadata"].
Proof.
  apply (@ProgramFacts.online_conflict_keeps_ids crypto flate time_codec pathlib
           (host hidden_folders) 1 first_run [] "/home/u/.acdbackup/keys.json"
           (mkClient "r0") bundle [mkAsset "x1" "photos"]).
  - reflexivity.
  - reflexivity.
  - reflexivity.
  - reflexivity.
  - reflexivity.
  - constructor.
    + split; discriminate.
    + constructor.
  - reflexivity.
  - reflexivity.
Defined.

(** That first run ends with empty ids in the [acdb]. *)
Example first_run_goes_on_without_ids :
  online (H := host hidden_folders) 1 first_run []
  = (Done (Some (mkState (set_ids (set_keys (ac first_run) bundle) EmptyString EmptyString)
                         (Some (mkClient "r0")) "-" [])),
     [OpDefaultKeysFilename; Sub (EvMkdirAll "." 448);
      OpNewClient "./acd-token.json"; OpLoadKeys "/home/u/.acdbackup/keys.json";
      OpGetChildrenJSON "" "?filters=kind:FOLDER";
      OpMkdirJSON "r0" "data"; OpMkdirJSON "r0" "metadata";
      Sub (EvGetMetadataFS "metadata/secrets"); Sub (EvDownloadJSON "sec");
      Sub EvReadPassword]).
Proof. vm_compute. reflexivity. Qed.

Lemma uploaded_manifest_reads_back_witness :
  upload_manifest (H := host drive_with_manifest) sealing "acdb001" []
  = (Done (set_me sealing (metadata.Flush (me sealing))),
     [OpSeek "acdb001"; OpStat "acdb001"; OpRead "acdb001"; OpNow;
      Sub (EvUploadJSON "mdid" "20150601.120000" sealed_manifest);
      OpPrintBackupComplete "20150601.120000"])
  /\ exists r md,
       list_open (H := host drive_with_manifest) fetching []
       = (Done r,
          [OpOpen "20150601.120000";
           Sub (EvGetMetadataFS "metadata/20150601.120000");
           Sub (EvDownloadJSON "md1");
           Sub (EvTempFile "" "acdb");
           Sub (EvWrite "acdb001" (manifest true tree));
           OpSeek "acdb001"])
       /\ metadata.NewDecoder r = Ok md
       /\ list_entries 4 md = Some (Ok tree).
Proof.
  apply (@ProgramFacts.uploaded_manifest_reads_back crypto flate time_codec
           (host drive_with_manifest) sealing "acdb001" []
           (mkAsset "md1" "20150601.120000") tree fetching []
           (mkClient "r0") ErrNotExist (mkAsset "md1" "20150601.120000") [] "acdb001").
  - apply MockFacts.secretbox_opens_mock.
  - apply MockFacts.time_codec_ok_mock.
  - apply MockFacts.gzip_flushed_reads_mock.
  - apply ManifestRuns.tree_legal.
  - reflexivity.
  - reflexivity.
  - reflexivity.
  - reflexivity.
  - reflexivity.
  - reflexivity.
  - reflexivity.
  - reflexivity.
  - reflexivity.
  - reflexivity.
  - reflexivity.
  - reflexivity.
  - reflexivity.
  - reflexivity.
  - reflexivity.
Defined.

End ProgramRuns.
